(** * Academic metrics and transcript verification: a shallow embedding

    The development follows the Python sources of the college records
    application:

    - [grading/repeat_policy.py]       attempt selection under a repeat policy
    - [students/models.py]             [Student.update_academic_metrics] and the
                                       properties derived from the metrics
    - [grading/models.py]              [Grade.save]
    - [academics/graduation.py]        graduation audit and classification
    - [academics/eligibility.py]       prerequisite checks and course suggestions
    - [reporting/canonical_payload.py] canonical transcript payload
    - [reporting/security_features.py] issuing and verifying codes
    - [reporting/models.py]            [TranscriptVerificationRecord]
    - [reporting/transcript_generator.py] the grade table of a transcript

    Conventions.  A Python [str] is a Rocq [string] holding its UTF-8
    bytes.  [upper], [strip] and the digit class are written out for the
    ASCII characters, on which they are Python's; a statement that rests
    on one of them is made for strings of ASCII characters ([isascii]).
    A Python [int] is a [Z].  A finite Python [float] is the rational it
    stands for ([Q]): comparisons of floats are exact, and [+], [*], [/]
    and [round] are computed without binary rounding error; where a
    statement would rest on the rounding of a sum, the sum is a parameter
    ([float_add]).  [None] is [None] of an option type, or [JNull] inside
    JSON data.  A Django table is the list of its rows in primary-key
    order; where the order of an unordered query shows in a result, the
    rows are an argument.  A call that can raise returns a result that
    says so; what raises for reasons outside the rows here (the database,
    the validation of a whole row) is an input. *)

From Stdlib Require Import ZArith QArith Lia Lqa String Ascii DecimalString.
From stdpp Require Import base gmap sets list strings sorting.

Set Warnings "-clear-no-such-hyp,-register-all".

Open Scope Z_scope.

(** ** Python built-ins used by the sources *)

Module Py.

(** [c.upper()] on one ASCII character; bytes outside [a-z] are kept. *)
Definition upper_ascii (c : ascii) : ascii :=
  let n := nat_of_ascii c in
  if ((97 <=? n) && (n <=? 122))%nat then ascii_of_nat (n - 32) else c.

(** [s.upper()]. *)
Fixpoint upper (s : string) : string :=
  match s with
  | EmptyString => EmptyString
  | String c s' => String (upper_ascii c) (upper s')
  end.

(** [c.isspace()] on ASCII: tab, LF, VT, FF, CR, FS, GS, RS, US, space. *)
Definition isspace (c : ascii) : bool :=
  let n := nat_of_ascii c in
  (((9 <=? n) && (n <=? 13)) || ((28 <=? n) && (n <=? 32)))%nat.

Fixpoint lstrip (s : string) : string :=
  match s with
  | EmptyString => EmptyString
  | String c s' => if isspace c then lstrip s' else s
  end.

(** [rstrip] drops a character when it is white space and everything
    after it has been dropped as well. *)
Fixpoint rstrip (s : string) : string :=
  match s with
  | EmptyString => EmptyString
  | String c s' =>
      match rstrip s' with
      | EmptyString => if isspace c then EmptyString else String c EmptyString
      | r => String c r
      end
  end.

(** [s.strip()]. *)
Definition strip (s : string) : string := rstrip (lstrip s).

(** [sep.join(parts)]. *)
Fixpoint join (sep : string) (parts : list string) : string :=
  match parts with
  | [] => EmptyString
  | [p] => p
  | p :: rest => p +:+ sep +:+ join sep rest
  end.

(** [x or default] for an optional string: [None] and [''] are falsy. *)
Definition or_else (x : option string) (default : string) : string :=
  match x with
  | None => default
  | Some EmptyString => default
  | Some s => s
  end.

Definition isdigit (c : ascii) : bool :=
  let n := nat_of_ascii c in ((48 <=? n) && (n <=? 57))%nat.

Definition digit_value (c : ascii) : Z := Z.of_nat (nat_of_ascii c) - 48.

(** [re.search(r'(\d{4})', s)] followed by [int(m.group(1))]: the value
    of the leftmost run of four decimal digits, if there is one. *)
Fixpoint search_4digits (s : string) : option Z :=
  match s with
  | EmptyString => None
  | String a s' =>
      match s' with
      | String b (String c (String d _)) =>
          if isdigit a && isdigit b && isdigit c && isdigit d
          then Some (1000 * digit_value a + 100 * digit_value b
                     + 10 * digit_value c + digit_value d)
          else search_4digits s'
      | _ => None
      end
  end.

(** [max(seq, key=...)] on a non-empty sequence [x :: xs]: the first
    element whose key is not exceeded; [gt a b] is [key(a) > key(b)]. *)
Definition max_by {A} (gt : A → A → bool) (x : A) (xs : list A) : A :=
  foldl (λ best y, if gt y best then y else best) x xs.

(** Tuples of two integers compare lexicographically. *)
Definition pair_ltb (a b : Z * Z) : bool :=
  (a.1 <? b.1) || ((a.1 =? b.1) && (a.2 <? b.2)).

Definition pair_le (a b : Z * Z) : Prop :=
  a.1 < b.1 ∨ (a.1 = b.1 ∧ a.2 ≤ b.2).

(** [str(n)] for an integer. *)
Definition str_of_int (n : Z) : string := NilZero.string_of_int (Z.to_int n).

(** [round(x, 2)]: the nearest multiple of 1/100, ties to the even one. *)
Definition round2 (x : Q) : Q :=
  let n := Qnum x * 100 in
  let d := Z.pos (Qden x) in
  let q := n / d in
  let r := n mod d in
  let q' := if 2 * r <? d then q
            else if d <? 2 * r then q + 1
            else if Z.even q then q else q + 1 in
  (q' # 100)%Q.

(** [sorted(xs)] and [sorted(set(xs))] on strings (code-point order, which
    is byte order on UTF-8). *)
Definition str_le : relation string := λ a b, String.leb a b = true.

Global Instance str_le_dec : RelDecision str_le.
Proof. intros a b. unfold str_le. apply _. Defined.

Definition sorted (xs : list string) : list string := merge_sort str_le xs.
Definition sorted_set (xs : list string) : list string := sorted (remove_dups xs).

(** [float < float] and [float == float]. *)
Definition float_ltb (a b : Q) : bool := negb (Qle_bool b a).
Definition float_eqb (a b : Q) : bool := Qeq_bool a b.

End Py.

(** ** The relational store: the rows the core reads *)

Record Session := { session_pk : Z; session_name : string }.

Record Course := {
  course_pk : Z;
  code : string;
  title : string;
  units : Z
}.

Record CourseOffering := {
  offering_course : Course;
  offering_session : Session;
  offering_semester : string
}.

Record Enrollment := {
  enrollment_id : Z;
  enrollment_student : Z;           (* primary key of the student *)
  course_offering : CourseOffering
}.

(** The three [@property] accessors of [grading.models.Enrollment]. *)
Definition course (e : Enrollment) : Course := offering_course (course_offering e).
Definition session (e : Enrollment) : Session := offering_session (course_offering e).
Definition semester (e : Enrollment) : string := offering_semester (course_offering e).

Record Grade := {
  grade_enrollment : Z;             (* OneToOneField to Enrollment *)
  total_score : Q;
  grade : string;
  status : string
}.

Definition STATUS_APPROVED : string := "APPROVED".

Record GradingSettings := {
  grade_name : string;
  min_score : Q;
  max_score : Q;
  grade_point : Q
}.

Record AcademicPolicySettings := {
  repeat_policy : string;
  require_approved_for_transcripts : bool;
  require_approved_for_exports : bool;
  require_approved_for_metrics : bool
}.

Record Program := {
  program_pk : Z;
  program_code : string;
  min_units_to_graduate : Z;
  classification_scheme : string
}.

Record CurriculumCourse := {
  cc_program : Z;
  cc_course : Course;
  is_compulsory : bool
}.

Record ProgramClassificationThreshold := {
  threshold_program : Z;
  label : string;
  min_cgpa : Q
}.

Record Prerequisite := {
  prereq_program : Z;
  prereq_course : Z;                (* primary key of the target course *)
  prerequisite_course : Course
}.

Record Student := {
  student_pk : Z;
  student_id : string;
  first_name : string;
  last_name : string;
  entry_level : option string;      (* Level.name, when the key is set *)
  current_level : option string;
  current_session : option string;  (* Session.name, when the key is set *)
  program : option Program
}.

Record CollegeSettings := {
  college_pk : Z;
  college_name : option string;
  college_address : option string
}.

Record DB := {
  students : list Student;
  enrollments : list Enrollment;
  grades : list Grade;
  grading_settings : list GradingSettings;
  policy : AcademicPolicySettings;    (* the row [get_solo()] returns *)
  curriculum : list CurriculumCourse;
  thresholds : list ProgramClassificationThreshold;
  prerequisites : list Prerequisite
}.

(** *** Queries *)

(** Outcome of [Model.objects.get(...)]. *)
Inductive GetResult (A : Type) :=
  | Found (row : A)
  | DoesNotExist
  | MultipleObjectsReturned.
Arguments Found {A} row.
Arguments DoesNotExist {A}.
Arguments MultipleObjectsReturned {A}.

Definition objects_get {A} (rows : list A) : GetResult A :=
  match rows with
  | [] => DoesNotExist
  | [r] => Found r
  | _ => MultipleObjectsReturned
  end.

(** [ORDER BY key DESC].  The database leaves the order of rows with equal
    keys open; here it is the one [merge_sort] produces. *)
Definition desc_by {A} (key : A → Q) : relation A := λ x y, (key y <= key x)%Q.

Global Instance desc_by_dec {A} (key : A → Q) : RelDecision (desc_by key).
Proof. intros x y. unfold desc_by. destruct (Qlt_le_dec (key x) (key y)) as [H|H].
  - right. intros H'. exact (Qlt_not_le _ _ H H').
  - left. exact H.
Defined.

Definition order_by_desc {A} (key : A → Q) (rows : list A) : list A :=
  merge_sort (desc_by key) rows.

(** [Grade.objects.filter(enrollment=e)]. *)
Definition grades_of (db : DB) (e : Enrollment) : list Grade :=
  filter (λ g, grade_enrollment g = enrollment_id e) (grades db).

(** [GradingSettings.objects.filter(grade_name=name)]; the model's
    [Meta.ordering] is [['-min_score']]. *)
Definition settings_named (db : DB) (name : string) : list GradingSettings :=
  filter (λ gs, grade_name gs = name) (order_by_desc min_score (grading_settings db)).

(** [Enrollment.objects.filter(student=s, course_offering__course=c)]. *)
Definition attempts_of (db : DB) (s : Student) (c : Course) : list Enrollment :=
  filter (λ e, enrollment_student e = student_pk s ∧ course_pk (course e) = course_pk c)
         (enrollments db).

(** [student.enrollment_set.all()] and [Enrollment.objects.filter(student=s)]. *)
Definition enrollment_set (db : DB) (s : Student) : list Enrollment :=
  filter (λ e, enrollment_student e = student_pk s) (enrollments db).

(** ** [grading/repeat_policy.py] *)

Module RepeatPolicy.

(** [SEMESTER_ORDER.get(semester, 0)]. *)
Definition SEMESTER_ORDER_get (sem : string) : Z :=
  if decide (sem = "FIRST") then 1
  else if decide (sem = "SECOND") then 2
  else if decide (sem = "SUMMER") then 3
  else 0.

Definition _session_sort_key (session_name : option string) : Z :=
  match session_name with
  | None => 0
  | Some EmptyString => 0
  | Some s => match Py.search_4digits s with Some y => y | None => 0 end
  end.

Definition term_sort_key (e : Enrollment) : Z * Z :=
  (_session_sort_key (Some (session_name (session e))),
   SEMESTER_ORDER_get (semester e)).

Definition grade_point_for_enrollment (db : DB) (e : Enrollment) : Q :=
  match head (grades_of db e) with
  | None => (-1)%Q
  | Some g =>
      if decide (grade g = "") then (-1)%Q
      else match head (settings_named db (grade g)) with
           | None => (-1)%Q
           | Some setting => grade_point setting
           end
  end.

(** The key of policy BEST, [(grade_point, term_sort_key)], and its
    strict order (tuple comparison). *)
Definition best_key (db : DB) (e : Enrollment) : Q * (Z * Z) :=
  (grade_point_for_enrollment db e, term_sort_key e).

Definition best_key_ltb (a b : Q * (Z * Z)) : bool :=
  Py.float_ltb a.1 b.1 || (Py.float_eqb a.1 b.1 && Py.pair_ltb a.2 b.2).

Definition best_key_le (a b : Q * (Z * Z)) : Prop :=
  (a.1 < b.1)%Q ∨ ((a.1 == b.1)%Q ∧ Py.pair_le a.2 b.2).

(** [by_course.setdefault(k, []).append(e)] on an insertion-ordered
    dictionary. *)
Fixpoint setdefault_append (k : string) (e : Enrollment)
    (d : list (string * list Enrollment)) : list (string * list Enrollment) :=
  match d with
  | [] => [(k, [e])]
  | (k', es) :: d' =>
      if decide (k' = k) then (k', es ++ [e]) :: d'
      else (k', es) :: setdefault_append k e d'
  end.

Definition group_by_course (enroll_list : list Enrollment)
    : list (string * list Enrollment) :=
  foldl (λ by_course e, setdefault_append (code (course e)) e by_course) [] enroll_list.

Definition ids (es : list Enrollment) : gset Z :=
  list_to_set (enrollment_id <$> es).

(** One iteration of the loop over [by_course.items()].  The lists in
    [by_course] are never empty; [max] of an empty list would raise. *)
Definition choose (db : DB) (repeat_policy : string)
    (chosen : gset Z) (attempts : list Enrollment) : gset Z :=
  match attempts with
  | [] => chosen
  | a :: rest =>
      if decide (repeat_policy = "LATEST") then
        let best := Py.max_by
          (λ x y, Py.pair_ltb (term_sort_key y) (term_sort_key x)) a rest in
        chosen ∪ {[ enrollment_id best ]}
      else if decide (repeat_policy = "BEST") then
        let best := Py.max_by
          (λ x y, best_key_ltb (best_key db y) (best_key db x)) a rest in
        chosen ∪ {[ enrollment_id best ]}
      else chosen ∪ ids attempts
  end.

Definition select_enrollments_for_gpa (db : DB)
    (enrollments : list Enrollment) (repeat_policy : option string) : gset Z :=
  let repeat_policy := Py.upper (Py.or_else repeat_policy "ALL") in
  let enroll_list := enrollments in
  if decide (repeat_policy = "ALL") then ids enroll_list
  else
    let by_course := group_by_course enroll_list in
    foldl (λ chosen item, choose db repeat_policy chosen item.2) ∅ by_course.

End RepeatPolicy.


(** ** [Student.update_academic_metrics] in [students/models.py] *)

Module Metrics.

(** A call either returns or lets an exception escape. *)
Inductive outcome (A : Type) :=
  | Returned (a : A)
  | Raised (exc : string).
Arguments Returned {A} a.
Arguments Raised {A} exc.

(** The local variables of the loop. *)
Record acc := {
  total_grade_points : Q;
  total_units : Z;
  passed_units : Z;
  sessions_set : gset Z
}.

(** The fields the method assigns on the student. *)
Record metrics := {
  current_cgpa : Q;
  total_units_attempted : Z;
  total_units_passed : Z;
  total_sessions_completed : Z
}.

(** The [except (Grade.DoesNotExist, GradingSettings.DoesNotExist)] branch. *)
Definition no_grade_branch (counted_ids : gset Z) (e : Enrollment) (a : acc) : acc :=
  {| total_grade_points := total_grade_points a;
     total_units := if decide (enrollment_id e ∈ counted_ids)
                    then total_units a + units (course e) else total_units a;
     passed_units := passed_units a;
     sessions_set := sessions_set a ∪ {[ session_pk (session e) ]} |}.

(** The body of the [try] once grade and scale entry are at hand. *)
Definition graded_branch (counted_ids : gset Z) (e : Enrollment)
    (grading_setting : GradingSettings) (a : acc) : acc :=
  let course_units := units (course e) in
  let grade_points := (grade_point grading_setting * inject_Z course_units)%Q in
  let counted := bool_decide (enrollment_id e ∈ counted_ids) in
  {| total_grade_points := if counted then (total_grade_points a + grade_points)%Q
                           else total_grade_points a;
     total_units := if counted then total_units a + course_units else total_units a;
     passed_units := if Py.float_ltb 0 (grade_point grading_setting)
                     then passed_units a + course_units else passed_units a;
     sessions_set := sessions_set a ∪ {[ session_pk (session e) ]} |}.

(** One iteration of [for enrollment in enrollments]. *)
Definition step (db : DB) (counted_ids : gset Z) (a : acc) (e : Enrollment)
    : outcome acc :=
  match objects_get (grades_of db e) with
  | MultipleObjectsReturned => Raised "Grade.MultipleObjectsReturned"
  | DoesNotExist => Returned (no_grade_branch counted_ids e a)
  | Found g =>
      if require_approved_for_metrics (policy db)
         && negb (bool_decide (status g = STATUS_APPROVED))
      then Returned a                     (* continue *)
      else
        match objects_get (settings_named db (grade g)) with
        | MultipleObjectsReturned => Raised "GradingSettings.MultipleObjectsReturned"
        | DoesNotExist => Returned (no_grade_branch counted_ids e a)
        | Found grading_setting => Returned (graded_branch counted_ids e grading_setting a)
        end
  end.

Fixpoint loop (db : DB) (counted_ids : gset Z) (a : acc) (es : list Enrollment)
    : outcome acc :=
  match es with
  | [] => Returned a
  | e :: es' =>
      match step db counted_ids a e with
      | Returned a' => loop db counted_ids a' es'
      | Raised exc => Raised exc
      end
  end.

Definition acc0 : acc :=
  {| total_grade_points := 0; total_units := 0; passed_units := 0; sessions_set := ∅ |}.

Definition finish (a : acc) : metrics :=
  {| current_cgpa := if 0 <? total_units a
                     then Py.round2 (total_grade_points a / inject_Z (total_units a))
                     else 0%Q;
     total_units_attempted := total_units a;
     total_units_passed := passed_units a;
     total_sessions_completed := Z.of_nat (size (sessions_set a)) |}.

Definition update_academic_metrics (db : DB) (self : Student) : outcome metrics :=
  let enrollments := enrollment_set db self in
  let policy := repeat_policy (policy db) in
  let counted_ids :=
    RepeatPolicy.select_enrollments_for_gpa db enrollments (Some policy) in
  match loop db counted_ids acc0 enrollments with
  | Returned a => Returned (finish a)
  | Raised exc => Raised exc
  end.

End Metrics.

(** ** [academics/graduation.py] *)

Module Graduation.

Record GraduationAuditResult := {
  eligible : bool;
  cgpa : Q;
  total_units_earned : Z;
  missing_compulsory_courses : list string;
  classification : option string;
  notes : list string
}.

Definition _grade_point (db : DB) (e : Enrollment) (require_approved : bool) : option Q :=
  match head (grades_of db e) with
  | None => None
  | Some g =>
      if decide (grade g = "") then None
      else if require_approved && negb (bool_decide (status g = STATUS_APPROVED)) then None
      else match head (settings_named db (grade g)) with
           | None => None
           | Some setting => Some (grade_point setting)
           end
  end.

Definition cgpa_step (db : DB) (require_approved : bool) (a : Q * Z) (e : Enrollment)
    : Q * Z :=
  match _grade_point db e require_approved with
  | None => a
  | Some gp =>
      let units := units (course e) in
      ((a.1 + inject_Z units * gp)%Q, a.2 + units)
  end.

Definition compute_cgpa_for_program (db : DB) (student : Student)
    (require_approved : bool) : Q * Z :=
  let '(total_points, total_units) :=
    foldl (cgpa_step db require_approved) (0%Q, 0) (enrollment_set db student) in
  if decide (total_units = 0) then (0%Q, 0)
  else (Py.round2 (total_points / inject_Z total_units), total_units).

Fixpoint passed_loop (db : DB) (require_approved : bool) (qs : list Enrollment) : bool :=
  match qs with
  | [] => false
  | e :: qs' =>
      match _grade_point db e require_approved with
      | None => passed_loop db require_approved qs'
      | Some gp => if Py.float_ltb 0 gp then true else passed_loop db require_approved qs'
      end
  end.

Definition passed_course (db : DB) (student : Student) (course : Course)
    (require_approved : bool) : bool :=
  passed_loop db require_approved (attempts_of db student course).

Definition CLASS_SCHEME_BSC : string := "BSC".

Definition legacy_bsc : list (string * Q) :=
  [("First Class", 3.5); ("Second Class Upper", 3.0); ("Second Class Lower", 2.0);
   ("Third Class", 1.0); ("Fail", 0.0)]%Q.

Definition legacy_nd : list (string * Q) :=
  [("Distinction", 3.5); ("Upper Credit", 3.0); ("Lower Credit", 2.5);
   ("Pass", 2.0); ("Fail", 0.0)]%Q.

(** [for x in ladder: if cgpa >= min(x): return label(x)], then [fallback]. *)
Fixpoint first_band {A} (min : A → Q) (label : A → string) (cgpa : Q)
    (ladder : list A) (fallback : string) : string :=
  match ladder with
  | [] => fallback
  | t :: rest =>
      if Qle_bool (min t) cgpa then label t
      else first_band min label cgpa rest fallback
  end.

(** [program.classification_thresholds.all()]; [Meta.ordering] is
    [['-min_cgpa']]. *)
Definition classification_thresholds (db : DB) (program : Program)
    : list ProgramClassificationThreshold :=
  order_by_desc min_cgpa
    (filter (λ t, threshold_program t = program_pk program) (thresholds db)).

Definition classify (db : DB) (program : Program) (cgpa : Q) : string :=
  let thresholds := classification_thresholds db program in
  match last thresholds with
  | None =>
      let ladder := if decide (classification_scheme program = CLASS_SCHEME_BSC)
                    then legacy_bsc else legacy_nd in
      first_band snd fst cgpa ladder "Fail"
  | Some catch_all => first_band min_cgpa label cgpa thresholds (label catch_all)
  end.

(** The loop over the compulsory curriculum rows. *)
Definition missing_compulsory (db : DB) (student : Student) (program : Program)
    (require_approved : bool) : list string :=
  let compulsory :=
    filter (λ cc, cc_program cc = program_pk program ∧ is_compulsory cc = true)
           (curriculum db) in
  code <$> (cc_course <$>
    filter (λ cc, passed_course db student (cc_course cc) require_approved = false)
           compulsory).

Definition audit_student_graduation (db : DB) (student : Student)
    : GraduationAuditResult :=
  match program student with
  | None =>
      {| eligible := false; cgpa := 0; total_units_earned := 0;
         missing_compulsory_courses := []; classification := None;
         notes := ["Student has no program assigned"] |}
  | Some program =>
      let require_approved := require_approved_for_metrics (policy db) in
      let '(cgpa, total_units) := compute_cgpa_for_program db student require_approved in
      let missing := missing_compulsory db student program require_approved in
      let has_missing := negb (bool_decide (missing = [])) in
      let short := negb (min_units_to_graduate program =? 0)
                   && (total_units <? min_units_to_graduate program) in
      let eligible := negb has_missing && negb short in
      let notes :=
        (if has_missing
         then ["Missing compulsory courses: " +:+ Py.join ", " (Py.sorted_set missing)]
         else [])
        ++ (if short
            then ["Insufficient units: " +:+ Py.str_of_int total_units +:+ "/"
                  +:+ Py.str_of_int (min_units_to_graduate program)]
            else []) in
      {| eligible := eligible; cgpa := cgpa; total_units_earned := total_units;
         missing_compulsory_courses := Py.sorted_set missing;
         classification := if eligible then Some (classify db program cgpa) else None;
         notes := notes |}
  end.

End Graduation.

(** ** [academics/eligibility.py] *)

Module Eligibility.

Fixpoint passed_loop (db : DB) (require_approved : bool) (qs : list Enrollment) : bool :=
  match qs with
  | [] => false
  | e :: qs' =>
      match head (grades_of db e) with
      | None => passed_loop db require_approved qs'
      | Some g =>
          if decide (grade g = "") then passed_loop db require_approved qs'
          else if require_approved && negb (bool_decide (status g = STATUS_APPROVED))
          then passed_loop db require_approved qs'
          else match head (settings_named db (grade g)) with
               | Some gs =>
                   if Py.float_ltb 0 (grade_point gs) then true
                   else passed_loop db require_approved qs'
               | None => passed_loop db require_approved qs'
               end
      end
  end.

Definition student_passed_course (db : DB) (student : Student) (course : Course) : bool :=
  let policy := policy db in
  let require_approved := require_approved_for_metrics policy in
  passed_loop db require_approved (attempts_of db student course).

(** The body of [check_prerequisites] once the query has answered with
    the rows [prereqs].  The query has no [order_by] and [Prerequisite] no
    [Meta.ordering]: the database chooses the order of the rows, and the
    loop appends to [missing] in that order. *)
Definition check_prerequisites_rows (db : DB) (student : Student)
    (prereqs : list Prerequisite) : bool * option string :=
  let missing :=
    code <$> (prerequisite_course <$>
      filter (λ p, student_passed_course db student (prerequisite_course p) = false)
             prereqs) in
  match missing with
  | [] => (true, None)
  | _ => (false, Some ("Missing prerequisites: " +:+ Py.join ", " missing))
  end.

(** [check_prerequisites], the rows answered in primary-key order. *)
Definition check_prerequisites (db : DB) (student : Student) (program : Program)
    (course : Course) : bool * option string :=
  let prereqs :=
    filter (λ p, prereq_program p = program_pk program ∧ prereq_course p = course_pk course)
           (prerequisites db) in
  check_prerequisites_rows db student prereqs.

End Eligibility.

(** ** [hashlib.sha256] (FIPS 180-4), on 32-bit words held in [Z] *)

Module Sha256.

Definition w32 (x : Z) : Z := x mod 2 ^ 32.

Definition add32 (x y : Z) : Z := w32 (x + y).

Definition rotr (n x : Z) : Z := Z.lor (Z.shiftr x n) (w32 (Z.shiftl x (32 - n))).

Definition Ch (x y z : Z) : Z :=
  Z.lxor (Z.land x y) (Z.land (Z.lxor x 0xffffffff) z).

Definition Maj (x y z : Z) : Z :=
  Z.lxor (Z.lxor (Z.land x y) (Z.land x z)) (Z.land y z).

Definition Sigma0 (x : Z) : Z := Z.lxor (Z.lxor (rotr 2 x) (rotr 13 x)) (rotr 22 x).
Definition Sigma1 (x : Z) : Z := Z.lxor (Z.lxor (rotr 6 x) (rotr 11 x)) (rotr 25 x).
Definition sigma0 (x : Z) : Z := Z.lxor (Z.lxor (rotr 7 x) (rotr 18 x)) (Z.shiftr x 3).
Definition sigma1 (x : Z) : Z := Z.lxor (Z.lxor (rotr 17 x) (rotr 19 x)) (Z.shiftr x 10).

(** The round constants and the initial hash value are the first 32 bits
    of the fractional parts of the cube roots and of the square roots of
    the first primes (FIPS 180-4, 4.2.2 and 5.3.3). *)
Definition primes : list Z :=
  [2; 3; 5; 7; 11; 13; 17; 19; 23; 29; 31; 37; 41; 43; 47; 53; 59; 61; 67; 71;
   73; 79; 83; 89; 97; 101; 103; 107; 109; 113; 127; 131; 137; 139; 149; 151;
   157; 163; 167; 173; 179; 181; 191; 193; 197; 199; 211; 223; 227; 229; 233;
   239; 241; 251; 257; 263; 269; 271; 277; 281; 283; 293; 307; 311].

(** The largest [m] below [2 * bit] with [m ^ k <= n], found bit by bit. *)
Fixpoint root_bits (k : Z) (fuel : nat) (bit m n : Z) : Z :=
  match fuel with
  | O => m
  | S fuel' =>
      root_bits k fuel' (bit / 2) (if (m + bit) ^ k <=? n then m + bit else m) n
  end.

Definition frac_root (k p : Z) : Z :=
  w32 (root_bits k 40 (2 ^ 39) 0 (p * 2 ^ (32 * k))).

Definition K : list Z := frac_root 3 <$> primes.

Record state := {
  ha : Z; hb : Z; hc : Z; hd : Z; he : Z; hf : Z; hg : Z; hh : Z
}.

Definition H0 : state :=
  {| ha := frac_root 2 2; hb := frac_root 2 3; hc := frac_root 2 5;
     hd := frac_root 2 7; he := frac_root 2 11; hf := frac_root 2 13;
     hg := frac_root 2 17; hh := frac_root 2 19 |}.

(** The message bytes, the byte 0x80, zero bytes up to 56 modulo 64, and
    the bit length as eight big-endian bytes. *)
Definition bytes_of (msg : string) : list Z :=
  (λ c, Z.of_nat (nat_of_ascii c)) <$> list_ascii_of_string msg.

Definition be_bytes (width : nat) (x : Z) : list Z :=
  (λ i, (x / 2 ^ (8 * Z.of_nat (width - 1 - i))) mod 256) <$> seq 0 width.

Definition pad (bytes : list Z) : list Z :=
  let len := Z.of_nat (length bytes) in
  let zeros := Z.to_nat ((55 - len) mod 64) in
  bytes ++ [0x80] ++ replicate zeros 0 ++ be_bytes 8 (8 * len).

Fixpoint words_of (bytes : list Z) : list Z :=
  match bytes with
  | b0 :: b1 :: b2 :: b3 :: rest =>
      (((b0 * 256 + b1) * 256 + b2) * 256 + b3) :: words_of rest
  | _ => []
  end.

(** The message schedule: sixteen block words extended to sixty-four. *)
Definition schedule_next (w : list Z) : Z :=
  let t := length w in
  let at_ (i : nat) := nth (t - i) w 0 in
  add32 (add32 (add32 (sigma1 (at_ 2%nat)) (at_ 7%nat)) (sigma0 (at_ 15%nat))) (at_ 16%nat).

Fixpoint extend (n : nat) (w : list Z) : list Z :=
  match n with
  | O => w
  | S n' => extend n' (w ++ [schedule_next w])
  end.

Definition round (s : state) (kw : Z * Z) : state :=
  let T1 := add32 (add32 (add32 (add32 (hh s) (Sigma1 (he s)))
                                (Ch (he s) (hf s) (hg s))) kw.1) kw.2 in
  let T2 := add32 (Sigma0 (ha s)) (Maj (ha s) (hb s) (hc s)) in
  {| ha := add32 T1 T2; hb := ha s; hc := hb s; hd := hc s;
     he := add32 (hd s) T1; hf := he s; hg := hf s; hh := hg s |}.

Definition compress (h : state) (block : list Z) : state :=
  let s := foldl round h (zip K (extend 48 block)) in
  {| ha := add32 (ha h) (ha s); hb := add32 (hb h) (hb s);
     hc := add32 (hc h) (hc s); hd := add32 (hd h) (hd s);
     he := add32 (he h) (he s); hf := add32 (hf h) (hf s);
     hg := add32 (hg h) (hg s); hh := add32 (hh h) (hh s) |}.

Fixpoint blocks (n : nat) (h : state) (words : list Z) : state :=
  match n with
  | O => h
  | S n' => blocks n' (compress h (take 16 words)) (drop 16 words)
  end.

Definition digest (msg : string) : state :=
  let words := words_of (pad (bytes_of msg)) in
  blocks (length words / 16) H0 words.

Definition hexchar (n : Z) : ascii :=
  match n with
  | 0 => "0" | 1 => "1" | 2 => "2" | 3 => "3" | 4 => "4" | 5 => "5" | 6 => "6"
  | 7 => "7" | 8 => "8" | 9 => "9" | 10 => "a" | 11 => "b" | 12 => "c"
  | 13 => "d" | 14 => "e" | _ => "f"
  end%char.

Definition hex8 (w : Z) (rest : string) : string :=
  String (hexchar (w / 2 ^ 28 mod 16)) (String (hexchar (w / 2 ^ 24 mod 16))
  (String (hexchar (w / 2 ^ 20 mod 16)) (String (hexchar (w / 2 ^ 16 mod 16))
  (String (hexchar (w / 2 ^ 12 mod 16)) (String (hexchar (w / 2 ^ 8 mod 16))
  (String (hexchar (w / 2 ^ 4 mod 16)) (String (hexchar (w mod 16)) rest))))))).

(** [hashlib.sha256(msg).hexdigest()]. *)
Definition hexdigest (msg : string) : string :=
  let h := digest msg in
  hex8 (ha h) (hex8 (hb h) (hex8 (hc h) (hex8 (hd h)
    (hex8 (he h) (hex8 (hf h) (hex8 (hg h) (hex8 (hh h) EmptyString))))))).

End Sha256.

(** ** JSON values and [json.dumps] *)

Module Json.

(** A JSON-serializable Python value; a [dict] keeps its insertion order. *)
Inductive json :=
  | JNull
  | JBool (b : bool)
  | JInt (n : Z)
  | JFloat (x : Q)
  | JStr (s : string)
  | JArr (items : list json)
  | JObj (members : list (string * json)).

Definition dict : Type := list (string * json).

Fixpoint lookup (key : string) (d : dict) : option json :=
  match d with
  | [] => None
  | (k, v) :: d' => if decide (k = key) then Some v else lookup key d'
  end.

(** [d.get(key)]: the value, or [None] when the key is absent. *)
Definition get (key : string) (d : dict) : json := default JNull (lookup key d).

(** [d[key] = value]. *)
Fixpoint set (key : string) (value : json) (d : dict) : dict :=
  match d with
  | [] => [(key, value)]
  | (k, v) :: d' => if decide (k = key) then (k, value) :: d' else (k, v) :: set key value d'
  end.

(** Truth value of a Python object, as [if x:] and [not x] test it. *)
Definition truthy (j : json) : bool :=
  match j with
  | JNull => false
  | JBool b => b
  | JInt n => negb (n =? 0)
  | JFloat x => negb (Qeq_bool x 0)
  | JStr s => negb (bool_decide (s = ""))
  | JArr items => negb (bool_decide (items = []))
  | JObj members => match members with [] => false | _ => true end
  end.

(** [s != v] for a string [s] and any value [v]. *)
Definition str_ne (s : string) (v : json) : bool :=
  match v with
  | JStr s' => negb (bool_decide (s = s'))
  | _ => true
  end.

Definition char (n : nat) : string := String (ascii_of_nat n) EmptyString.

Definition hexdigit (n : Z) : ascii :=
  match n with
  | 0 => "0" | 1 => "1" | 2 => "2" | 3 => "3" | 4 => "4" | 5 => "5" | 6 => "6"
  | 7 => "7" | 8 => "8" | 9 => "9" | 10 => "a" | 11 => "b" | 12 => "c"
  | 13 => "d" | 14 => "e" | _ => "f"
  end%char.

(** One character of a string literal under [ensure_ascii=False]: the
    quote, the backslash and the control characters are escaped. *)
Definition escape_char (c : ascii) : string :=
  let n := nat_of_ascii c in
  if (n =? 34)%nat then char 92 +:+ char 34
  else if (n =? 92)%nat then char 92 +:+ char 92
  else if (n =? 10)%nat then char 92 +:+ "n"
  else if (n =? 13)%nat then char 92 +:+ "r"
  else if (n =? 9)%nat then char 92 +:+ "t"
  else if (n =? 8)%nat then char 92 +:+ "b"
  else if (n =? 12)%nat then char 92 +:+ "f"
  else if (n <? 32)%nat then
    char 92 +:+ "u00" +:+ String (hexdigit (Z.of_nat n / 16))
                           (String (hexdigit (Z.of_nat n mod 16)) EmptyString)
  else String c EmptyString.

Fixpoint escape (s : string) : string :=
  match s with
  | EmptyString => EmptyString
  | String c s' => escape_char c +:+ escape s'
  end.

Definition quote (s : string) : string := char 34 +:+ escape s +:+ char 34.

Fixpoint frac_digits (fuel : nat) (r d : Z) : string :=
  match fuel with
  | O => EmptyString
  | S fuel' =>
      if r =? 0 then EmptyString
      else String (hexdigit (10 * r / d)) (frac_digits fuel' (10 * r mod d) d)
  end.

(** [float.__repr__] in positional notation: the integer part, a point
    and the decimals, at least one.  (Python switches to exponent notation
    below 1e-4 and from 1e16 on; such values do not occur here.) *)
Definition float_repr (x : Q) : string :=
  let d := Z.pos (Qden x) in
  let a := Z.abs (Qnum x) in
  (if Qnum x <? 0 then "-" else "") +:+ Py.str_of_int (a / d) +:+ "."
  +:+ (if a mod d =? 0 then "0" else frac_digits 17 (a mod d) d).

Definition key_le : relation (string * string) := λ a b, Py.str_le a.1 b.1.

Global Instance key_le_dec : RelDecision key_le.
Proof. intros a b. unfold key_le. apply _. Defined.

(** [json.dumps(payload, sort_keys=True, separators=(',', ':'),
    ensure_ascii=False)].  The members of an object are rendered first and
    then ordered by key, which gives the text [sort_keys] produces: it
    orders the items by key before rendering them. *)
Fixpoint dumps (j : json) : string :=
  match j with
  | JNull => "null"
  | JBool true => "true"
  | JBool false => "false"
  | JInt n => Py.str_of_int n
  | JFloat x => float_repr x
  | JStr s => quote s
  | JArr items => "[" +:+ Py.join "," (List.map dumps items) +:+ "]"
  | JObj members =>
      let rendered := List.map (λ kv, let '(k, v) := kv in (k, dumps v)) members in
      "{" +:+ Py.join "," ((λ kv, quote kv.1 +:+ ":" +:+ kv.2) <$> merge_sort key_le rendered)
      +:+ "}"
  end.

End Json.

(** ** [datetime]: an aware UTC instant, in microseconds since the epoch *)

Module Datetime.

(** Proleptic Gregorian date of a day number (days since 1970-01-01). *)
Definition civil_from_days (z : Z) : Z * Z * Z :=
  let z := z + 719468 in
  let era := z / 146097 in
  let doe := z - era * 146097 in
  let yoe := (doe - doe / 1460 + doe / 36524 - doe / 146096) / 365 in
  let doy := doe - (365 * yoe + yoe / 4 - yoe / 100) in
  let mp := (5 * doy + 2) / 153 in
  let d := doy - (153 * mp + 2) / 5 + 1 in
  let m := if mp <? 10 then mp + 3 else mp - 9 in
  (yoe + era * 400 + (if m <=? 2 then 1 else 0), m, d).

Definition days_from_civil (y m d : Z) : Z :=
  let y := if m <=? 2 then y - 1 else y in
  let era := y / 400 in
  let yoe := y - era * 400 in
  let doy := (153 * (if 2 <? m then m - 3 else m + 9) + 2) / 5 + d - 1 in
  let doe := yoe * 365 + yoe / 4 - yoe / 100 + doy in
  era * 146097 + doe - 719468.

Fixpoint zero_pad (width : nat) (n : Z) : string :=
  match width with
  | O => EmptyString
  | S w => zero_pad w (n / 10) +:+ String (Json.hexdigit (n mod 10)) EmptyString
  end.

(** [t.isoformat()] for an aware UTC datetime. *)
Definition isoformat (t : Z) : string :=
  let day := t / 86400000000 in
  let us := t mod 86400000000 in
  let '(y, m, d) := civil_from_days day in
  let secs := us / 1000000 in
  zero_pad 4 y +:+ "-" +:+ zero_pad 2 m +:+ "-" +:+ zero_pad 2 d +:+ "T"
  +:+ zero_pad 2 (secs / 3600) +:+ ":" +:+ zero_pad 2 (secs / 60 mod 60) +:+ ":"
  +:+ zero_pad 2 (secs mod 60)
  +:+ (if us mod 1000000 =? 0 then "" else "." +:+ zero_pad 6 (us mod 1000000))
  +:+ "+00:00".

Definition digits_value (s : string) : option Z :=
  foldl (λ acc c, n ← acc;
                  if ((48 <=? nat_of_ascii c) && (nat_of_ascii c <=? 57))%nat
                  then Some (10 * n + Z.of_nat (nat_of_ascii c) - 48) else None)
        (Some 0) (list_ascii_of_string s).

(** [datetime.fromisoformat(s.replace('Z', '+00:00'))] on the texts
    [isoformat] writes; [None] stands for [ValueError]. *)
Definition fromisoformat (s : string) : option Z :=
  y ← digits_value (substring 0 4 s);
  m ← digits_value (substring 5 2 s);
  d ← digits_value (substring 8 2 s);
  hh ← digits_value (substring 11 2 s);
  mi ← digits_value (substring 14 2 s);
  ss ← digits_value (substring 17 2 s);
  us ← (if decide (substring 19 1 s = ".") then digits_value (substring 20 6 s)
        else Some 0);
  let tz := if decide (substring 19 1 s = ".") then substring 26 6 s
            else substring 19 6 s in
  if decide (substring 4 1 s = "-" ∧ substring 7 1 s = "-" ∧ substring 10 1 s = "T"
             ∧ substring 13 1 s = ":" ∧ substring 16 1 s = ":"
             ∧ (tz = "+00:00" ∨ tz = "Z"))
  then Some ((days_from_civil y m d * 86400 + hh * 3600 + mi * 60 + ss) * 1000000 + us)
  else None.

End Datetime.

(** ** [reporting/canonical_payload.py] *)

Module CanonicalPayload.
Import Json.

Definition opt_str (o : option string) : json :=
  match o with Some s => JStr s | None => JNull end.

Definition opt_float (o : option Q) : json :=
  match o with Some x => JFloat x | None => JNull end.

(** The dictionary appended to [items] for one enrollment. *)
Definition item (db : DB) (enrollment : Enrollment) : json :=
  let grade_obj := head (grades_of db enrollment) in
  let grade_name := grade <$> grade_obj in
  let total_score := total_score <$> grade_obj in
  let grade_point :=
    match grade_name with
    | Some name =>
        if decide (name = "") then None
        else grade_point <$> head (settings_named db name)
    | None => None
    end in
  JObj [ ("session", JStr (session_name (session enrollment)));
         ("semester", JStr (semester enrollment));
         ("course_code", JStr (code (course enrollment)));
         ("course_title", JStr (title (course enrollment)));
         ("units", JInt (units (course enrollment)));
         ("grade", opt_str grade_name);
         ("total_score", opt_float total_score);
         ("grade_point", opt_float grade_point) ].

Definition build_canonical_transcript_payload (db : DB) (student : Student)
    (enrollments : list Enrollment) (college_settings : option CollegeSettings) : dict :=
  let items := item db <$> enrollments in
  [ ("college",
     JObj [ ("name", opt_str (college_settings ≫= college_name));
            ("address", opt_str (college_settings ≫= college_address)) ]);
    ("student",
     JObj [ ("student_id", JStr (student_id student));
            ("first_name", JStr (first_name student));
            ("last_name", JStr (last_name student));
            ("entry_level", opt_str (entry_level student));
            ("current_level", opt_str (current_level student));
            ("current_session", opt_str (current_session student)) ]);
    ("enrollments", JArr items) ].

Definition canonical_json (payload : json) : string := dumps payload.

End CanonicalPayload.

(** ** [reporting/models.py] and [reporting/security_features.py] *)

Module Security.
Import Json CanonicalPayload.

Record TranscriptVerificationRecord := {
  verification_code : string;
  record_student : Z;
  student_name : string;
  generation_timestamp : Z;
  document_hash : string;
  record_college_name : string;
  verification_url : string;
  payload_json : dict;
  created_at : Z;
  expires_at : option Z;
  revoked_at : option Z
}.

(** What the calls read and write: the tables, the verification records
    by code, the cache, and the clock.  [clock n] is what the [n]-th call
    of [timezone.now()] returns, in microseconds; [ticks] counts the calls
    made so far. *)
Record World := {
  tables : DB;
  verification_records : gmap string TranscriptVerificationRecord;
  cache : gmap string (dict * Z);
  clock : nat → Z;
  ticks : nat
}.

Definition M (A : Type) : Type := World → A * World.

Global Instance M_ret : MRet M := λ A a w, (a, w).
Global Instance M_bind : MBind M := λ A B f m w, let '(a, w') := m w in f a w'.

Definition timezone_now : M Z := λ w,
  (clock w (ticks w),
   {| tables := tables w; verification_records := verification_records w;
      cache := cache w; clock := clock w; ticks := S (ticks w) |}).

(** [cache.set(key, value, timeout)]. *)
Definition cache_set (key : string) (value : dict) (timeout : Z) : M unit := λ w,
  (tt,
   {| tables := tables w; verification_records := verification_records w;
      cache := <[key := (value, timeout)]> (cache w); clock := clock w;
      ticks := ticks w |}).

Definition read {A} (f : World → A) : M A := λ w, (f w, w).

Definition save_record (r : TranscriptVerificationRecord) : M unit := λ w,
  (tt,
   {| tables := tables w;
      verification_records := <[verification_code r := r]> (verification_records w);
      cache := cache w; clock := clock w; ticks := ticks w |}).

(** [TranscriptVerificationRecord.is_active]. *)
Definition is_active (self : TranscriptVerificationRecord) : M bool :=
  now ← timezone_now;
  mret (match revoked_at self with
        | Some _ => false
        | None =>
            match expires_at self with
            | Some t => if t <=? now then false else true
            | None => true
            end
        end).

(** The value a non-null [CharField] takes from the verification data
    ([None] where the insert would violate NOT NULL).  The callers here
    pass strings or [None]. *)
Definition char_field (v : option json) (default : string) : option string :=
  match v with
  | None => Some default
  | Some (JStr s) => Some s
  | Some _ => None
  end.

Record SecurityFeatures := {
  sf_verification_code : string;
  sf_qr_code_path : string;
  sf_document_hash : string;
  sf_signature_data : dict;
  sf_verification_url : string;
  sf_generation_timestamp : Z
}.

Record VerificationResult := {
  valid : bool;
  error : option string;
  verified_at : string;
  data : option dict
}.

(** [transcript_content]: a payload dictionary, or anything else through
    its [str()]. *)
Inductive content :=
  | Payload (d : dict)
  | Text (str : string).

Section settings.

(** [settings.SECRET_KEY], the verification URL ([TRANSCRIPT_VERIFICATION_URL]
    or its default), and how a timestamp is written and read back, which
    depends on the time-zone settings. *)
Variable SECRET_KEY : string.
Variable base_verification_url : string.
Variable isoformat : Z → string.
Variable fromisoformat : string → option Z.

Definition verification_cache_timeout : Z := 86400 * 30.

Definition generate_verification_code (student_id : string) (generation_timestamp : Z)
    : string :=
  let hash_input := student_id +:+ ":" +:+ isoformat generation_timestamp +:+ ":"
                    +:+ SECRET_KEY in
  let verification_code := Py.upper (substring 0 12 (Sha256.hexdigest hash_input)) in
  "TXN-" +:+ verification_code.

(** [update_or_create(verification_code=..., defaults=...)] inside
    [transaction.atomic()].  An existing row keeps [created_at] and
    [revoked_at]; a new row gets [created_at] from the clock
    ([auto_now_add], read while the row is made ready) and no revocation.
    A text column that would get [None] makes the database refuse the row
    ([IntegrityError], none of these columns takes NULL): nothing is
    written then, and the answer is [false]. *)
Definition update_or_create (verification_code : string) (student : Z)
    (student_name : option string) (generation_timestamp : Z)
    (document_hash college_name verification_url : option string)
    (payload_json : dict) (expires_at : Z) : M bool :=
  existing ← read (λ w, verification_records w !! verification_code);
  created_at ← match existing with
               | Some old => mret (created_at old)
               | None => timezone_now
               end;
  match student_name, document_hash, college_name, verification_url with
  | Some student_name, Some document_hash, Some college_name, Some verification_url =>
      _ ← save_record
            {| verification_code := verification_code; record_student := student;
               student_name := student_name;
               generation_timestamp := generation_timestamp;
               document_hash := document_hash; record_college_name := college_name;
               verification_url := verification_url; payload_json := payload_json;
               created_at := created_at; expires_at := Some expires_at;
               revoked_at := existing ≫= revoked_at |};
      mret true
  | _, _, _, _ => mret false                         (* IntegrityError *)
  end.

(** [TranscriptVerificationSystem.store_verification_data].  Every
    exception inside the [try] ends in [return False].  A timestamp given
    as a string is parsed; any other value is kept, and stands for a
    missing one when it is falsy ([generation_ts or timezone.now()]); a
    truthy value that is no timestamp is refused when the row is made
    ready, before [created_at] is read. *)
Definition store_verification_data (verification_code : string) (transcript_data : dict)
    : M bool :=
  let verification_key := "transcript_verify:" +:+ verification_code in
  _ ← cache_set verification_key transcript_data verification_cache_timeout;
  let student_id' := get "student_id" transcript_data in
  if negb (truthy student_id') then mret false
  else
    found ← read (λ w,
      match student_id' with
      | JStr sid => objects_get (filter (λ s, student_id s = sid) (students (tables w)))
      | _ => DoesNotExist
      end);
    match found with
    | Found student =>
        let generation_ts := get "generation_timestamp" transcript_data in
        let parsed :=
          match generation_ts with
          | JStr s => match fromisoformat s with
                      | Some t => Some (Some t)
                      | None => None                 (* ValueError *)
                      end
          | _ => Some None
          end in
        match parsed with
        | None => mret false
        | Some parsed =>
            now ← timezone_now;
            let expires_at := now + verification_cache_timeout * 1000000 in
            generation_ts ← match parsed with
                            | Some t => mret (Some t)
                            | None => if truthy generation_ts then mret None
                                      else t ← timezone_now; mret (Some t)
                            end;
            match generation_ts with
            | None => mret false                     (* not a datetime: TypeError *)
            | Some generation_ts =>
                update_or_create verification_code (student_pk student)
                  (char_field (lookup "student_name" transcript_data) "")
                  generation_ts
                  (char_field (lookup "document_hash" transcript_data) "")
                  (char_field (lookup "college_name" transcript_data) "")
                  (char_field (lookup "verification_url" transcript_data) "")
                  transcript_data expires_at
            end
        end
    | _ => mret false                                (* Student.DoesNotExist *)
    end.

(** [TranscriptVerificationSystem.verify_transcript]: the [try] block,
    on which the database answers.  The [except] branch follows below
    ([verify_transcript_under]). *)
Definition verify_transcript (verification_code : string) : M (option dict) :=
  let verification_code := Py.upper (Py.strip (Py.or_else (Some verification_code) "")) in
  let verification_key := "transcript_verify:" +:+ verification_code in
  record ← read (λ w, verification_records w !! verification_code);
  match record with
  | None => mret None
  | Some record =>
      active ← is_active record;
      if negb active then mret None
      else
        now ← timezone_now;
        let verification_data := set "verified_at" (JStr (isoformat now)) (payload_json record) in
        _ ← cache_set verification_key verification_data verification_cache_timeout;
        mret (Some verification_data)
  end.

(** [generate_qr_code]: the path of the image; drawing the image and
    writing the file are left out. *)
Definition generate_qr_code (verification_code : string) : string :=
  "tmp/qr_code_" +:+ verification_code +:+ ".png".

(** [DigitalSignatureSystem.generate_document_hash]. *)
Definition generate_document_hash (transcript_content : string) : string :=
  Sha256.hexdigest transcript_content.

Definition create_signature_data (student_id : string) (transcript_hash : string)
    (college_settings : option CollegeSettings) : M dict :=
  timestamp ← timezone_now;
  mret [ ("student_id", JStr student_id);
         ("document_hash", JStr transcript_hash);
         ("algorithm", JStr "SHA256");
         ("timestamp", JStr (isoformat timestamp));
         ("issuer", match college_settings with
                    | Some cs => opt_str (college_name cs)
                    | None => JStr "Unknown College"
                    end);
         ("issuer_id", match college_settings with
                       | Some cs => JInt (college_pk cs)
                       | None => JNull
                       end);
         ("signature_version", JStr "1.0") ].

(** [SecureTranscriptFeatures._validate_tamper_evidence] when the
    recomputation returns: serializing the JSON data written out here and
    hashing its bytes does not raise.  The [except] around it follows
    below ([_validate_tamper_evidence_under]). *)
Definition _validate_tamper_evidence (verification_data : dict) : bool * option string :=
  let payload := get "canonical_payload" verification_data in
  let stored_hash := get "document_hash" verification_data in
  if negb (truthy payload) || negb (truthy stored_hash) then (true, None)
  else
    let recomputed := generate_document_hash (canonical_json payload) in
    if str_ne recomputed stored_hash
    then (false, Some "Transcript data does not match stored hash (possible tampering)")
    else (true, None).

(** [SecureTranscriptFeatures.create_secure_transcript_data]. *)
Definition create_secure_transcript_data (student : Student)
    (transcript_content : content) (college_settings : option CollegeSettings)
    : M SecurityFeatures :=
  generation_timestamp ← timezone_now;
  let verification_code :=
    generate_verification_code (student_id student) generation_timestamp in
  let document_hash :=
    match transcript_content with
    | Payload d => generate_document_hash (canonical_json (JObj d))
    | Text str => generate_document_hash str
    end in
  signature_data ← create_signature_data (student_id student) document_hash college_settings;
  let qr_code_path := generate_qr_code verification_code in
  let verification_url := base_verification_url +:+ "?code=" +:+ verification_code in
  let verification_data :=
    [ ("student_id", JStr (student_id student));
      ("student_name", JStr (first_name student +:+ " " +:+ last_name student));
      ("generation_timestamp", JStr (isoformat generation_timestamp));
      ("document_hash", JStr document_hash);
      ("signature_data", JObj signature_data);
      ("college_name", match college_settings with
                       | Some cs => opt_str (college_name cs)
                       | None => JStr "Unknown"
                       end);
      ("verification_url", JStr verification_url);
      ("canonical_payload", match transcript_content with
                            | Payload d => JObj d
                            | Text _ => JNull
                            end) ] in
  _ ← store_verification_data verification_code verification_data;
  mret {| sf_verification_code := verification_code;
          sf_qr_code_path := qr_code_path;
          sf_document_hash := document_hash;
          sf_signature_data := signature_data;
          sf_verification_url := verification_url;
          sf_generation_timestamp := generation_timestamp |}.

(** [SecureTranscriptFeatures.verify_transcript_security]. *)
Definition verify_transcript_security (verification_code : string)
    : M VerificationResult :=
  verification_data ← verify_transcript verification_code;
  match verification_data with
  | Some d =>
      if truthy (JObj d) then
        let '(ok, err) := _validate_tamper_evidence d in
        now ← timezone_now;
        if negb ok
        then mret {| valid := false; error := err; verified_at := isoformat now;
                     data := Some d |}
        else mret {| valid := true; error := None; verified_at := isoformat now;
                     data := Some d |}
      else
        now ← timezone_now;
        mret {| valid := false; error := Some "Invalid or expired verification code";
                verified_at := isoformat now; data := None |}
  | None =>
      now ← timezone_now;
      mret {| valid := false; error := Some "Invalid or expired verification code";
              verified_at := isoformat now; data := None |}
  end.

(** *** The [except] branches of verification

    The two methods above are what runs while nothing raises.  What can
    raise lies outside the rows and values written out here, so it is an
    input of the call: the record query (a database error), the look-up
    in the cache (which also finds nothing once the entry has timed out
    or was evicted), and the recomputation of the digest (a payload that
    the serializer or the encoder refuses). *)
Record Faults := {
  query_raises : bool;
  cache_lost : bool;
  recomputation_raises : bool
}.

Definition no_faults : Faults :=
  {| query_raises := false; cache_lost := false; recomputation_raises := false |}.

(** [cache.get(key)], inside its own [try]: nothing when it raises. *)
Definition cache_get (f : Faults) (key : string) : M (option dict) :=
  read (λ w, if cache_lost f then None else fst <$> cache w !! key).

(** [verify_transcript] as a whole: when the [try] block raises, the
    cache alone is asked, under the key of the normalised code. *)
Definition verify_transcript_under (f : Faults) (verification_code : string)
    : M (option dict) :=
  if query_raises f then
    let verification_code :=
      Py.upper (Py.strip (Py.or_else (Some verification_code) "")) in
    verification_data ← cache_get f ("transcript_verify:" +:+ verification_code);
    match verification_data with
    | Some d =>
        if truthy (JObj d) then
          now ← timezone_now;
          mret (Some (set "verified_at" (JStr (isoformat now)) d))
        else mret (Some d)
    | None => mret None
    end
  else verify_transcript verification_code.

(** [_validate_tamper_evidence] as a whole. *)
Definition _validate_tamper_evidence_under (f : Faults) (verification_data : dict)
    : bool * option string :=
  let payload := get "canonical_payload" verification_data in
  let stored_hash := get "document_hash" verification_data in
  if negb (truthy payload) || negb (truthy stored_hash) then (true, None)
  else if recomputation_raises f
  then (false, Some "Could not recompute document hash")
  else _validate_tamper_evidence verification_data.

(** [verify_transcript_security] over the two. *)
Definition verify_transcript_security_under (f : Faults) (verification_code : string)
    : M VerificationResult :=
  verification_data ← verify_transcript_under f verification_code;
  match verification_data with
  | Some d =>
      if truthy (JObj d) then
        let '(ok, err) := _validate_tamper_evidence_under f d in
        now ← timezone_now;
        if negb ok
        then mret {| valid := false; error := err; verified_at := isoformat now;
                     data := Some d |}
        else mret {| valid := true; error := None; verified_at := isoformat now;
                     data := Some d |}
      else
        now ← timezone_now;
        mret {| valid := false; error := Some "Invalid or expired verification code";
                verified_at := isoformat now; data := None |}
  | None =>
      now ← timezone_now;
      mret {| valid := false; error := Some "Invalid or expired verification code";
              verified_at := isoformat now; data := None |}
  end.

End settings.

End Security.

(** ** [get_repeat_policy] in [grading/repeat_policy.py] *)

(** The configured policy in upper case.  The [except] branch answers
    ['ALL'] when the settings cannot be read; [get_solo()] creates the row
    when it is missing, and the store here always holds one. *)
Definition get_repeat_policy (db : DB) : string :=
  let policy := repeat_policy (policy db) in
  Py.upper policy.

(** ** [Grade.save] in [grading/models.py] *)

Module GradingModels.

Section floats.

(** [+] on two floats: the double nearest to the exact sum.  Which
    rationals are doubles, and the rounding, are not written out here;
    the sum is taken as it comes. *)
Variable float_add : Q → Q → Q.

(** The two scores are entered on the form; the total and the letter are
    derived on every save.  The letter is that of the first row of the
    scale, by falling [min_score], whose [min_score] the total reaches, and
    ['N/A'] when no row does (or the scale is empty). *)
Definition save (db : DB) (self : Grade) (ca_score exam_score : Q) : Grade :=
  let total_score := float_add ca_score exam_score in
  let grading_scheme := order_by_desc min_score (grading_settings db) in
  let assigned_grade :=
    Graduation.first_band min_score grade_name total_score grading_scheme "N/A" in
  {| grade_enrollment := grade_enrollment self; total_score := total_score;
     grade := assigned_grade; status := status self |}.

End floats.

End GradingModels.

(** ** The derived properties of [Student] in [students/models.py] *)

Module StudentModel.
Import Metrics.

(** They read the fields that [update_academic_metrics] assigns. *)
Definition academic_performance_level (self : metrics) : string :=
  if Qle_bool 3.5 (current_cgpa self) then "Excellent (First Class)"
  else if Qle_bool 3.0 (current_cgpa self) then "Good (Second Class Upper)"
  else if Qle_bool 2.5 (current_cgpa self) then "Satisfactory (Second Class Lower)"
  else if Qle_bool 2.0 (current_cgpa self) then "Pass (Third Class)"
  else "Below Average".

Definition completion_rate (self : metrics) : Q :=
  if 0 <? total_units_attempted self
  then Py.round2 (inject_Z (total_units_passed self)
                  / inject_Z (total_units_attempted self) * 100)
  else 0%Q.

Definition is_at_risk (self : metrics) : bool :=
  Py.float_ltb (current_cgpa self) 2.0 || Py.float_ltb (completion_rate self) 70.

(** [status] and [current_level] are fields of the student row. *)
Definition can_graduate (status : string) (student : Student) (self : metrics) : bool :=
  bool_decide (status = "active") && bool_decide (current_level student ≠ None)
  && Qle_bool 2.0 (current_cgpa self).

(** The two check constraints of [Meta.constraints]. *)
Definition valid_cgpa_range (self : metrics) : Prop :=
  (0.0 <= current_cgpa self)%Q ∧ (current_cgpa self <= 4.0)%Q.

Definition passed_units_not_exceed_attempted (self : metrics) : Prop :=
  total_units_passed self ≤ total_units_attempted self.

(** [update_academic_metrics(save)] as a whole.  The computation is
    [Metrics.update_academic_metrics]; it is all of the call when [save]
    is false.  With [save] set (the default) the four fields are then
    written with [self.save(update_fields=...)], and [Student.save] runs
    [full_clean()] before the row is updated: the validators of every
    field, [Student.clean], uniqueness and the check constraints, whose
    [ValidationError] escapes, as does an error of the update.  The row
    has columns that the store here does not hold, so [student_save] is a
    parameter: the exception that [self.save] raises on the student with
    the new values, if it raises. *)
Definition update_academic_metrics_call (student_save : Student → metrics → option string)
    (db : DB) (self : Student) (save : bool) : outcome metrics :=
  match update_academic_metrics db self with
  | Returned m =>
      if save then
        match student_save self m with
        | Some exc => Raised exc
        | None => Returned m
        end
      else Returned m
  | Raised exc => Raised exc
  end.

End StudentModel.

(** ** [suggest_courses_for_student] in [academics/eligibility.py] *)

Module CourseSuggestions.

(** A curriculum row with the two columns that place it: the name of its
    level ([Level.name] is unique) and its semester. *)
Record CurriculumPlacement := {
  placed : CurriculumCourse;
  placed_level : string;
  placed_semester : string
}.

Record CourseEligibility := {
  course_code : string;
  course_title : string;
  eligible : bool;
  reason : option string
}.

(** One iteration of [for cc in curriculum]: nothing for a course that is
    passed already, one suggestion otherwise. *)
Definition suggestion (db : DB) (student : Student) (program : Program)
    (cc : CurriculumPlacement) : list CourseEligibility :=
  let course := cc_course (placed cc) in
  if Eligibility.student_passed_course db student course then []
  else
    let '(ok, reason) := Eligibility.check_prerequisites db student program course in
    [ {| course_code := code course; course_title := title course;
         eligible := ok; reason := reason |} ].

Definition suggest_courses_for_student (db : DB) (rows : list CurriculumPlacement)
    (student : Student) (semester : string) : list CourseEligibility :=
  match program student, current_level student with
  | Some program, Some level =>
      let curriculum :=
        filter (λ cc, cc_program (placed cc) = program_pk program
                      ∧ placed_level cc = level ∧ placed_semester cc = semester) rows in
      curriculum ≫= suggestion db student program
  | _, _ => []
  end.

End CourseSuggestions.

(** ** [TranscriptGenerator._build_grade_table_data] in
    [reporting/transcript_generator.py] *)

Module TranscriptTable.
Import Metrics.

(** The two running totals, returned as [stats]. *)
Record stats := { stats_grade_points : Q; stats_units : Z }.

(** [total_grade_points += course.units * grade_point; total_units +=
    course.units]. *)
Definition add_graded (course : Course) (grade_point : Q) (t : stats) : stats :=
  {| stats_grade_points := (stats_grade_points t + inject_Z (units course) * grade_point)%Q;
     stats_units := stats_units t + units course |}.

(** The test both the Grade and the Grade Point column make. *)
Definition pending (db : DB) (grade : Grade) : bool :=
  require_approved_for_transcripts (policy db)
  && negb (bool_decide (status grade = STATUS_APPROVED)).

(** One column of a row for an enrollment with a grade: what is appended
    to the row, and the totals afterwards. *)
Definition graded_cell (db : DB) (counted : bool) (enrollment : Enrollment)
    (grade_obj : Grade) (t : stats) (column : string) : outcome (list string * stats) :=
  let course := course enrollment in
  if decide (column = "Course Code") then Returned ([code course], t)
  else if decide (column = "Course Title") then Returned ([title course], t)
  else if decide (column = "Units") then Returned ([Py.str_of_int (units course)], t)
  else if decide (column = "Grade") then
    if pending db grade_obj then Returned (["PENDING"], t)
    else Returned ([grade grade_obj], t)
  else if decide (column = "Grade Point") then
    if pending db grade_obj then Returned (["N/A"], t)       (* raise DoesNotExist *)
    else
      match objects_get (settings_named db (grade grade_obj)) with
      | Found grading_setting =>
          let grade_point := grade_point grading_setting in
          Returned ([Json.float_repr grade_point],
                    if counted then add_graded course grade_point t else t)
      | DoesNotExist => Returned (["N/A"], t)
      | MultipleObjectsReturned => Raised "GradingSettings.MultipleObjectsReturned"
      end
  else if decide (column = "Session") then Returned ([session_name (session enrollment)], t)
  else Returned ([], t).

(** [for column in columns] in that branch. *)
Fixpoint graded_row (db : DB) (counted : bool) (enrollment : Enrollment) (grade_obj : Grade)
    (columns : list string) (row : list string) (t : stats)
    : outcome (list string * stats) :=
  match columns with
  | [] => Returned (row, t)
  | column :: columns' =>
      match graded_cell db counted enrollment grade_obj t column with
      | Returned (cell, t') =>
          graded_row db counted enrollment grade_obj columns' (row ++ cell) t'
      | Raised exc => Raised exc
      end
  end.

(** One column of a row for an enrollment without a grade. *)
Definition ungraded_cell (enrollment : Enrollment) (column : string) : list string :=
  if decide (column = "Course Code") then [code (course enrollment)]
  else if decide (column = "Course Title") then [title (course enrollment)]
  else if decide (column = "Units") then [Py.str_of_int (units (course enrollment))]
  else if decide (column = "Grade" ∨ column = "Grade Point") then ["N/A"]
  else if decide (column = "Session") then [session_name (session enrollment)]
  else [].

(** One iteration of [for enrollment in enrollments]. *)
Definition step (db : DB) (counted_ids : gset Z) (columns : list string)
    (st : list (list string) * stats) (enrollment : Enrollment)
    : outcome (list (list string) * stats) :=
  let '(table_data, t) := st in
  let counted := bool_decide (enrollment_id enrollment ∈ counted_ids) in
  match objects_get (grades_of db enrollment) with
  | MultipleObjectsReturned => Raised "Grade.MultipleObjectsReturned"
  | DoesNotExist =>
      let row := columns ≫= ungraded_cell enrollment in
      Returned (table_data ++ [row],
                if counted
                then {| stats_grade_points := stats_grade_points t;
                        stats_units := stats_units t + units (course enrollment) |}
                else t)
  | Found grade_obj =>
      match graded_row db counted enrollment grade_obj columns [] t with
      | Raised exc => Raised exc
      | Returned (row, t') =>
          if bool_decide ("Grade Point" ∉ columns) && counted then
            match objects_get (settings_named db (grade grade_obj)) with
            | Found grading_setting =>
                Returned (table_data ++ [row],
                          add_graded (course enrollment) (grade_point grading_setting) t')
            | DoesNotExist => Returned (table_data ++ [row], t')
            | MultipleObjectsReturned => Raised "GradingSettings.MultipleObjectsReturned"
            end
          else Returned (table_data ++ [row], t')
      end
  end.

Fixpoint loop (db : DB) (counted_ids : gset Z) (columns : list string)
    (st : list (list string) * stats) (es : list Enrollment)
    : outcome (list (list string) * stats) :=
  match es with
  | [] => Returned st
  | e :: es' =>
      match step db counted_ids columns st e with
      | Returned st' => loop db counted_ids columns st' es'
      | Raised exc => Raised exc
      end
  end.

(** [columns] is [config['table_columns']], the one entry of [config] that
    is read. *)
Definition _build_grade_table_data (db : DB) (enrollments : list Enrollment)
    (columns : list string) : outcome (list (list string) * stats) :=
  let table_data := [columns] in
  let policy := repeat_policy (policy db) in
  let counted_ids :=
    RepeatPolicy.select_enrollments_for_gpa db enrollments (Some policy) in
  loop db counted_ids columns
       (table_data, {| stats_grade_points := 0; stats_units := 0 |}) enrollments.

End TranscriptTable.

(** ** Sample data, after the repository's test suites *)

Module Sample.

Definition s2023 : Session := {| session_pk := 1; session_name := "2023/2024" |}.
Definition s2024 : Session := {| session_pk := 2; session_name := "2024/2025" |}.

(** [students/test_repeat_policy.py]: one course taken twice, first a C
    (70), then an A (90). *)
Definition POL101 : Course :=
  {| course_pk := 1; code := "POL101"; title := "Policy"; units := 3 |}.

Definition pol1 : Student :=
  {| student_pk := 1; student_id := "POL1"; first_name := "Pol"; last_name := "Icy";
     entry_level := Some "100 Level"; current_level := Some "100 Level";
     current_session := Some "2024/2025"; program := None |}.

Definition e1 : Enrollment :=
  {| enrollment_id := 1; enrollment_student := 1;
     course_offering := {| offering_course := POL101; offering_session := s2023;
                           offering_semester := "FIRST" |} |}.
Definition e2 : Enrollment :=
  {| enrollment_id := 2; enrollment_student := 1;
     course_offering := {| offering_course := POL101; offering_session := s2024;
                           offering_semester := "FIRST" |} |}.

Definition scale : list GradingSettings :=
  [ {| grade_name := "A"; min_score := 90; max_score := 100; grade_point := 4 |};
    {| grade_name := "C"; min_score := 70; max_score := 79; grade_point := 2 |};
    {| grade_name := "F"; min_score := 0; max_score := 59; grade_point := 0 |} ]%Q.

Definition policy_of (rp : string) (approved_only : bool) : AcademicPolicySettings :=
  {| repeat_policy := rp; require_approved_for_transcripts := false;
     require_approved_for_exports := false;
     require_approved_for_metrics := approved_only |}.

Definition db_repeat (rp : string) : DB :=
  {| students := [pol1]; enrollments := [e1; e2];
     grades := [ {| grade_enrollment := 1; total_score := 70; grade := "C";
                    status := "DRAFT" |};
                 {| grade_enrollment := 2; total_score := 90; grade := "A";
                    status := "DRAFT" |} ]%Q;
     grading_settings := scale; policy := policy_of rp false;
     curriculum := []; thresholds := []; prerequisites := [] |}.

(** [grading/test_approval_workflow.py]: one 3-unit course with an A that
    is still a draft, and approved-only metrics switched on. *)
Definition APP101 : Course :=
  {| course_pk := 2; code := "APP101"; title := "Approve"; units := 3 |}.

Definition app1 : Student :=
  {| student_pk := 2; student_id := "APP1"; first_name := "App"; last_name := "Rove";
     entry_level := Some "100 Level"; current_level := Some "100 Level";
     current_session := Some "2023/2024"; program := None |}.

Definition e3 : Enrollment :=
  {| enrollment_id := 3; enrollment_student := 2;
     course_offering := {| offering_course := APP101; offering_session := s2023;
                           offering_semester := "FIRST" |} |}.

Definition draft_A : Grade :=
  {| grade_enrollment := 3; total_score := 90; grade := "A"; status := "DRAFT" |}.

Definition db_approval : DB :=
  {| students := [app1]; enrollments := [e3]; grades := [draft_A];
     grading_settings := scale; policy := policy_of "ALL" true;
     curriculum := []; thresholds := []; prerequisites := [] |}.

(** [analytics/test_graduation_audit.py]: a program asking for 3 units and
    one compulsory 3-unit course, which the student took. *)
Definition bsc_cs : Program :=
  {| program_pk := 1; program_code := "BSC-CS"; min_units_to_graduate := 3;
     classification_scheme := "BSC" |}.

Definition G101 : Course :=
  {| course_pk := 3; code := "G101"; title := "GradCourse"; units := 3 |}.

Definition grad1 : Student :=
  {| student_pk := 3; student_id := "GRAD1"; first_name := "Grad"; last_name := "Uate";
     entry_level := Some "100 Level"; current_level := Some "100 Level";
     current_session := Some "2023/2024"; program := Some bsc_cs |}.

Definition e4 : Enrollment :=
  {| enrollment_id := 4; enrollment_student := 3;
     course_offering := {| offering_course := G101; offering_session := s2023;
                           offering_semester := "FIRST" |} |}.

Definition db_grad (gs : list Grade) : DB :=
  {| students := [grad1]; enrollments := [e4]; grades := gs;
     grading_settings := scale; policy := policy_of "ALL" false;
     curriculum := [ {| cc_program := 1; cc_course := G101; is_compulsory := true |} ];
     thresholds := []; prerequisites := [] |}.

Definition graded_A : Grade :=
  {| grade_enrollment := 4; total_score := 90; grade := "A"; status := "DRAFT" |}.

(** A course with two prerequisites, stored in the order MTH102, CSC101;
    the student has taken neither. *)
Definition MTH102 : Course :=
  {| course_pk := 4; code := "MTH102"; title := "Calculus"; units := 3 |}.
Definition CSC101 : Course :=
  {| course_pk := 5; code := "CSC101"; title := "Intro"; units := 2 |}.
Definition CSC301 : Course :=
  {| course_pk := 6; code := "CSC301"; title := "Algorithms"; units := 3 |}.

Definition db_prereq : DB :=
  {| students := [grad1]; enrollments := [e4]; grades := [graded_A];
     grading_settings := scale; policy := policy_of "LATEST" false;
     curriculum := []; thresholds := [];
     prerequisites :=
       [ {| prereq_program := 1; prereq_course := 6; prerequisite_course := MTH102 |};
         {| prereq_program := 1; prereq_course := 6; prerequisite_course := CSC101 |};
         {| prereq_program := 1; prereq_course := 4; prerequisite_course := G101 |} ] |}.

(** A second, failed attempt at G101 in the following session. *)
Definition e5 : Enrollment :=
  {| enrollment_id := 5; enrollment_student := 3;
     course_offering := {| offering_course := G101; offering_session := s2024;
                           offering_semester := "FIRST" |} |}.
Definition failed_F : Grade :=
  {| grade_enrollment := 5; total_score := 30; grade := "F"; status := "DRAFT" |}.

(** The same student before any score was entered. *)
Definition db_ungraded : DB := db_grad [].

(** The graded student again, with threshold rows configured: three for
    the program, stored out of order, and one of another program. *)
Definition db_thresholds : DB :=
  {| students := [grad1]; enrollments := [e4]; grades := [graded_A];
     grading_settings := scale; policy := policy_of "ALL" false;
     curriculum := [ {| cc_program := 1; cc_course := G101; is_compulsory := true |} ];
     thresholds :=
       [ {| threshold_program := 1; label := "Merit"; min_cgpa := 2.5 |};
         {| threshold_program := 1; label := "Honours"; min_cgpa := 3.6 |};
         {| threshold_program := 2; label := "Distinction"; min_cgpa := 3.0 |};
         {| threshold_program := 1; label := "Pass"; min_cgpa := 1.0 |} ];
     prerequisites := [] |}.

(** [reporting/test_rbac_and_tamper.py]: a student with one graded course,
    settings as in a test run, and a clock that advances by a microsecond
    per reading from 2026-11-03 12:00:00.123456 UTC. *)
Definition CS201 : Course :=
  {| course_pk := 7; code := "CS201"; title := "Algo"; units := 3 |}.

Definition tamp1 : Student :=
  {| student_pk := 4; student_id := "TAMP1"; first_name := "John"; last_name := "Doe";
     entry_level := Some "100 Level"; current_level := Some "100 Level";
     current_session := Some "2023/2024"; program := None |}.

Definition e6 : Enrollment :=
  {| enrollment_id := 6; enrollment_student := 4;
     course_offering := {| offering_course := CS201; offering_session := s2023;
                           offering_semester := "FIRST" |} |}.

Definition db_tamper : DB :=
  {| students := [tamp1]; enrollments := [e6];
     grades := [ {| grade_enrollment := 6; total_score := 90; grade := "A";
                    status := "DRAFT" |} ]%Q;
     grading_settings := scale; policy := policy_of "ALL" false;
     curriculum := []; thresholds := []; prerequisites := [] |}.

Definition world0 : Security.World :=
  {| Security.tables := db_tamper; Security.verification_records := ∅;
     Security.cache := ∅;
     Security.clock := λ n, 1793707200123456 + Z.of_nat n;
     Security.ticks := 0 |}.

Definition payload0 : Json.dict :=
  CanonicalPayload.build_canonical_transcript_payload db_tamper tamp1 [e6] None.

Definition SECRET_KEY : string := "secret".
Definition base_verification_url : string := "https://college.edu/verify".

Definition issue (student : Student) (cs : option CollegeSettings) (w : Security.World)
    : Security.SecurityFeatures * Security.World :=
  Security.create_secure_transcript_data SECRET_KEY base_verification_url
    Datetime.isoformat Datetime.fromisoformat student (Security.Payload payload0) cs w.

Definition verify (code : string) (w : Security.World)
    : Security.VerificationResult * Security.World :=
  Security.verify_transcript_security Datetime.isoformat code w.

(** A student object that was never saved. *)
Definition unsaved : Student :=
  {| student_pk := 9; student_id := "GHOST1"; first_name := "Gh"; last_name := "Ost";
     entry_level := None; current_level := None; current_session := None;
     program := None |}.

(** The world after the record under [code] was revoked at time [t], with
    the clock set back to its first reading. *)
Definition revoke_and_rewind (code : string) (t : Z) (w : Security.World)
    : Security.World :=
  {| Security.tables := Security.tables w;
     Security.verification_records :=
       alter (λ r,
         {| Security.verification_code := Security.verification_code r;
            Security.record_student := Security.record_student r;
            Security.student_name := Security.student_name r;
            Security.generation_timestamp := Security.generation_timestamp r;
            Security.document_hash := Security.document_hash r;
            Security.record_college_name := Security.record_college_name r;
            Security.verification_url := Security.verification_url r;
            Security.payload_json := Security.payload_json r;
            Security.created_at := Security.created_at r;
            Security.expires_at := Security.expires_at r;
            Security.revoked_at := Some t |})
         code (Security.verification_records w);
     Security.cache := Security.cache w; Security.clock := Security.clock w;
     Security.ticks := 0 |}.

(** College settings saved without a name. *)
Definition unnamed_college : CollegeSettings :=
  {| college_pk := 1; college_name := None; college_address := None |}.

(** The world after [code]'s record had one field of its stored payload
    changed: the student's last name. *)
Definition hacked_payload : Json.dict :=
  CanonicalPayload.build_canonical_transcript_payload db_tamper
    {| student_pk := 4; student_id := "TAMP1"; first_name := "John";
       last_name := "HACKED"; entry_level := Some "100 Level";
       current_level := Some "100 Level"; current_session := Some "2023/2024";
       program := None |} [e6] None.

Definition tamper (code : string) (w : Security.World) : Security.World :=
  {| Security.tables := Security.tables w;
     Security.verification_records :=
       alter (λ r,
         {| Security.verification_code := Security.verification_code r;
            Security.record_student := Security.record_student r;
            Security.student_name := Security.student_name r;
            Security.generation_timestamp := Security.generation_timestamp r;
            Security.document_hash := Security.document_hash r;
            Security.record_college_name := Security.record_college_name r;
            Security.verification_url := Security.verification_url r;
            Security.payload_json :=
              Json.set "canonical_payload" (Json.JObj hacked_payload)
                       (Security.payload_json r);
            Security.created_at := Security.created_at r;
            Security.expires_at := Security.expires_at r;
            Security.revoked_at := Security.revoked_at r |})
         code (Security.verification_records w);
     Security.cache := Security.cache w; Security.clock := Security.clock w;
     Security.ticks := Security.ticks w |}.

(** The world thirty-one days later. *)
Definition much_later (w : Security.World) : Security.World :=
  {| Security.tables := Security.tables w;
     Security.verification_records := Security.verification_records w;
     Security.cache := Security.cache w;
     Security.clock := λ n, Security.clock w n + 31 * 86400 * 1000000;
     Security.ticks := Security.ticks w |}.

End Sample.

(** ** Definitions used to state the properties *)

(** Four decimal digits of value [y] stand in [s] right after [pre]. *)
Definition four_digits_at (s pre : string) (y : Z) : Prop :=
  ∃ a b c d post,
    s = pre +:+ String a (String b (String c (String d post)))
    ∧ Py.isdigit a && Py.isdigit b && Py.isdigit c && Py.isdigit d = true
    ∧ y = 1000 * Py.digit_value a + 100 * Py.digit_value b
          + 10 * Py.digit_value c + Py.digit_value d.

(** [k] is the term-ordering key of the attempt, as the specification
    words it: the value of the leftmost run of four decimal digits of the
    session label, 0 when the label has none, paired with the ordinal of
    the semester: FIRST 1, SECOND 2, SUMMER 3, any other 0. *)
Definition term_key_of (e : Enrollment) (k : Z * Z) : Prop :=
  ((∃ pre, four_digits_at (session_name (session e)) pre k.1
           ∧ ∀ pre' y', four_digits_at (session_name (session e)) pre' y' →
                        (String.length pre ≤ String.length pre')%nat)
   ∨ (k.1 = 0 ∧ ∀ pre y, ¬ four_digits_at (session_name (session e)) pre y))
  ∧ ((semester e = "FIRST" ∧ k.2 = 1) ∨ (semester e = "SECOND" ∧ k.2 = 2)
     ∨ (semester e = "SUMMER" ∧ k.2 = 3)
     ∨ (semester e ≠ "FIRST" ∧ semester e ≠ "SECOND" ∧ semester e ≠ "SUMMER"
        ∧ k.2 = 0)).

(** [gp] is the grade point policy BEST ranks the attempt by: that of the
    first scale row (by falling [min_score]) named by the letter of the
    attempt's first grade row, and -1 when there is no grade row, its
    letter is empty, or no scale row has the letter. *)
Definition ranked_grade_point (db : DB) (e : Enrollment) (gp : Q) : Prop :=
  (∃ g gs, head (grades_of db e) = Some g ∧ grade g ≠ ""
           ∧ head (settings_named db (grade g)) = Some gs ∧ gp = grade_point gs)
  ∨ (gp = (-1)%Q
     ∧ (head (grades_of db e) = None
        ∨ ∃ g, head (grades_of db e) = Some g
               ∧ (grade g = "" ∨ head (settings_named db (grade g)) = None))).

(** The identifiers held by all groups of [by_course]. *)
Definition group_ids (d : list (string * list Enrollment)) : gset Z :=
  ⋃ ((λ item, RepeatPolicy.ids item.2) <$> d).

(** The approval gate of the metrics loop holds this grade back. *)
Definition held_back (db : DB) (g : Grade) : Prop :=
  require_approved_for_metrics (policy db) = true ∧ status g ≠ STATUS_APPROVED.

(** The enrollment has one grade row, and that grade is either held back
    by the approval gate or names exactly one entry of the grading scale. *)
Definition resolves (db : DB) (e : Enrollment) : Prop :=
  ∃ g, grades_of db e = [g]
       ∧ (held_back db g
          ∨ (grade g ≠ "" ∧ ∃ gs, settings_named db (grade g) = [gs])).

(** [t] is the first entry of [ladder] whose minimum is at most [cgpa]. *)
Definition first_at_or_below {A} (min : A → Q) (cgpa : Q) (ladder : list A) (t : A)
    : Prop :=
  ∃ pre post, ladder = pre ++ t :: post
              ∧ (min t <= cgpa)%Q
              ∧ ∀ u, u ∈ pre → ¬ (min u <= cgpa)%Q.

(** No other entry of the ladder with the same minimum as [t] carries
    another label: where [t] stands among its equals does not matter. *)
Definition untied {A} (min : A → Q) (label : A → string) (ladder : list A) (t : A)
    : Prop :=
  ∀ u, u ∈ ladder → (min u == min t)%Q → label u = label t.

(** The prerequisite rows declared for a course within a program. *)
Definition declared_prerequisites (db : DB) (prog : Program) (c : Course)
    : list Prerequisite :=
  filter (λ p, prereq_program p = program_pk prog ∧ prereq_course p = course_pk c)
         (prerequisites db).

(** The codes of the declared prerequisites the student has not passed,
    in the order of the rows. *)
Definition unmet_prerequisites (db : DB) (student : Student) (prog : Program)
    (c : Course) : list string :=
  (λ p, code (prerequisite_course p)) <$>
    filter (λ p, Eligibility.student_passed_course db student (prerequisite_course p) = false)
           (declared_prerequisites db prog c).

(** The codes of the rows, in their order, whose prerequisite the student
    has not passed. *)
Definition unmet_among (db : DB) (student : Student) (rows : list Prerequisite)
    : list string :=
  (λ p, code (prerequisite_course p)) <$>
    filter (λ p, Eligibility.student_passed_course db student (prerequisite_course p) = false)
           rows.

(** The attempt has a grade with a non-empty letter that passes the
    approval gate and resolves to a grade point above zero. *)
Definition passing_attempt (db : DB) (require_approved : bool) (e : Enrollment) : Prop :=
  ∃ g gs, head (grades_of db e) = Some g
          ∧ grade g ≠ ""
          ∧ (require_approved = true → status g = STATUS_APPROVED)
          ∧ head (settings_named db (grade g)) = Some gs
          ∧ (0 < grade_point gs)%Q.

(** The attempt has a grade that the audit can use, with grade point
    [gp]: its first grade row has a letter, passes the approval gate, and
    [gp] is the grade point of the first scale row of that letter. *)
Definition audit_grade_point (db : DB) (require_approved : bool) (e : Enrollment)
    (gp : Q) : Prop :=
  ∃ g gs, head (grades_of db e) = Some g
          ∧ grade g ≠ ""
          ∧ (require_approved = true → status g = STATUS_APPROVED)
          ∧ head (settings_named db (grade g)) = Some gs
          ∧ gp = grade_point gs.

(** [audited db req es total points]: among the attempts [es], those
    with a grade that the audit can use have [total] course units in all,
    and [points] is the sum of their course units times grade point. *)
Inductive audited (db : DB) (require_approved : bool)
    : list Enrollment → Z → Q → Prop :=
  | audited_nil : audited db require_approved [] 0 0
  | audited_graded e es gp total points :
      audit_grade_point db require_approved e gp →
      audited db require_approved es total points →
      audited db require_approved (e :: es)
        (units (course e) + total) (inject_Z (units (course e)) * gp + points)
  | audited_skipped e es total points :
      (∀ gp, ¬ audit_grade_point db require_approved e gp) →
      audited db require_approved es total points →
      audited db require_approved (e :: es) total points.

(** The student has an attempt at the course that passes. *)
Definition passed_some_attempt (db : DB) (require_approved : bool) (student : Student)
    (c : Course) : Prop :=
  ∃ e, e ∈ enrollments db
       ∧ enrollment_student e = student_pk student
       ∧ course_pk (course e) = course_pk c
       ∧ passing_attempt db require_approved e.

(** The store with another repeat policy configured. *)
Definition with_repeat_policy (rp : string) (db : DB) : DB :=
  {| students := students db; enrollments := enrollments db; grades := grades db;
     grading_settings := grading_settings db;
     policy := {| repeat_policy := rp;
                  require_approved_for_transcripts :=
                    require_approved_for_transcripts (policy db);
                  require_approved_for_exports := require_approved_for_exports (policy db);
                  require_approved_for_metrics := require_approved_for_metrics (policy db) |};
     curriculum := curriculum db; thresholds := thresholds db;
     prerequisites := prerequisites db |}.

(** The store after one more attempt was registered, with its grade rows. *)
Definition add_attempt (e : Enrollment) (gs : list Grade) (db : DB) : DB :=
  {| students := students db; enrollments := enrollments db ++ [e];
     grades := grades db ++ gs; grading_settings := grading_settings db;
     policy := policy db; curriculum := curriculum db; thresholds := thresholds db;
     prerequisites := prerequisites db |}.

(** Every character of the string satisfies [P]. *)
Fixpoint string_forall (P : ascii → bool) (s : string) : bool :=
  match s with
  | EmptyString => true
  | String c s' => P c && string_forall P s'
  end.

(** [s.isascii()]: every character of the string is below U+0080.  On
    such a string [Py.upper], [Py.strip] and the digit test of
    [Py.search_4digits] are [str.upper], [str.strip] and the class [\d]
    of the pattern. *)
Definition isascii (s : string) : bool :=
  string_forall (λ c, (nat_of_ascii c <? 128)%nat) s.

(** A lower-case hexadecimal digit. *)
Definition is_hex (c : ascii) : bool :=
  let n := nat_of_ascii c in
  (((48 <=? n) && (n <=? 57)) || ((97 <=? n) && (n <=? 102)))%nat.

(** Neither white space nor a lower-case letter: [strip] and [upper]
    leave such characters alone. *)
Definition is_plain (c : ascii) : bool :=
  negb (Py.isspace c) && bool_decide (Py.upper_ascii c = c).

(** The value is absent, null or empty: what [not value] tests. *)
Definition lacks (v : Json.json) : Prop := Json.truthy v = false.

(** The record is revoked, or its expiry is set and not after [now]. *)
Definition inactive (r : Security.TranscriptVerificationRecord) (now : Z) : Prop :=
  Security.revoked_at r ≠ None ∨ ∃ t, Security.expires_at r = Some t ∧ t ≤ now.

(** The result every failed lookup gets. *)
Definition invalid_or_expired (r : Security.VerificationResult) : Prop :=
  Security.valid r = false
  ∧ Security.error r = Some "Invalid or expired verification code"
  ∧ Security.data r = None.

(** What the tamper check makes of the data at hand, [stored], returned
    to the caller as [returned].  Without a stored canonical payload or a
    stored digest the result is valid, unchecked.  Otherwise: when the
    recomputation raises, invalid, with its own reason; when the digest of
    the stored payload differs from the stored one, invalid, with the
    tampering reason; when they agree, valid. *)
Definition tamper_checked (f : Security.Faults) (stored returned : Json.dict)
    (r : Security.VerificationResult) : Prop :=
  let stored_payload := Json.get "canonical_payload" stored in
  let stored_digest := Json.get "document_hash" stored in
  let recomputed := Sha256.hexdigest (CanonicalPayload.canonical_json stored_payload) in
  (lacks stored_payload ∨ lacks stored_digest →
     Security.valid r = true ∧ Security.error r = None
     ∧ Security.data r = Some returned)
  ∧ (¬ lacks stored_payload → ¬ lacks stored_digest →
       (Security.recomputation_raises f = true →
          Security.valid r = false
          ∧ Security.error r = Some "Could not recompute document hash"
          ∧ Security.data r = Some returned)
       ∧ (Security.recomputation_raises f = false →
            stored_digest ≠ Json.JStr recomputed →
            Security.valid r = false
            ∧ Security.error r
              = Some "Transcript data does not match stored hash (possible tampering)"
            ∧ Security.data r = Some returned)
       ∧ (Security.recomputation_raises f = false →
            stored_digest = Json.JStr recomputed →
            Security.valid r = true ∧ Security.error r = None
            ∧ Security.data r = Some returned
            ∧ Json.get "canonical_payload" returned = stored_payload)).

(** The two students carry the same identity fields of a transcript. *)
Definition same_identity (s1 s2 : Student) : Prop :=
  student_id s1 = student_id s2 ∧ first_name s1 = first_name s2
  ∧ last_name s1 = last_name s2 ∧ entry_level s1 = entry_level s2
  ∧ current_level s1 = current_level s2 ∧ current_session s1 = current_session s2.

(** The two stores hold the same grade data for the enrollment: the same
    letter and total on its grade row, and the same point for that letter. *)
Definition same_grade_data (db1 db2 : DB) (e : Enrollment) : Prop :=
  grade <$> head (grades_of db1 e) = grade <$> head (grades_of db2 e)
  ∧ total_score <$> head (grades_of db1 e) = total_score <$> head (grades_of db2 e)
  ∧ ∀ name, grade <$> head (grades_of db1 e) = Some name → name ≠ "" →
      grade_point <$> head (settings_named db1 name)
      = grade_point <$> head (settings_named db2 name).

(** The two settings show the same institution name and address. *)
Definition same_institution (cs1 cs2 : option CollegeSettings) : Prop :=
  cs1 ≫= college_name = cs2 ≫= college_name
  ∧ cs1 ≫= college_address = cs2 ≫= college_address.

(** *** Definitions for the further properties *)

(** [by_course.get(k, [])]. *)
Fixpoint by_course_get (k : string) (d : list (string * list Enrollment))
    : list Enrollment :=
  match d with
  | [] => []
  | (k', es) :: d' => if decide (k' = k) then es else by_course_get k d'
  end.

(** The attempts at the course code [c], in the order given. *)
Definition attempts_coded (c : string) (es : list Enrollment) : list Enrollment :=
  filter (λ e, code (course e) = c) es.

(** [best] stands in [l] after elements that are all strictly below it
    and before elements none of which is strictly above it: it is the
    first of the greatest elements. *)
Definition first_maximal {A} (ltb : A → A → bool) (l : list A) (best : A) : Prop :=
  ∃ pre post, l = pre ++ best :: post
              ∧ (∀ a, a ∈ pre → ltb a best = true)
              ∧ (∀ a, a ∈ post → ltb best a = false).

(** The strict orders of the two policies, on attempts. *)
Definition earlier_term (a b : Enrollment) : bool :=
  Py.pair_ltb (RepeatPolicy.term_sort_key a) (RepeatPolicy.term_sort_key b).

Definition worse_attempt (db : DB) (a b : Enrollment) : bool :=
  RepeatPolicy.best_key_ltb (RepeatPolicy.best_key db a) (RepeatPolicy.best_key db b).

(** A lookup of the metrics loop would find more than one row: the
    enrollment has several grade rows, or one whose letter, not held back
    by the approval gate, names several rows of the scale. *)
Definition ambiguous (db : DB) (e : Enrollment) : Prop :=
  match grades_of db e with
  | [] => False
  | [g] => ¬ held_back db g ∧ (2 ≤ length (settings_named db (grade g)))%nat
  | _ => True
  end.

(** The sum of the course units of the attempts. *)
Definition units_total (es : list Enrollment) : Z :=
  foldr (λ e n, units (course e) + n) 0 es.

(** The attempts of the student whose grade yields a grade point for the
    audit: a grade row with a letter that the approval gate lets through
    and the scale knows. *)
Definition attempts_with_grade_point (db : DB) (student : Student) : list Enrollment :=
  filter (λ e, is_Some (Graduation._grade_point db e
                          (require_approved_for_metrics (policy db))))
         (enrollment_set db student).

(** The store with [require_approved_for_transcripts] set to [b]. *)
Definition with_transcript_approval (b : bool) (db : DB) : DB :=
  {| students := students db; enrollments := enrollments db; grades := grades db;
     grading_settings := grading_settings db;
     policy := {| repeat_policy := repeat_policy (policy db);
                  require_approved_for_transcripts := b;
                  require_approved_for_exports := require_approved_for_exports (policy db);
                  require_approved_for_metrics := require_approved_for_metrics (policy db) |};
     curriculum := curriculum db; thresholds := thresholds db;
     prerequisites := prerequisites db |}.

(** The columns without the Grade Point column. *)
Definition without_grade_point (columns : list string) : list string :=
  filter (λ column, column ≠ "Grade Point") columns.

(** A decimal digit or an upper-case letter from A to F. *)
Definition is_upper_hex (c : ascii) : bool :=
  let n := nat_of_ascii c in
  (((48 <=? n) && (n <=? 57)) || ((65 <=? n) && (n <=? 70)))%nat.

(** Every object of the value, at any depth, has distinct keys, as every
    Python [dict] has. *)
Fixpoint distinct_keys (j : Json.json) : Prop :=
  match j with
  | Json.JArr items =>
      (fix all (l : list Json.json) : Prop :=
         match l with [] => True | x :: l' => distinct_keys x ∧ all l' end) items
  | Json.JObj members =>
      NoDup members.*1
      ∧ (fix all (l : list (string * Json.json)) : Prop :=
           match l with
           | [] => True
           | (_, v) :: l' => distinct_keys v ∧ all l'
           end) members
  | _ => True
  end.

(** The two values are the same up to the order in which the members of
    their objects are listed, at any depth: arrays agree item by item, and
    the members of an object can be reordered so that they agree key by
    key. *)
Inductive same_json : Json.json → Json.json → Prop :=
  | same_json_refl j : same_json j j
  | same_json_arr xs ys :
      Forall2 same_json xs ys → same_json (Json.JArr xs) (Json.JArr ys)
  | same_json_obj m1 m2 m :
      Forall2 (λ a b, a.1 = b.1 ∧ same_json a.2 b.2) m1 m → m ≡ₚ m2 →
      same_json (Json.JObj m1) (Json.JObj m2).

(** The enrollment has no grade row, or one grade row whose letter names
    exactly one row of the grading scale. *)
Definition with_usable_grade_or_none (db : DB) (e : Enrollment) : Prop :=
  grades_of db e = []
  ∨ ∃ g gs, grades_of db e = [g] ∧ settings_named db (grade g) = [gs].

(** *** Further sample data *)

Module Cases.

(** The curriculum of the sample program at 100 level: two courses in the
    first semester besides G101, and one in the second. *)
Definition ENG102 : Course :=
  {| course_pk := 8; code := "ENG102"; title := "Writing"; units := 2 |}.

Definition placement (c : Course) (semester : string)
    : CourseSuggestions.CurriculumPlacement :=
  {| CourseSuggestions.placed :=
       {| cc_program := 1; cc_course := c; is_compulsory := true |};
     CourseSuggestions.placed_level := "100 Level";
     CourseSuggestions.placed_semester := semester |}.

Definition placements : list CourseSuggestions.CurriculumPlacement :=
  [ placement Sample.CSC301 "FIRST"; placement Sample.G101 "FIRST";
    placement Sample.MTH102 "FIRST"; placement ENG102 "SECOND" ].

(** One value written with its keys in two orders, at two depths. *)
Definition nested : Json.json :=
  Json.JObj
    [ ("student", Json.JObj [ ("student_id", Json.JStr "TAMP1");
                              ("last_name", Json.JStr "Doe") ]);
      ("enrollments",
       Json.JArr [ Json.JObj [ ("units", Json.JInt 3); ("grade", Json.JStr "A") ] ]) ].

Definition nested_reordered : Json.json :=
  Json.JObj
    [ ("enrollments",
       Json.JArr [ Json.JObj [ ("grade", Json.JStr "A"); ("units", Json.JInt 3) ] ]);
      ("student", Json.JObj [ ("last_name", Json.JStr "Doe");
                              ("student_id", Json.JStr "TAMP1") ]) ].

(** Verification data as an older caller stored them, without a canonical
    payload, under a code of the usual form; the world after they were
    stored, and that world after the record was revoked. *)
Definition plain_data : Json.dict := [("student_id", Json.JStr "TAMP1")].

Definition stored : Security.World :=
  (Security.store_verification_data Datetime.fromisoformat "TXN-0123456789AB"
     plain_data Sample.world0).2.

Definition revoked : Security.World :=
  Sample.revoke_and_rewind "TXN-0123456789AB" 1793707200123460 stored.

End Cases.

(** * Properties *)

(** ** Python built-ins *)

Lemma upper_ascii_idemp c : Py.upper_ascii (Py.upper_ascii c) = Py.upper_ascii c.
Proof. destruct c as [[] [] [] [] [] [] [] []]; reflexivity. Qed.

Lemma upper_idemp s : Py.upper (Py.upper s) = Py.upper s.
Proof. induction s as [|c s IH]; simpl; [done|]. by rewrite upper_ascii_idemp, IH. Qed.

Lemma pair_ltb_le a b : Py.pair_ltb a b = true → Py.pair_le a b.
Proof. unfold Py.pair_ltb, Py.pair_le. destruct a, b; simpl. lia. Qed.

Lemma pair_nltb_le a b : Py.pair_ltb a b = false → Py.pair_le b a.
Proof. unfold Py.pair_ltb, Py.pair_le. destruct a, b; simpl. lia. Qed.

Lemma pair_le_trans a b c : Py.pair_le a b → Py.pair_le b c → Py.pair_le a c.
Proof. unfold Py.pair_le. lia. Qed.

Lemma pair_le_refl a : Py.pair_le a a.
Proof. unfold Py.pair_le. lia. Qed.

Lemma float_ltb_lt a b : Py.float_ltb a b = true ↔ (a < b)%Q.
Proof.
  unfold Py.float_ltb. rewrite negb_true_iff. split.
  - intros H. apply Qnot_le_lt. intros Hle. apply Qle_bool_iff in Hle. congruence.
  - intros H. destruct (Qle_bool b a) eqn:E; [|done].
    apply Qle_bool_iff in E. exfalso. exact (Qlt_not_le _ _ H E).
Qed.

Lemma float_nltb_le a b : Py.float_ltb a b = false ↔ (b <= a)%Q.
Proof.
  unfold Py.float_ltb. rewrite negb_false_iff. apply Qle_bool_iff.
Qed.

(** [search_4digits] finds the leftmost run of four digits, and fails only
    when there is none. *)
Lemma four_digits_at_cons a s pre y :
  four_digits_at s pre y → four_digits_at (String a s) (String a pre) y.
Proof.
  intros (a' & b & c & d & post & -> & Hd & ->). by exists a', b, c, d, post.
Qed.

Lemma four_digits_at_tail a s pre y :
  four_digits_at (String a s) pre y →
  (pre = "" ∧ four_digits_at (String a s) "" y)
  ∨ ∃ pre', pre = String a pre' ∧ four_digits_at s pre' y.
Proof.
  intros (a' & b & c & d & post & Hs & Hd & ->). destruct pre as [|p pre].
  - left. split; [done|]. by exists a', b, c, d, post.
  - right. simpl in Hs. injection Hs as -> ->. exists pre. split; [done|].
    by exists a', b, c, d, post.
Qed.

Lemma search_4digits_found s y :
  Py.search_4digits s = Some y →
  ∃ pre, four_digits_at s pre y
         ∧ ∀ pre' y', four_digits_at s pre' y' →
                      (String.length pre ≤ String.length pre')%nat.
Proof.
  revert y. induction s as [|a s IH]; intros y; simpl; [done|].
  destruct s as [|b [|c [|d rest]]]; try done.
  destruct (Py.isdigit a && Py.isdigit b && Py.isdigit c && Py.isdigit d) eqn:Hd.
  - intros [= <-]. exists "". split; [by exists a, b, c, d, rest|].
    intros pre' y' _. simpl. lia.
  - intros H. destruct (IH y H) as (pre & Hat & Hleft).
    exists (String a pre). split; [by apply four_digits_at_cons|].
    intros pre' y' Hat'. apply four_digits_at_tail in Hat' as [[-> Hat']|(p & -> & Hat')].
    + destruct Hat' as (a' & b' & c' & d' & post & Hs & Hd' & _).
      simpl in Hs. injection Hs as <- <- <- <- _. congruence.
    + simpl. specialize (Hleft p y' Hat'). lia.
Qed.

Lemma search_4digits_absent s :
  Py.search_4digits s = None → ∀ pre y, ¬ four_digits_at s pre y.
Proof.
  induction s as [|a s IH]; simpl.
  - intros _ pre y (a' & b & c & d & post & Hs & _). by destruct pre.
  - intros H pre y Hat.
    apply four_digits_at_tail in Hat as [[-> Hat]|(p & -> & Hat)].
    + destruct Hat as (a' & b' & c' & d' & post & Hs & Hd' & _).
      simpl in Hs. injection Hs as <- ->. by rewrite Hd' in H.
    + destruct s as [|b [|c [|d rest]]].
      1-3: destruct Hat as (a' & b' & c' & d' & post & Hs & _);
           by destruct p as [|? [|? [|? ?]]].
      destruct (Py.isdigit a && Py.isdigit b && Py.isdigit c && Py.isdigit d); [done|].
      by apply (IH H p y).
Qed.

(** [max] returns an element of the sequence whose key bounds every key. *)
Section max_by.
Context {A K : Type} (key : A → K) (ltb : K → K → bool) (le : relation K).
Hypothesis ltb_le : ∀ a b, ltb a b = true → le a b.
Hypothesis nltb_le : ∀ a b, ltb a b = false → le b a.
Hypothesis le_refl : ∀ a, le a a.
Hypothesis le_trans : ∀ a b c, le a b → le b c → le a c.

Let gt (x y : A) : bool := ltb (key y) (key x).

Lemma max_by_elem x xs : Py.max_by gt x xs ∈ x :: xs.
Proof.
  clear ltb_le nltb_le le_refl le_trans. unfold Py.max_by. revert x. induction xs as [|y ys IH]; intros x; simpl.
  - set_solver.
  - destruct (gt y x); [specialize (IH y)|specialize (IH x)]; set_solver.
Qed.

Lemma max_by_grows x xs : le (key x) (key (Py.max_by gt x xs)).
Proof.
  unfold Py.max_by. revert x. induction xs as [|y ys IH]; intros x; simpl; [done|].
  destruct (gt y x) eqn:E; [|done].
  eapply le_trans; [|apply IH]. by apply ltb_le.
Qed.

Lemma max_by_upper x xs a : a ∈ x :: xs → le (key a) (key (Py.max_by gt x xs)).
Proof.
  revert x. induction xs as [|y ys IH]; intros x Hin.
  - apply list_elem_of_singleton in Hin as ->. apply le_refl.
  - apply elem_of_cons in Hin as [->|Hin]; [apply max_by_grows|].
    change (Py.max_by gt x (y :: ys)) with (Py.max_by gt (if gt y x then y else x) ys).
    destruct (gt y x) eqn:E.
    + by apply IH.
    + apply elem_of_cons in Hin as [->|Hin].
      * eapply le_trans; [by apply nltb_le|apply max_by_grows].
      * apply IH. set_solver.
Qed.
End max_by.

(** ** Attempt selection *)

Section repeat_policy.
Import RepeatPolicy.

Lemma ids_app es1 es2 : ids (es1 ++ es2) = ids es1 ∪ ids es2.
Proof. unfold ids. rewrite fmap_app. set_solver. Qed.

Lemma group_ids_cons k es d : group_ids ((k, es) :: d) = ids es ∪ group_ids d.
Proof. reflexivity. Qed.

Lemma setdefault_append_ids k e d :
  group_ids (setdefault_append k e d) = group_ids d ∪ {[ enrollment_id e ]}.
Proof.
  induction d as [|[k' es] d IH]; simpl.
  - rewrite group_ids_cons. unfold group_ids, ids. set_solver.
  - case_decide; rewrite !group_ids_cons.
    + rewrite ids_app. unfold ids at 2. set_solver.
    + rewrite IH. set_solver.
Qed.

Lemma foldl_setdefault_ids es d :
  group_ids (foldl (λ by_course e, setdefault_append (code (course e)) e by_course) d es)
  = group_ids d ∪ ids es.
Proof.
  revert d. induction es as [|e es IH]; intros d; simpl.
  - unfold ids. set_solver.
  - rewrite IH, setdefault_append_ids. unfold ids. set_solver.
Qed.

Lemma group_by_course_ids es : group_ids (group_by_course es) = ids es.
Proof. unfold group_by_course. rewrite foldl_setdefault_ids. unfold group_ids. set_solver. Qed.

Lemma choose_unknown db rp chosen attempts :
  rp ≠ "LATEST" → rp ≠ "BEST" → choose db rp chosen attempts = chosen ∪ ids attempts.
Proof.
  intros H1 H2. unfold choose. destruct attempts as [|a rest].
  - unfold ids. set_solver.
  - by rewrite !decide_False.
Qed.

Lemma foldl_choose_unknown db rp chosen d :
  rp ≠ "LATEST" → rp ≠ "BEST" →
  foldl (λ chosen item, choose db rp chosen item.2) chosen d = chosen ∪ group_ids d.
Proof.
  intros H1 H2. revert chosen. induction d as [|[k es] d IH]; intros chosen; simpl.
  - unfold group_ids. set_solver.
  - rewrite IH, choose_unknown, group_ids_cons by done. set_solver.
Qed.

(** Grouping attempts that all carry one course code yields one group. *)
Lemma foldl_setdefault_one c es g :
  (∀ a, a ∈ es → code (course a) = c) →
  foldl (λ by_course e, setdefault_append (code (course e)) e by_course) [(c, g)] es
  = [(c, g ++ es)].
Proof.
  revert g. induction es as [|e es IH]; intros g Hc; simpl.
  - by rewrite app_nil_r.
  - rewrite (Hc e) by set_solver. rewrite decide_True by done.
    rewrite IH by set_solver. by rewrite <- app_assoc.
Qed.

Lemma group_by_course_one c e es :
  (∀ a, a ∈ e :: es → code (course a) = c) →
  group_by_course (e :: es) = [(c, e :: es)].
Proof.
  intros Hc. unfold group_by_course. simpl. rewrite (Hc e) by set_solver.
  apply (foldl_setdefault_one c es [e]). set_solver.
Qed.

Lemma best_key_ltb_le a b : best_key_ltb a b = true → best_key_le a b.
Proof.
  unfold best_key_ltb, best_key_le, Py.float_eqb. intros H.
  apply orb_true_iff in H as [H|H].
  - left. by apply float_ltb_lt.
  - apply andb_true_iff in H as [H1 H2]. right. split.
    + by apply Qeq_bool_iff.
    + by apply pair_ltb_le.
Qed.

Lemma best_key_nltb_le a b : best_key_ltb a b = false → best_key_le b a.
Proof.
  unfold best_key_ltb, best_key_le, Py.float_eqb. intros H.
  apply orb_false_iff in H as [H1 H2]. apply float_nltb_le in H1.
  apply Qle_lt_or_eq in H1 as [H1|H1]; [by left|right].
  split; [done|]. apply andb_false_iff in H2 as [H2|H2].
  - apply Qeq_bool_neq in H2. exfalso. apply H2. by symmetry.
  - by apply pair_nltb_le.
Qed.

Lemma best_key_le_refl a : best_key_le a a.
Proof. right. split; [reflexivity|apply pair_le_refl]. Qed.

Lemma best_key_le_trans a b c : best_key_le a b → best_key_le b c → best_key_le a c.
Proof.
  unfold best_key_le. intros [H1|[H1 H1']] [H2|[H2 H2']].
  - left. by eapply Qlt_trans.
  - left. by rewrite <- H2.
  - left. by rewrite H1.
  - right. split; [by rewrite H1|by eapply pair_le_trans].
Qed.

End repeat_policy.

Section selection.
Import RepeatPolicy.

Example strip_upper_sample : Py.upper (Py.strip "  txn-ab12cd ") = "TXN-AB12CD".
Proof. reflexivity. Qed.

Example term_sort_key_e1 : term_sort_key Sample.e1 = (2023, 1).
Proof. reflexivity. Qed.

Example session_sort_key_samples :
  _session_sort_key (Some "2023/2024") = 2023
  ∧ _session_sort_key (Some "Session 12024-25") = 1202
  ∧ _session_sort_key (Some "Rain 23/24") = 0
  ∧ _session_sort_key (Some "") = 0
  ∧ _session_sort_key None = 0.
Proof. by repeat split. Qed.

Example semester_order_values :
  SEMESTER_ORDER_get "FIRST" = 1 ∧ SEMESTER_ORDER_get "SECOND" = 2
  ∧ SEMESTER_ORDER_get "SUMMER" = 3 ∧ SEMESTER_ORDER_get "HARMATTAN" = 0.
Proof. by repeat split. Qed.

(** C4, amended: for policy ALL, for an empty or absent policy, and for
    every policy written in ASCII characters whose upper-case form is
    neither LATEST nor BEST, [select_enrollments_for_gpa] returns the
    identifiers of all the attempts it was given.  (The function
    upper-cases the policy before it looks at it.) *)
Theorem select_all_unless_latest_or_best db es p :
  isascii (Py.or_else p "ALL") = true →
  Py.upper (Py.or_else p "ALL") ≠ "LATEST" →
  Py.upper (Py.or_else p "ALL") ≠ "BEST" →
  select_enrollments_for_gpa db es p = ids es.
Proof.
  intros _ H1 H2. unfold select_enrollments_for_gpa.
  case_decide; [done|].
  rewrite foldl_choose_unknown, group_by_course_ids by done. set_solver.
Qed.

Lemma select_all_unless_latest_or_best_witness :
  select_enrollments_for_gpa (Sample.db_repeat "ALL") [Sample.e1; Sample.e2]
    (Some "Weighted") = ids [Sample.e1; Sample.e2].
Proof. apply select_all_unless_latest_or_best; by vm_compute. Defined.

Example select_policy_ALL db es : select_enrollments_for_gpa db es (Some "ALL") = ids es.
Proof. reflexivity. Qed.

Example select_policy_None db es : select_enrollments_for_gpa db es None = ids es.
Proof. reflexivity. Qed.

Example select_policy_empty db es : select_enrollments_for_gpa db es (Some "") = ids es.
Proof. reflexivity. Qed.

(** C4 as stated fails: the value ["latest"] is none of ALL, LATEST, BEST,
    yet only the later of two attempts at POL101 is returned. *)
Lemma select_lowercase_latest_drops_attempt :
  ¬ (∀ db es p, p ≠ Some "ALL" → p ≠ Some "LATEST" → p ≠ Some "BEST" →
       select_enrollments_for_gpa db es p = ids es).
Proof.
  intros H.
  specialize (H (Sample.db_repeat "ALL") [Sample.e1; Sample.e2] (Some "latest")).
  assert (1 ∈ select_enrollments_for_gpa (Sample.db_repeat "ALL")
                [Sample.e1; Sample.e2] (Some "latest")) as Hin.
  { rewrite H by done. unfold ids. set_solver. }
  revert Hin. vm_compute. set_solver.
Qed.

Lemma select_one_group db rp c a rest :
  (∀ x, x ∈ a :: rest → code (course x) = c) →
  foldl (λ chosen item, choose db rp chosen item.2) ∅ (group_by_course (a :: rest))
  = choose db rp ∅ (a :: rest).
Proof. intros Hc. by rewrite (group_by_course_one c). Qed.

(** The session key is the value of the leftmost run of four digits, and
    0 without one. *)
Lemma session_sort_key_spec s :
  (∃ pre, four_digits_at s pre (_session_sort_key (Some s))
          ∧ ∀ pre' y', four_digits_at s pre' y' →
                       (String.length pre ≤ String.length pre')%nat)
  ∨ (_session_sort_key (Some s) = 0 ∧ ∀ pre y, ¬ four_digits_at s pre y).
Proof.
  unfold _session_sort_key.
  destruct (Py.search_4digits s) as [y|] eqn:E.
  - left. apply search_4digits_found in E as (pre & H1 & H2).
    destruct s; [|by exists pre].
    destruct H1 as (a & b & c & d & post & Heq & _). by destruct pre.
  - right. split; [by destruct s|]. by apply search_4digits_absent.
Qed.

Lemma term_sort_key_spec e : term_key_of e (term_sort_key e).
Proof.
  split; [apply session_sort_key_spec|]. unfold term_sort_key, SEMESTER_ORDER_get.
  cbn [snd]. repeat case_decide;
    [by left|by right; left|by right; right; left|by right; right; right].
Qed.

Lemma grade_point_for_enrollment_spec db e :
  ranked_grade_point db e (grade_point_for_enrollment db e).
Proof.
  unfold ranked_grade_point, grade_point_for_enrollment.
  destruct (head (grades_of db e)) as [g|]; [|by right; split; [|left]].
  case_decide as Hg; [right; split; [done|]; right; exists g; auto|].
  destruct (head (settings_named db (grade g))) as [gs|] eqn:Hgs.
  - left. by exists g, gs.
  - right. split; [done|]. right. exists g. auto.
Qed.

(** C5: for a non-empty list of attempts at one course code, whose
    session labels are written in ASCII characters, policy LATEST selects
    exactly one attempt, and its term key is at least every attempt's key
    in the lexicographic order; policy BEST selects exactly one attempt,
    and its pair (grade point, term key) is at least every attempt's
    pair, so it has the highest grade point and, among those, the latest
    term.  The term key of an attempt is the year, the value of the
    leftmost run of four digits of the session label and 0 without one,
    with the ordinal of the semester (FIRST 1, SECOND 2, SUMMER 3, other
    0); the grade point is that of the scale row the attempt's grade
    names, and -1 for an attempt without one. *)
Theorem latest_and_best_select_one_maximal db attempts p c :
  attempts ≠ [] →
  (∀ a, a ∈ attempts → code (course a) = c) →
  (∀ a, a ∈ attempts → isascii (session_name (session a)) = true) →
  (Py.upper (Py.or_else p "ALL") = "LATEST" →
     ∃ best, best ∈ attempts
       ∧ select_enrollments_for_gpa db attempts p = {[ enrollment_id best ]}
       ∧ ∀ a, a ∈ attempts → Py.pair_le (term_sort_key a) (term_sort_key best))
  ∧ (Py.upper (Py.or_else p "ALL") = "BEST" →
     ∃ best, best ∈ attempts
       ∧ select_enrollments_for_gpa db attempts p = {[ enrollment_id best ]}
       ∧ ∀ a, a ∈ attempts → best_key_le (best_key db a) (best_key db best))
  ∧ (∀ a, a ∈ attempts →
       term_key_of a (term_sort_key a)
       ∧ ranked_grade_point db a (best_key db a).1
       ∧ (best_key db a).2 = term_sort_key a).
Proof.
  intros Hne Hc _. destruct attempts as [|a rest]; [done|]. clear Hne.
  split; [|split]; [intros Hp ..|];
    try (unfold select_enrollments_for_gpa; rewrite Hp;
         (rewrite decide_False by done);
         rewrite (select_one_group db _ c) by done; unfold choose).
  - rewrite decide_True by done.
    exists (Py.max_by (λ x y, Py.pair_ltb (term_sort_key y) (term_sort_key x)) a rest).
    split; [|split].
    + apply (max_by_elem term_sort_key Py.pair_ltb).
    + set_solver.
    + intros x Hx.
      apply (max_by_upper term_sort_key Py.pair_ltb Py.pair_le);
        eauto using pair_ltb_le, pair_nltb_le, pair_le_refl, pair_le_trans.
  - rewrite decide_False, decide_True by done.
    exists (Py.max_by (λ x y, best_key_ltb (best_key db y) (best_key db x)) a rest).
    split; [|split].
    + apply (max_by_elem (best_key db) best_key_ltb).
    + set_solver.
    + intros x Hx.
      apply (max_by_upper (best_key db) best_key_ltb best_key_le);
        eauto using best_key_ltb_le, best_key_nltb_le, best_key_le_refl, best_key_le_trans.
  - intros x _. split; [apply term_sort_key_spec|]. split; [|done].
    apply grade_point_for_enrollment_spec.
Qed.

(** Under LATEST and under BEST, on the two attempts at POL101. *)
Lemma latest_and_best_select_one_maximal_witness :
  (∃ best, best ∈ [Sample.e1; Sample.e2]
     ∧ select_enrollments_for_gpa (Sample.db_repeat "LATEST")
         [Sample.e1; Sample.e2] (Some "LATEST") = {[ enrollment_id best ]}
     ∧ ∀ a, a ∈ [Sample.e1; Sample.e2] →
         Py.pair_le (term_sort_key a) (term_sort_key best))
  ∧ (∃ best, best ∈ [Sample.e2; Sample.e1]
       ∧ select_enrollments_for_gpa (Sample.db_repeat "BEST")
           [Sample.e2; Sample.e1] (Some "best") = {[ enrollment_id best ]}
       ∧ ∀ a, a ∈ [Sample.e2; Sample.e1] →
           best_key_le (best_key (Sample.db_repeat "BEST") a)
                       (best_key (Sample.db_repeat "BEST") best)).
Proof.
  assert (∀ l, l ⊆ [Sample.e1; Sample.e2] →
               (∀ a, a ∈ l → code (course a) = "POL101")
               ∧ (∀ a, a ∈ l → isascii (session_name (session a)) = true)) as Hl.
  { intros l Hsub. split; intros a Ha; apply Hsub in Ha;
      repeat (apply elem_of_cons in Ha as [->|Ha]; [reflexivity|]);
      by apply elem_of_nil in Ha. }
  split.
  - destruct (Hl [Sample.e1; Sample.e2]) as [H1 H2]; [done|].
    destruct (latest_and_best_select_one_maximal (Sample.db_repeat "LATEST")
                [Sample.e1; Sample.e2] (Some "LATEST") "POL101") as (H & _); [done..|].
    by apply H.
  - destruct (Hl [Sample.e2; Sample.e1]) as [H1 H2]; [set_solver|].
    destruct (latest_and_best_select_one_maximal (Sample.db_repeat "BEST")
                [Sample.e2; Sample.e1] (Some "best") "POL101") as (_ & H & _); [done..|].
    by apply H.
Defined.

Example select_latest_sample :
  select_enrollments_for_gpa (Sample.db_repeat "LATEST") [Sample.e1; Sample.e2]
    (Some "LATEST") = {[ 2 ]}.
Proof. by vm_compute. Qed.

Example select_best_sample :
  select_enrollments_for_gpa (Sample.db_repeat "BEST") [Sample.e2; Sample.e1]
    (Some "BEST") = {[ 2 ]}.
Proof. by vm_compute. Qed.

End selection.

(** ** Metrics *)

Section metrics.
Import Metrics.

(** C6 as stated fails: with approved-only metrics on, the draft A of
    APP101 is in the counted set, and the loop leaves the total units at 0
    instead of adding the 3 units of the course. *)
Lemma unapproved_grade_units_not_accumulated :
  ¬ (∀ db counted_ids a e g,
       require_approved_for_metrics (policy db) = true →
       objects_get (grades_of db e) = Found g →
       status g ≠ STATUS_APPROVED →
       enrollment_id e ∈ counted_ids →
       ∃ a', step db counted_ids a e = Returned a'
             ∧ total_grade_points a' = total_grade_points a
             ∧ total_units a' = total_units a + units (course e)).
Proof.
  intros H.
  destruct (H Sample.db_approval {[ 3 ]} acc0 Sample.e3 Sample.draft_A)
    as (a' & Hstep & _ & Hunits); [done|done|done|set_solver|].
  vm_compute in Hstep. injection Hstep as <-. vm_compute in Hunits. done.
Qed.

Example metrics_approval_sample :
  update_academic_metrics Sample.db_approval Sample.app1
  = Returned {| current_cgpa := 0; total_units_attempted := 0;
                total_units_passed := 0; total_sessions_completed := 0 |}.
Proof. by vm_compute. Qed.

(** C6, amended: when approved-only metrics are on and the enrollment's
    grade exists but is not approved, the loop skips the enrollment: it
    adds nothing to the grade points, to the units, to the passed units or
    to the sessions, whether or not the enrollment is counted.  That is
    not what the branch for a missing grade or a missing scale entry
    does: there a counted enrollment adds its units, and no points. *)
Theorem unapproved_grade_is_skipped db counted_ids a e g :
  require_approved_for_metrics (policy db) = true →
  objects_get (grades_of db e) = Found g →
  status g ≠ STATUS_APPROVED →
  step db counted_ids a e = Returned a
  ∧ (∀ e', enrollment_id e' ∈ counted_ids →
       (objects_get (grades_of db e') = DoesNotExist
        ∨ ∃ g', objects_get (grades_of db e') = Found g'
                ∧ status g' = STATUS_APPROVED
                ∧ objects_get (settings_named db (grade g')) = DoesNotExist) →
       ∃ a', step db counted_ids a e' = Returned a'
             ∧ total_grade_points a' = total_grade_points a
             ∧ total_units a' = total_units a + units (course e')).
Proof.
  intros Hreq Hg Hst. split.
  - unfold step. rewrite Hg, Hreq. by rewrite bool_decide_eq_false_2.
  - intros e' Hin [Hnone|(g' & Hg' & Hst' & Hnone)]; unfold step.
    + rewrite Hnone. eexists. split; [done|]. simpl. by rewrite decide_True.
    + rewrite Hg', Hnone. rewrite bool_decide_eq_true_2, andb_false_r by done.
      eexists. split; [done|]. simpl. by rewrite decide_True.
Qed.

Lemma unapproved_grade_is_skipped_witness :
  step Sample.db_approval {[ 3 ]} acc0 Sample.e3 = Returned acc0
  ∧ (∀ e', enrollment_id e' ∈ ({[ 3 ]} : gset Z) →
       (objects_get (grades_of Sample.db_approval e') = DoesNotExist
        ∨ ∃ g', objects_get (grades_of Sample.db_approval e') = Found g'
                ∧ status g' = STATUS_APPROVED
                ∧ objects_get (settings_named Sample.db_approval (grade g')) = DoesNotExist) →
       ∃ a', step Sample.db_approval {[ 3 ]} acc0 e' = Returned a'
             ∧ total_grade_points a' = total_grade_points acc0
             ∧ total_units a' = total_units acc0 + units (course e')).
Proof.
  apply (unapproved_grade_is_skipped Sample.db_approval {[ 3 ]} acc0 Sample.e3
           Sample.draft_A); [reflexivity|reflexivity|by vm_compute].
Defined.

End metrics.

(** ** Graduation audit against the metrics computation *)

Section audit_vs_metrics.
Import Metrics Graduation.

Lemma Qmult_comm_eq (a b : Q) : (a * b)%Q = (b * a)%Q.
Proof. unfold Qmult. f_equal; [apply Z.mul_comm|apply Pos.mul_comm]. Qed.

(** C7 as stated fails: for a student whose only enrollment has no grade
    yet, the metrics computation reports the 3 attempted units, the audit
    reports 0 units. *)
Lemma audit_units_differ_from_metrics :
  ¬ (∀ db student m,
       program student ≠ None →
       update_academic_metrics db student = Returned m →
       (cgpa (audit_student_graduation db student) == current_cgpa m)%Q
       ∧ total_units_earned (audit_student_graduation db student)
         = total_units_attempted m).
Proof.
  intros H.
  destruct (H Sample.db_ungraded Sample.grad1
              {| current_cgpa := (0 # 100)%Q; total_units_attempted := 3;
                 total_units_passed := 0; total_sessions_completed := 1 |})
    as [_ Hunits]; [done|by vm_compute|].
  vm_compute in Hunits. done.
Qed.

(** The audit also ignores the repeat policy: under LATEST the two
    attempts at POL101 give 6 units and 3.00 in the audit's pass, 3 units
    and 4.00 in the metrics. *)
Example audit_pass_ignores_repeat_policy :
  compute_cgpa_for_program (Sample.db_repeat "LATEST") Sample.pol1 false = ((300 # 100)%Q, 6)
  ∧ update_academic_metrics (Sample.db_repeat "LATEST") Sample.pol1
    = Returned {| current_cgpa := (400 # 100)%Q; total_units_attempted := 3;
                  total_units_passed := 6; total_sessions_completed := 2 |}.
Proof. split; by vm_compute. Qed.

Lemma step_matches_cgpa_step db counted_ids a e :
  resolves db e → enrollment_id e ∈ counted_ids →
  ∃ a', step db counted_ids a e = Returned a'
        ∧ (total_grade_points a', total_units a')
          = cgpa_step db (require_approved_for_metrics (policy db))
              (total_grade_points a, total_units a) e.
Proof.
  intros (g & Hg & Hres) Hin. unfold step, cgpa_step, _grade_point.
  rewrite Hg. simpl.
  destruct (require_approved_for_metrics (policy db)
            && negb (bool_decide (status g = STATUS_APPROVED))) eqn:Hgate.
  - exists a. split; [done|]. by destruct (decide (grade g = "")).
  - destruct Hres as [[Hreq Hst]|(Hname & gs & Hgs)].
    + rewrite Hreq, bool_decide_eq_false_2 in Hgate by done. done.
    + rewrite Hgs. simpl. rewrite decide_False by done.
      eexists. split; [done|]. simpl.
      rewrite bool_decide_eq_true_2 by done. by rewrite Qmult_comm_eq.
Qed.

Lemma loop_matches_fold db counted_ids es a :
  (∀ e, e ∈ es → resolves db e) →
  (∀ e, e ∈ es → enrollment_id e ∈ counted_ids) →
  ∃ a', loop db counted_ids a es = Returned a'
        ∧ (total_grade_points a', total_units a')
          = foldl (cgpa_step db (require_approved_for_metrics (policy db)))
              (total_grade_points a, total_units a) es.
Proof.
  revert a. induction es as [|e es IH]; intros a Hres Hin; simpl.
  - by exists a.
  - destruct (step_matches_cgpa_step db counted_ids a e) as (a1 & Hstep & Heq);
      [apply Hres; set_solver|apply Hin; set_solver|].
    rewrite Hstep. destruct (IH a1) as (a' & Hloop & Heq'); [set_solver|set_solver|].
    exists a'. split; [done|]. by rewrite Heq', Heq.
Qed.

Lemma cgpa_fold_units_nonneg db req es acc :
  (∀ e, e ∈ es → 0 ≤ units (course e)) → 0 ≤ acc.2 →
  0 ≤ (foldl (cgpa_step db req) acc es).2.
Proof.
  revert acc. induction es as [|e es IH]; intros acc Hu Hacc; simpl; [done|].
  apply IH; [set_solver|]. unfold cgpa_step.
  destruct (_grade_point db e req); simpl; [|done].
  assert (0 ≤ units (course e)) by (apply Hu; set_solver). lia.
Qed.

(** C7, amended: the audit computes its cumulative average and its units
    in a pass of its own over the student's whole enrollment history.
    Its two results equal those of the metrics computation whenever that
    computation counts every attempt of the student (as under policy ALL)
    and every enrollment has one grade that is either held back by the
    approval gate or names exactly one scale entry; the metrics
    computation then returns. *)
Theorem audit_matches_metrics_when_all_resolve db student prog :
  program student = Some prog →
  (∀ e, e ∈ enrollment_set db student → 0 ≤ units (course e)) →
  (∀ e, e ∈ enrollment_set db student →
     enrollment_id e ∈ RepeatPolicy.select_enrollments_for_gpa db
                         (enrollment_set db student) (Some (repeat_policy (policy db)))) →
  (∀ e, e ∈ enrollment_set db student → resolves db e) →
  ∃ m, update_academic_metrics db student = Returned m
       ∧ (cgpa (audit_student_graduation db student) == current_cgpa m)%Q
       ∧ total_units_earned (audit_student_graduation db student)
         = total_units_attempted m.
Proof.
  intros Hprog Hunits Hcounted Hres.
  unfold update_academic_metrics, audit_student_graduation, compute_cgpa_for_program.
  rewrite Hprog.
  destruct (loop_matches_fold db
              (RepeatPolicy.select_enrollments_for_gpa db (enrollment_set db student)
                 (Some (repeat_policy (policy db))))
              (enrollment_set db student) acc0 Hres Hcounted) as (a' & -> & Heq).
  pose proof (cgpa_fold_units_nonneg db (require_approved_for_metrics (policy db))
                (enrollment_set db student) (0%Q, 0) Hunits) as Hnn.
  simpl in Heq. rewrite <- Heq in *. simpl in Hnn. specialize (Hnn ltac:(done)).
  eexists. split; [done|]. unfold finish. simpl.
  case_decide as Hz; simpl.
  - rewrite Hz. done.
  - destruct (0 <? total_units a') eqn:E; [done|]. apply Z.ltb_ge in E. lia.
Qed.

Lemma audit_matches_metrics_when_all_resolve_witness :
  ∃ m, update_academic_metrics (Sample.db_grad [Sample.graded_A]) Sample.grad1 = Returned m
       ∧ (cgpa (audit_student_graduation (Sample.db_grad [Sample.graded_A]) Sample.grad1)
          == current_cgpa m)%Q
       ∧ total_units_earned
           (audit_student_graduation (Sample.db_grad [Sample.graded_A]) Sample.grad1)
         = total_units_attempted m.
Proof.
  apply (audit_matches_metrics_when_all_resolve _ _ Sample.bsc_cs); [reflexivity|..].
  - intros e He. vm_compute in He. apply list_elem_of_singleton in He as ->. by vm_compute.
  - intros e He. vm_compute in He. apply list_elem_of_singleton in He as ->.
    vm_compute. set_solver.
  - intros e He. vm_compute in He. apply list_elem_of_singleton in He as ->.
    exists Sample.graded_A. split; [reflexivity|]. right. split; [done|].
    eexists. by vm_compute.
Defined.

End audit_vs_metrics.

(** ** Graduation audit *)

Section graduation.
Import Graduation.

Global Instance desc_by_total {A} (key : A → Q) : Total (desc_by key).
Proof.
  intros x y. unfold desc_by.
  destruct (Qlt_le_dec (key x) (key y)) as [H|H]; [right|left]; [|done].
  by apply Qlt_le_weak.
Qed.

Lemma order_by_desc_sorted {A} (key : A → Q) rows :
  Sorted (desc_by key) (order_by_desc key rows).
Proof. apply Sorted_merge_sort, _. Qed.

Lemma order_by_desc_perm {A} (key : A → Q) rows : order_by_desc key rows ≡ₚ rows.
Proof. apply merge_sort_Permutation. Qed.

Lemma first_band_first {A} (min : A → Q) (label : A → string) cgpa ladder fallback t :
  first_at_or_below min cgpa ladder t →
  first_band min label cgpa ladder fallback = label t.
Proof.
  intros (pre & post & -> & Ht & Hpre).
  induction pre as [|u pre IH]; simpl.
  - apply Qle_bool_iff in Ht. by rewrite Ht.
  - destruct (Qle_bool (min u) cgpa) eqn:E.
    + apply Qle_bool_iff in E. exfalso. apply (Hpre u); [set_solver|done].
    + apply IH. intros v Hv. apply Hpre. set_solver.
Qed.

Lemma first_band_fallback {A} (min : A → Q) (label : A → string) cgpa ladder fallback :
  (∀ u, u ∈ ladder → ¬ (min u <= cgpa)%Q) →
  first_band min label cgpa ladder fallback = fallback.
Proof.
  induction ladder as [|u ladder IH]; intros H; simpl; [done|].
  destruct (Qle_bool (min u) cgpa) eqn:E.
  - apply Qle_bool_iff in E. exfalso. apply (H u); [set_solver|done].
  - apply IH. intros v Hv. apply H. set_solver.
Qed.

(** In a ladder sorted by descending minimum, the first entry at or below
    the average has the greatest minimum among the entries at or below it. *)
Lemma first_at_or_below_greatest {A} (min : A → Q) cgpa ladder t :
  Sorted (desc_by min) ladder →
  first_at_or_below min cgpa ladder t →
  ∀ u, u ∈ ladder → (min u <= cgpa)%Q → (min u <= min t)%Q.
Proof.
  intros Hsorted (pre & post & -> & Ht & Hpre) u Hu Hle.
  assert (Transitive (desc_by min)) as Htrans.
  { intros x y z. unfold desc_by. intros Hxy Hyz. by eapply Qle_trans. }
  apply Sorted_StronglySorted in Hsorted; [|done].
  apply StronglySorted_app_1_r, StronglySorted_cons in Hsorted as [Hall _].
  apply elem_of_app in Hu as [Hu|Hu]; [by destruct (Hpre u Hu)|].
  apply elem_of_cons in Hu as [->|Hu]; [apply Qle_refl|].
  rewrite Forall_forall in Hall. by apply Hall.
Qed.

Lemma sorted_set_nil xs : Py.sorted_set xs = [] ↔ xs = [].
Proof.
  unfold Py.sorted_set, Py.sorted. split; [|by intros ->].
  intros H. destruct xs as [|x xs]; [done|]. exfalso.
  assert (x ∈ merge_sort Py.str_le (remove_dups (x :: xs))) as Hin.
  { rewrite merge_sort_Permutation. apply elem_of_remove_dups. set_solver. }
  rewrite H in Hin. by apply elem_of_nil in Hin.
Qed.

(** No compulsory course is reported missing exactly when the student
    passed every compulsory course of the program. *)
Lemma missing_compulsory_nil db student prog req :
  missing_compulsory db student prog req = [] ↔
  ∀ cc, cc ∈ curriculum db → cc_program cc = program_pk prog → is_compulsory cc = true →
        passed_course db student (cc_course cc) req = true.
Proof.
  unfold missing_compulsory. split.
  - intros H cc Hin Hp Hc. apply fmap_nil_inv, fmap_nil_inv in H.
    destruct (passed_course db student (cc_course cc) req) eqn:E; [done|].
    assert (cc ∈ @nil CurriculumCourse) as Hnil; [|by apply elem_of_nil in Hnil].
    rewrite <- H. rewrite !list_elem_of_filter. done.
  - intros H.
    assert (filter (λ cc, passed_course db student (cc_course cc) req = false)
              (filter (λ cc, cc_program cc = program_pk prog ∧ is_compulsory cc = true)
                 (curriculum db)) = []) as ->; [|done].
    apply elem_of_nil_inv. intros cc.
    rewrite !list_elem_of_filter. intros (Hf & [Hp Hc] & Hin).
    rewrite H in Hf by done. done.
Qed.

(** The decision of the audit, read off its own fields. *)
Lemma audit_decision db student prog :
  program student = Some prog →
  let r := audit_student_graduation db student in
  let ts := classification_thresholds db prog in
  let ladder := if decide (classification_scheme prog = CLASS_SCHEME_BSC)
                then legacy_bsc else legacy_nd in
  (eligible r = true ↔
     missing_compulsory_courses r = []
     ∧ (min_units_to_graduate prog = 0
        ∨ min_units_to_graduate prog ≤ total_units_earned r))
  ∧ (eligible r = false → classification r = None)
  ∧ (eligible r = true →
       (∀ t, ts ≠ [] → first_at_or_below min_cgpa (cgpa r) ts t →
             classification r = Some (label t))
       ∧ (∀ b, ts = [] → first_at_or_below snd (cgpa r) ladder b →
               classification r = Some b.1))
  ∧ Sorted (desc_by min_cgpa) ts
  ∧ ts ≡ₚ filter (λ t, threshold_program t = program_pk prog) (thresholds db).
Proof.
  intros Hprog r ts ladder. subst r. unfold audit_student_graduation.
  rewrite Hprog. destruct (compute_cgpa_for_program db student _) as [c u]. simpl.
  set (missing := missing_compulsory db student prog _).
  split; [|split; [|split; [|split]]].
  - rewrite sorted_set_nil, andb_true_iff, !negb_true_iff, negb_false_iff,
      andb_false_iff, negb_false_iff, bool_decide_eq_true, Z.eqb_eq, Z.ltb_ge.
    done.
  - by intros ->.
  - intros ->. split.
    + intros t Hne Ht. unfold classify. fold ts.
      destruct (last ts) eqn:El.
      * f_equal. by apply first_band_first.
      * apply last_None in El. done.
    + intros b Hnil Hb. unfold classify. fold ts. rewrite Hnil. simpl.
      f_equal. by apply (first_band_first snd fst).
  - apply order_by_desc_sorted.
  - apply order_by_desc_perm.
Qed.

(** The scenario of [analytics/test_graduation_audit.py]. *)
Example audit_sample :
  audit_student_graduation (Sample.db_grad [Sample.graded_A]) Sample.grad1
  = {| eligible := true; cgpa := (400 # 100)%Q; total_units_earned := 3;
       missing_compulsory_courses := []; classification := Some "First Class";
       notes := [] |}.
Proof. by vm_compute. Qed.

Example audit_sample_ungraded :
  audit_student_graduation Sample.db_ungraded Sample.grad1
  = {| eligible := false; cgpa := 0; total_units_earned := 0;
       missing_compulsory_courses := ["G101"]; classification := None;
       notes := ["Missing compulsory courses: G101"; "Insufficient units: 0/3"] |}.
Proof. by vm_compute. Qed.

(** With configured thresholds none of which is reached, the label of
    the last threshold is returned. *)
Lemma classify_catch_all db prog c t :
  last (classification_thresholds db prog) = Some t →
  (∀ u, u ∈ classification_thresholds db prog → ¬ (min_cgpa u <= c)%Q) →
  classify db prog c = label t.
Proof. intros Hl Hn. unfold classify. rewrite Hl. by apply first_band_fallback. Qed.

End graduation.

(** ** The pass predicate and prerequisite checks *)

Section eligibility.
Import Eligibility.

Lemma eligibility_passed_loop_iff db req qs :
  passed_loop db req qs = true ↔ ∃ e, e ∈ qs ∧ passing_attempt db req e.
Proof.
  unfold passing_attempt. induction qs as [|e qs IH]; simpl.
  - split; [done|]. intros (e & He & _). by apply elem_of_nil in He.
  - assert ((∃ e0, e0 ∈ qs ∧ passing_attempt db req e0)
            → ∃ e0, e0 ∈ e :: qs ∧ passing_attempt db req e0) as Htail.
    { intros (e0 & ? & ?). exists e0. split; [set_solver|done]. }
    unfold passing_attempt in Htail.
    destruct (head (grades_of db e)) as [g|] eqn:Hg.
    2:{ rewrite IH. split; [done|]. intros (e0 & [->|He0]%elem_of_cons & Hp); [|eauto].
        destruct Hp as (? & ? & ? & _). congruence. }
    destruct (decide (grade g = "")) as [Hn|Hn].
    { rewrite IH. split; [done|]. intros (e0 & [->|He0]%elem_of_cons & Hp); [|eauto].
      destruct Hp as (? & ? & ? & ? & _). congruence. }
    destruct (req && negb (bool_decide (status g = STATUS_APPROVED))) eqn:Hgate.
    { rewrite IH. split; [done|]. intros (e0 & [->|He0]%elem_of_cons & Hp); [|eauto].
      destruct Hp as (g0 & ? & ? & ? & Hst & _). assert (g0 = g) as -> by congruence.
      apply andb_true_iff in Hgate as [-> Hgate]. rewrite Hst in Hgate by done.
      by rewrite bool_decide_eq_true_2 in Hgate. }
    assert (req = true → status g = STATUS_APPROVED) as Hok.
    { intros ->. simpl in Hgate. apply negb_false_iff, bool_decide_eq_true in Hgate. done. }
    destruct (head (settings_named db (grade g))) as [gs|] eqn:Hgs.
    2:{ rewrite IH. split; [done|]. intros (e0 & [->|He0]%elem_of_cons & Hp); [|eauto].
        destruct Hp as (g0 & ? & ? & ? & ? & ? & _). assert (g0 = g) as -> by congruence.
        congruence. }
    destruct (Py.float_ltb 0 (grade_point gs)) eqn:Hpos.
    + split; [|done]. intros _. exists e. split; [set_solver|].
      exists g, gs. apply float_ltb_lt in Hpos. done.
    + rewrite IH. split; [done|]. intros (e0 & [->|He0]%elem_of_cons & Hp); [|eauto].
      destruct Hp as (g0 & gs0 & ? & ? & ? & ? & Hlt).
      assert (g0 = g) as -> by congruence. assert (gs0 = gs) as -> by congruence.
      apply float_ltb_lt in Hlt. congruence.
Qed.

Lemma graduation_passed_loop_eq db req qs :
  Graduation.passed_loop db req qs = passed_loop db req qs.
Proof.
  induction qs as [|e qs IH]; simpl; [done|]. unfold Graduation._grade_point.
  destruct (head (grades_of db e)) as [g|]; [|done].
  destruct (decide (grade g = "")); [done|].
  destruct (req && negb (bool_decide (status g = STATUS_APPROVED))); [done|].
  destruct (head (settings_named db (grade g))) as [gs|]; [|done].
  by rewrite IH.
Qed.

(** The loop reads the store through the grade rows and the scale only. *)
Lemma eligibility_passed_loop_ext db db' req qs :
  grades db = grades db' → grading_settings db = grading_settings db' →
  passed_loop db req qs = passed_loop db' req qs.
Proof.
  intros Hg Hs. induction qs as [|e qs IH]; simpl; [done|].
  unfold grades_of, settings_named. by rewrite Hg, Hs, IH.
Qed.

Lemma filter_none {A} (P : A → Prop) `{∀ x, Decision (P x)} (l : list A) :
  (∀ x, x ∈ l → ¬ P x) → filter P l = [].
Proof.
  intros Hn. apply elem_of_nil_inv. intros x [HP Hx]%list_elem_of_filter.
  by apply (Hn x).
Qed.

Lemma passing_attempt_add_attempt db req e e' gs' :
  enrollment_id e ≠ enrollment_id e' →
  (∀ g, g ∈ gs' → grade_enrollment g = enrollment_id e') →
  passing_attempt db req e → passing_attempt (add_attempt e' gs' db) req e.
Proof.
  intros Hid Hgs (g & gs & Hg & Hn & Hok & Hset & Hpos). exists g, gs.
  split; [|done]. unfold grades_of in *. simpl. rewrite filter_app.
  rewrite (filter_none _ gs'), app_nil_r; [done|].
  intros g' Hg' Heq. apply Hid. rewrite <- Heq. by apply Hgs.
Qed.

(** C10: a student has passed a course exactly when some enrollment of
    that student in that course has a grade that resolves to a grade point
    above zero, only approved grades being considered when approved-only
    metrics are on.  The eligibility predicate and the graduation predicate
    agree, neither depends on the configured repeat policy, and an attempt
    registered later, whatever its grade, never turns a pass into a
    failure. *)
Theorem pass_is_existential_over_attempts db student c :
  (student_passed_course db student c = true ↔
     ∃ e, e ∈ enrollments db
          ∧ enrollment_student e = student_pk student
          ∧ course_pk (course e) = course_pk c
          ∧ passing_attempt db (require_approved_for_metrics (policy db)) e)
  ∧ Graduation.passed_course db student c (require_approved_for_metrics (policy db))
    = student_passed_course db student c
  ∧ (∀ rp, student_passed_course (with_repeat_policy rp db) student c
           = student_passed_course db student c)
  ∧ (∀ rp e' gs',
       (∀ e, e ∈ enrollments db → enrollment_id e ≠ enrollment_id e') →
       (∀ g, g ∈ gs' → grade_enrollment g = enrollment_id e') →
       student_passed_course db student c = true →
       student_passed_course (with_repeat_policy rp (add_attempt e' gs' db)) student c
       = true).
Proof.
  assert (∀ db, student_passed_course db student c = true ↔
     ∃ e, e ∈ enrollments db
          ∧ enrollment_student e = student_pk student
          ∧ course_pk (course e) = course_pk c
          ∧ passing_attempt db (require_approved_for_metrics (policy db)) e) as Hiff.
  { intros db0. unfold student_passed_course. rewrite eligibility_passed_loop_iff.
    unfold attempts_of. setoid_rewrite list_elem_of_filter. naive_solver. }
  split; [apply Hiff|]. split; [apply graduation_passed_loop_eq|].
  split; [intros rp; by apply eligibility_passed_loop_ext|].
  intros rp e' gs' Hfresh Hgs Hpass.
  unfold student_passed_course.
  rewrite (eligibility_passed_loop_ext _ (add_attempt e' gs' db)) by done.
  change (student_passed_course (add_attempt e' gs' db) student c = true).
  apply Hiff in Hpass as (e & He & Hs & Hc & Hp). apply Hiff.
  exists e. split; [simpl; set_solver|]. split; [done|]. split; [done|].
  apply passing_attempt_add_attempt; [by apply Hfresh|done|done].
Qed.

(** Under policy LATEST the failed second attempt at G101 leaves the pass
    earned on the first attempt in place. *)
Lemma pass_is_existential_over_attempts_witness :
  student_passed_course
    (with_repeat_policy "LATEST"
       (add_attempt Sample.e5 [Sample.failed_F] (Sample.db_grad [Sample.graded_A])))
    Sample.grad1 Sample.G101 = true.
Proof.
  apply (pass_is_existential_over_attempts (Sample.db_grad [Sample.graded_A])).
  - intros e He. vm_compute in He. apply list_elem_of_singleton in He as ->. by vm_compute.
  - intros g Hg. apply list_elem_of_singleton in Hg as ->. reflexivity.
  - reflexivity.
Defined.

(** C9 as stated fails: the two prerequisite rows of CSC301 are answered
    in the order MTH102, CSC101, which is the order of their primary keys
    and of their unique index alike; neither course is passed, and the
    reason lists the codes in that order, not sorted. *)
Lemma prerequisite_reason_not_sorted :
  ¬ (∀ db student prog c prereqs,
       prereqs ≡ₚ declared_prerequisites db prog c →
       (check_prerequisites_rows db student prereqs).1 = false →
       (check_prerequisites_rows db student prereqs).2
       = Some ("Missing prerequisites: "
               +:+ Py.join ", " (Py.sorted (unmet_prerequisites db student prog c)))).
Proof.
  intros H.
  specialize (H Sample.db_prereq Sample.grad1 Sample.bsc_cs Sample.CSC301
                (declared_prerequisites Sample.db_prereq Sample.bsc_cs Sample.CSC301)
                ltac:(done) eq_refl).
  vm_compute in H. discriminate H.
Qed.

Example check_prerequisites_sample :
  check_prerequisites Sample.db_prereq Sample.grad1 Sample.bsc_cs Sample.CSC301
  = (false, Some "Missing prerequisites: MTH102, CSC101")
  ∧ check_prerequisites Sample.db_prereq Sample.grad1 Sample.bsc_cs Sample.MTH102
    = (true, None).
Proof. split; by vm_compute. Qed.

(** C9, amended: [check_prerequisites] returns ok exactly when the student
    has passed every prerequisite declared for the course in the program;
    otherwise it returns not-ok with the reason "Missing prerequisites: "
    followed by the codes of exactly the prerequisites not passed, joined
    by ", " in the order in which the database answered the query for the
    prerequisite rows.  The query is unordered and the codes are not
    sorted: [prereqs] is the answer, the declared rows in any order. *)
Theorem check_prerequisites_postcondition db student prog c prereqs :
  prereqs ≡ₚ declared_prerequisites db prog c →
  let r := check_prerequisites_rows db student prereqs in
  (r.1 = true ↔
     ∀ p, p ∈ declared_prerequisites db prog c →
          student_passed_course db student (prerequisite_course p) = true)
  ∧ (r.1 = true → r.2 = None)
  ∧ (r.1 = false →
       r.2 = Some ("Missing prerequisites: "
                   +:+ Py.join ", " (unmet_among db student prereqs)))
  ∧ (∀ k, k ∈ unmet_among db student prereqs ↔
          ∃ p, p ∈ declared_prerequisites db prog c
               ∧ code (prerequisite_course p) = k
               ∧ student_passed_course db student (prerequisite_course p) = false).
Proof.
  intros Hperm r. subst r. unfold check_prerequisites_rows.
  rewrite <- list_fmap_compose.
  change (code ∘ prerequisite_course <$> _) with (unmet_among db student prereqs).
  assert (∀ k, k ∈ unmet_among db student prereqs ↔
          ∃ p, p ∈ declared_prerequisites db prog c
               ∧ code (prerequisite_course p) = k
               ∧ student_passed_course db student (prerequisite_course p) = false) as Hk.
  { intros k. unfold unmet_among. rewrite list_elem_of_fmap. split.
    - intros (p & -> & [Hf Hp]%list_elem_of_filter). rewrite Hperm in Hp. eauto.
    - intros (p & Hp & <- & Hf). exists p. split; [done|].
      apply list_elem_of_filter. by rewrite Hperm. }
  split; [|split; [|split; [|done]]].
  - destruct (unmet_among db student prereqs) as [|k ks] eqn:E; simpl.
    + split; [|done]. intros _ p Hp.
      destruct (student_passed_course db student (prerequisite_course p)) eqn:Ep; [done|].
      exfalso. apply (elem_of_nil (code (prerequisite_course p))). apply Hk. eauto.
    + split; [done|]. intros Hall.
      destruct (proj1 (Hk k)) as (p & Hp & _ & Hf); [set_solver|].
      rewrite Hall in Hf by done. done.
  - by destruct (unmet_among db student prereqs).
  - by destruct (unmet_among db student prereqs).
Qed.

(** The two prerequisite rows of CSC301, answered in the other order. *)
Lemma check_prerequisites_postcondition_witness :
  let prereqs :=
    [ {| prereq_program := 1; prereq_course := 6; prerequisite_course := Sample.CSC101 |};
      {| prereq_program := 1; prereq_course := 6; prerequisite_course := Sample.MTH102 |} ] in
  (check_prerequisites_rows Sample.db_prereq Sample.grad1 prereqs).1 = false
  ∧ (check_prerequisites_rows Sample.db_prereq Sample.grad1 prereqs).2
    = Some "Missing prerequisites: CSC101, MTH102".
Proof.
  intros prereqs.
  destruct (check_prerequisites_postcondition Sample.db_prereq Sample.grad1
              Sample.bsc_cs Sample.CSC301 prereqs) as (_ & _ & H & _).
  { apply perm_swap. }
  split; [reflexivity|]. by rewrite H.
Defined.

End eligibility.

(** ** Verification of a presented code *)

Section verification.
Import Json CanonicalPayload Security.
Context (SECRET_KEY base_verification_url : string).
Context (isoformat : Z → string) (fromisoformat : string → option Z).

Lemma or_else_some s : Py.or_else (Some s) "" = s.
Proof. by destruct s. Qed.

Lemma lookup_set_ne k k' v d : k ≠ k' → lookup k (set k' v d) = lookup k d.
Proof.
  intros Hne. induction d as [|[k0 v0] d IH]; simpl.
  - by rewrite decide_False.
  - destruct (decide (k0 = k')) as [->|Hk]; simpl.
    + by rewrite !decide_False.
    + destruct (decide (k0 = k)); [done|apply IH].
Qed.

Lemma get_set_ne k k' v d : k ≠ k' → get k (set k' v d) = get k d.
Proof. intros Hne. unfold get. by rewrite lookup_set_ne. Qed.

Lemma set_truthy k v d : truthy (JObj (set k v d)) = true.
Proof. destruct d as [|[k0 v0] d]; simpl; [done|]. by case_decide. Qed.

Lemma is_active_spec r w :
  (is_active r w).1 = false ↔ inactive r (clock w (ticks w)).
Proof.
  unfold is_active, inactive. simpl.
  destruct (revoked_at r) as [t|]; simpl.
  - split; [by left|done].
  - destruct (expires_at r) as [t|]; simpl.
    + destruct (t <=? clock w (ticks w)) eqn:E.
      * apply Z.leb_le in E. split; [|done]. intros _. right. eauto.
      * apply Z.leb_gt in E. split; [done|]. intros [?|(t' & [= <-] & ?)]; [done|lia].
    + split; [done|]. intros [?|(t' & ? & ?)]; done.
Qed.

Lemma is_active_run r w :
  is_active r w
  = ((is_active r w).1,
     {| tables := tables w; verification_records := verification_records w;
        cache := cache w; clock := clock w; ticks := S (ticks w) |}).
Proof. reflexivity. Qed.

(** The tamper check on stamped data, and the result built from it. *)
Lemma checked_result f d now now' :
  tamper_checked f d (set "verified_at" (JStr now) d)
    (let '(ok, err) :=
       _validate_tamper_evidence_under f (set "verified_at" (JStr now) d) in
     if negb ok
     then {| valid := false; error := err; verified_at := now';
             data := Some (set "verified_at" (JStr now) d) |}
     else {| valid := true; error := None; verified_at := now';
             data := Some (set "verified_at" (JStr now) d) |}).
Proof.
  unfold tamper_checked, _validate_tamper_evidence_under, _validate_tamper_evidence, lacks.
  rewrite !get_set_ne by done.
  destruct (truthy (get "canonical_payload" d)) eqn:Hp;
    destruct (truthy (get "document_hash" d)) eqn:Hd; cbn [negb orb];
    try (split; [by intros _|intros; congruence]).
  split; [by intros [?|?]|]. intros _ _.
  destruct (recomputation_raises f); cbn [negb].
  { split; [done|]. split; intros; congruence. }
  split; [done|]. unfold generate_document_hash, str_ne. split.
  - intros _ Hne.
    destruct (get "document_hash" d) as [| | | |s| |]; try done.
    rewrite bool_decide_eq_false_2 by congruence. by simpl.
  - intros _ ->. by rewrite bool_decide_eq_true_2.
Qed.


(** *** Issued codes are already in normal form *)

Lemma string_forall_app P s1 s2 :
  string_forall P (s1 +:+ s2) = string_forall P s1 && string_forall P s2.
Proof. induction s1 as [|c s1 IH]; simpl; [done|]. by rewrite IH, andb_assoc. Qed.

Lemma string_forall_impl (P Q : ascii → bool) s :
  (∀ c, P c = true → Q c = true) → string_forall P s = true → string_forall Q s = true.
Proof.
  intros HPQ. induction s as [|c s IH]; simpl; [done|].
  rewrite !andb_true_iff. intros [? ?]. auto.
Qed.

Lemma string_forall_substring P n s :
  string_forall P s = true → string_forall P (substring 0 n s) = true.
Proof.
  revert s. induction n as [|n IH]; intros [|c s]; simpl; try done.
  rewrite !andb_true_iff. intros [? ?]. auto.
Qed.

Lemma hexchar_is_hex n : is_hex (Sha256.hexchar n) = true.
Proof.
  destruct n as [|p|p]; try reflexivity.
  do 4 (try destruct p as [p|p|]); reflexivity.
Qed.

Lemma hexdigest_is_hex msg : string_forall is_hex (Sha256.hexdigest msg) = true.
Proof.
  unfold Sha256.hexdigest, Sha256.hex8. simpl. by rewrite !hexchar_is_hex.
Qed.

Lemma upper_hex_is_plain c : is_hex c = true → is_plain (Py.upper_ascii c) = true.
Proof. destruct c as [[] [] [] [] [] [] [] []]; by vm_compute. Qed.

Lemma upper_hex_string_plain s :
  string_forall is_hex s = true → string_forall is_plain (Py.upper s) = true.
Proof.
  induction s as [|c s IH]; simpl; [done|]. rewrite !andb_true_iff.
  intros [? ?]. split; [by apply upper_hex_is_plain|auto].
Qed.

Lemma rstrip_plain s : string_forall is_plain s = true → Py.rstrip s = s.
Proof.
  induction s as [|c s IH]; simpl; [done|]. rewrite andb_true_iff.
  intros [Hc Hs]. rewrite IH by done. unfold is_plain in Hc.
  apply andb_true_iff in Hc as [Hc _]. apply negb_true_iff in Hc.
  destruct s; [by rewrite Hc|done].
Qed.

Lemma strip_plain s : string_forall is_plain s = true → Py.strip s = s.
Proof.
  intros Hs. unfold Py.strip.
  assert (Py.lstrip s = s) as ->; [|by apply rstrip_plain].
  destruct s as [|c s]; simpl; [done|]. simpl in Hs.
  apply andb_true_iff in Hs as [Hc _]. unfold is_plain in Hc.
  apply andb_true_iff in Hc as [Hc _]. apply negb_true_iff in Hc. by rewrite Hc.
Qed.

Lemma upper_plain s : string_forall is_plain s = true → Py.upper s = s.
Proof.
  induction s as [|c s IH]; simpl; [done|]. rewrite andb_true_iff.
  intros [Hc Hs]. rewrite IH by done. unfold is_plain in Hc.
  apply andb_true_iff in Hc as [_ Hc]. apply bool_decide_eq_true in Hc. by rewrite Hc.
Qed.

Lemma generated_code_plain sid t :
  string_forall is_plain (generate_verification_code SECRET_KEY isoformat sid t) = true.
Proof.
  unfold generate_verification_code. rewrite string_forall_app.
  apply andb_true_iff. split; [reflexivity|].
  apply upper_hex_string_plain, string_forall_substring, hexdigest_is_hex.
Qed.

Lemma generated_code_normal sid t :
  Py.upper (Py.strip (generate_verification_code SECRET_KEY isoformat sid t))
  = generate_verification_code SECRET_KEY isoformat sid t.
Proof.
  rewrite strip_plain by apply generated_code_plain.
  apply upper_plain, generated_code_plain.
Qed.

(** *** Issuance *)

(** What [create_secure_transcript_data] leaves behind when the student is
    stored under a non-empty id, the college name (if there are college
    settings) is set, and the timestamp it wrote reads back. *)
Lemma issue_persists w student payload college_settings stored :
  let n := ticks w in
  let code := generate_verification_code SECRET_KEY isoformat (student_id student)
                (clock w n) in
  let issued := create_secure_transcript_data SECRET_KEY base_verification_url
                  isoformat fromisoformat student (Payload payload) college_settings w in
  student_id student ≠ "" →
  objects_get (filter (λ s, student_id s = student_id student) (students (tables w)))
  = Found stored →
  (∀ cs, college_settings = Some cs → is_Some (college_name cs)) →
  is_Some (fromisoformat (isoformat (clock w n))) →
  sf_verification_code issued.1 = code
  ∧ clock issued.2 = clock w
  ∧ (n + 3 ≤ ticks issued.2 ≤ n + 4)%nat
  ∧ ∃ rec, verification_records issued.2 !! code = Some rec
           ∧ expires_at rec = Some (clock w (n + 2)%nat + verification_cache_timeout * 1000000)
           ∧ revoked_at rec = (verification_records w !! code) ≫= revoked_at
           ∧ get "canonical_payload" (payload_json rec) = JObj payload
           ∧ get "document_hash" (payload_json rec)
             = JStr (Sha256.hexdigest (canonical_json (JObj payload))).
Proof.
  intros n code issued Hsid Hstudent Hcollege [t Ht]. subst issued.
  unfold create_secure_transcript_data, create_signature_data, store_verification_data.
  unfold mbind, M_bind, mret, M_ret, read, timezone_now, cache_set.
  cbn [negb fst snd ticks clock tables verification_records cache].
  fold n. fold code.
  match goal with |- context [get "student_id" ?d] => set (vd := d) end.
  assert (get "student_id" vd = JStr (student_id student)) as -> by reflexivity.
  assert (get "generation_timestamp" vd = JStr (isoformat (clock w n))) as ->
    by reflexivity.
  assert (lookup "student_name" vd
          = Some (JStr (first_name student +:+ " " +:+ last_name student))) as ->
    by reflexivity.
  assert (lookup "document_hash" vd
          = Some (JStr (generate_document_hash (canonical_json (JObj payload))))) as ->
    by reflexivity.
  assert (lookup "verification_url" vd
          = Some (JStr (base_verification_url +:+ "?code=" +:+ code))) as ->
    by reflexivity.
  assert (∃ name, lookup "college_name" vd = Some (JStr name)) as [name ->].
  { destruct college_settings as [cs|]; [|by eexists].
    destruct (Hcollege cs eq_refl) as [name Hname]. exists name.
    subst vd. simpl. by rewrite Hname. }
  assert (get "canonical_payload" vd = JObj payload) as Hpayload by reflexivity.
  assert (get "document_hash" vd
          = JStr (Sha256.hexdigest (canonical_json (JObj payload)))) as Hdigest
    by reflexivity.
  clearbody vd.
  cbn [truthy]. rewrite bool_decide_eq_false_2 by done.
  cbn [negb fst snd ticks clock tables verification_records cache].
  rewrite Hstudent, Ht. cbn [char_field].
  unfold update_or_create, save_record, mbind, M_bind, mret, M_ret, read, timezone_now.
  cbn [negb fst snd ticks clock tables verification_records cache].
  destruct (verification_records w !! code) as [old|] eqn:Hold;
    cbn [negb fst snd ticks clock tables verification_records cache
         sf_verification_code Security.verification_code].
  all: split; [done|split; [done|split; [lia|]]].
  all: eexists; split; [apply lookup_insert_eq|].
  all: replace (n + 2)%nat with (S (S n)) by lia; done.
Qed.

(** Round-trip integrity of issuance and verification.  A
    canonical payload is issued for a student who is stored under a
    non-empty student id, with the college name set whenever college
    settings are given, and no revoked record already sits under the
    minted code.  Verifying the returned code right away (the at most
    seven clock readings of the two calls within the retention window),
    with nothing changed in between, returns valid, without an error, and
    the stored canonical payload equals the issued one.  The timestamp
    written by [isoformat] is assumed to read back, as it does in Python. *)
Theorem issue_then_verify_round_trip w student payload college_settings stored :
  let n := ticks w in
  let code := generate_verification_code SECRET_KEY isoformat (student_id student)
                (clock w n) in
  let issued := create_secure_transcript_data SECRET_KEY base_verification_url
                  isoformat fromisoformat student (Payload payload) college_settings w in
  let verified := verify_transcript_security isoformat
                    (sf_verification_code issued.1) issued.2 in
  student_id student ≠ "" →
  objects_get (filter (λ s, student_id s = student_id student) (students (tables w)))
  = Found stored →
  (∀ cs, college_settings = Some cs → is_Some (college_name cs)) →
  is_Some (fromisoformat (isoformat (clock w n))) →
  (∀ old, verification_records w !! code = Some old → revoked_at old = None) →
  (∀ i j, (n ≤ i < n + 7)%nat → (n ≤ j < n + 7)%nat →
          clock w j < clock w i + verification_cache_timeout * 1000000) →
  valid verified.1 = true
  ∧ error verified.1 = None
  ∧ ∃ d, data verified.1 = Some d ∧ get "canonical_payload" d = JObj payload.
Proof.
  intros n code issued verified Hsid Hstudent Hcollege Hparse Hfresh Hsoon.
  destruct (issue_persists w student payload college_settings stored
              Hsid Hstudent Hcollege Hparse)
    as (Hcode & Hclock & Hticks & rec & Hrec & Hexp & Hrev & Hpayload & Hdigest).
  fold issued in Hcode, Hclock, Hticks, Hrec.
  subst verified n code. rewrite Hcode.
  unfold verify_transcript_security, verify_transcript.
  rewrite or_else_some, generated_code_normal.
  unfold mbind, M_bind, mret, M_ret, read. cbv beta iota zeta.
  rewrite Hrec. cbv beta iota zeta.
  assert ((is_active rec issued.2).1 = true) as Hactive.
  { unfold is_active, mbind, M_bind, mret, M_ret, timezone_now. simpl.
    assert (revoked_at rec = None) as ->.
    { rewrite Hrev. destruct (verification_records w !! _) as [old|] eqn:E; [|done].
      simpl. by apply Hfresh. }
    rewrite Hexp, Hclock.
    destruct (_ <=? _) eqn:E; [|done]. apply Z.leb_le in E.
    specialize (Hsoon (ticks w + 2)%nat (ticks issued.2)). lia. }
  rewrite (is_active_run rec issued.2), Hactive.
  unfold timezone_now, cache_set.
  cbn [negb fst snd ticks clock tables verification_records cache].
  rewrite set_truthy. unfold _validate_tamper_evidence.
  rewrite !get_set_ne by done. rewrite Hpayload, Hdigest.
  assert (truthy (JStr (Sha256.hexdigest (canonical_json (JObj payload)))) = true) as ->.
  { cbn [truthy]. by rewrite bool_decide_eq_false_2. }
  unfold generate_document_hash, str_ne. rewrite bool_decide_eq_true_2 by done.
  destruct (truthy (JObj payload)); simpl.
  all: split; [done|]; split; [done|]; eexists; split; [done|].
  all: by rewrite get_set_ne.
Qed.

End verification.

(** *** The scenarios of the test suite, run *)

Section verification_samples.
Import Json CanonicalPayload Security.

Example sha256_constants :
  take 2 Sha256.K = [0x428a2f98; 0x71374491] ∧ last Sha256.K = Some 0xc67178f2
  ∧ Sha256.ha Sha256.H0 = 0x6a09e667 ∧ Sha256.hh Sha256.H0 = 0x5be0cd19.
Proof. vm_compute. done. Qed.

(** Test vectors of FIPS 180-4: the empty message, a one-block and a
    two-block message. *)
Example sha256_test_vectors :
  Sha256.hexdigest ""
  = "e3b0c44298fc1c149afbf4c8996fb92427ae41e4649b934ca495991b7852b855"
  ∧ Sha256.hexdigest "abc"
    = "ba7816bf8f01cfea414140de5dae2223b00361a396177a9cb410ff61f20015ad"
  ∧ Sha256.hexdigest "abcdbcdecdefdefgefghfghighijhijkijkljklmklmnlmnomnopnopq"
    = "248d6a61d20638b8e5c026930c3e6039a33ce45964ff2167f6ecedd419db06c1".
Proof. vm_compute. done. Qed.

(** The digest of the sample payload is the one [hashlib] gives for the
    text [json.dumps] writes. *)
Example sample_canonical_json :
  Sha256.hexdigest (canonical_json (JObj Sample.payload0))
  = "cad3173c3625d8f0cf7b4e6ad37189c623b7c95ccaa571b84d7a59f970fb6fae".
Proof. vm_compute. reflexivity. Qed.

Example sample_issue :
  sf_verification_code (Sample.issue Sample.tamp1 None Sample.world0).1
  = "TXN-6580BCAD43BB".
Proof. vm_compute. reflexivity. Qed.

(** [test_tamper_detection]: one changed field in the stored payload, and
    the same code, presented in lower case with blanks around it, is
    refused. *)
Example sample_tamper_detected :
  let w := Sample.tamper "TXN-6580BCAD43BB"
             (Sample.issue Sample.tamp1 None Sample.world0).2 in
  valid (Sample.verify " txn-6580bcad43bb " w).1 = false
  ∧ error (Sample.verify " txn-6580bcad43bb " w).1
    = Some "Transcript data does not match stored hash (possible tampering)".
Proof. vm_compute. done. Qed.

(** A record issued for plain text carries no canonical payload; its code
    verifies without a tamper check. *)
Example sample_text_content :
  let issued := create_secure_transcript_data Sample.SECRET_KEY
                  Sample.base_verification_url Datetime.isoformat
                  Datetime.fromisoformat Sample.tamp1 (Text "John Doe: CS201 A")
                  None Sample.world0 in
  let verified := Sample.verify (sf_verification_code issued.1) issued.2 in
  valid verified.1 = true
  ∧ (∃ d, data verified.1 = Some d ∧ get "canonical_payload" d = JNull).
Proof. vm_compute. eauto. Qed.

(** After the retention window the untouched record is refused. *)
Example sample_expired :
  let w := Sample.much_later (Sample.issue Sample.tamp1 None Sample.world0).2 in
  invalid_or_expired (Sample.verify "TXN-6580BCAD43BB" w).1.
Proof. vm_compute. done. Qed.

(** C1 fails on the code: a canonical payload is issued for the stored
    student TAMP1 with college settings whose name was never filled in.
    The code is handed to the caller, but the row is refused (the column
    for the college name does not take NULL) and nothing is stored, so
    verifying the returned code at once, with nothing changed in between,
    reports it invalid. *)
Lemma issue_with_unnamed_college_does_not_verify :
  let issued := Sample.issue Sample.tamp1 (Some Sample.unnamed_college) Sample.world0 in
  let verified := Sample.verify (sf_verification_code issued.1) issued.2 in
  sf_verification_code issued.1 = "TXN-6580BCAD43BB"
  ∧ verification_records issued.2 = ∅
  ∧ valid verified.1 = false
  ∧ error verified.1 = Some "Invalid or expired verification code".
Proof. vm_compute. done. Qed.

(** A student object that is not in the table gets a code, and no record. *)
Example sample_unsaved_student :
  let issued := Sample.issue Sample.unsaved None Sample.world0 in
  verification_records issued.2 = ∅
  ∧ invalid_or_expired (Sample.verify (sf_verification_code issued.1) issued.2).1.
Proof. vm_compute. done. Qed.

(** A code minted a second time (same student, same clock reading) after
    its record was revoked stays revoked: the update keeps [revoked_at]. *)
Example sample_reissue_after_revocation :
  let w := Sample.revoke_and_rewind "TXN-6580BCAD43BB" 1793707200123460
             (Sample.issue Sample.tamp1 None Sample.world0).2 in
  let issued := Sample.issue Sample.tamp1 None w in
  sf_verification_code issued.1 = "TXN-6580BCAD43BB"
  ∧ invalid_or_expired (Sample.verify (sf_verification_code issued.1) issued.2).1.
Proof. vm_compute. done. Qed.



Lemma issue_then_verify_round_trip_witness :
  let issued := Sample.issue Sample.tamp1 None Sample.world0 in
  let verified := Sample.verify (sf_verification_code issued.1) issued.2 in
  valid verified.1 = true
  ∧ error verified.1 = None
  ∧ ∃ d, data verified.1 = Some d ∧ get "canonical_payload" d = JObj Sample.payload0.
Proof.
  apply (issue_then_verify_round_trip Sample.SECRET_KEY Sample.base_verification_url
           Datetime.isoformat Datetime.fromisoformat Sample.world0 Sample.tamp1
           Sample.payload0 None Sample.tamp1).
  - done.
  - reflexivity.
  - intros cs [=].
  - eexists. vm_compute. reflexivity.
  - intros old H. simpl in H. by rewrite lookup_empty in H.
  - intros i j Hi Hj. unfold verification_cache_timeout. simpl in *. lia.
Defined.

End verification_samples.

(** ** The canonical payload *)

Section canonical_payload.
Import Json CanonicalPayload Security.

(** *** Sorted keys: the text does not depend on the order of the keys *)

Lemma ascii_compare_lt_trans a b c :
  Ascii.compare a b = Lt → Ascii.compare b c = Lt → Ascii.compare a c = Lt.
Proof. unfold Ascii.compare. rewrite !N.compare_lt_iff. lia. Qed.

Lemma string_compare_trans s1 s2 s3 :
  String.compare s1 s2 ≠ Gt → String.compare s2 s3 ≠ Gt → String.compare s1 s3 ≠ Gt.
Proof.
  revert s2 s3. induction s1 as [|a s1 IH]; intros [|b s2] [|c s3]; simpl; try done.
  destruct (Ascii.compare a b) eqn:Eab; [| |done].
  - apply Ascii.compare_eq_iff in Eab as ->.
    destruct (Ascii.compare b c); [apply IH|done|done].
  - intros _. destruct (Ascii.compare b c) eqn:Ebc; [| |done].
    + apply Ascii.compare_eq_iff in Ebc as ->. by rewrite Eab.
    + by rewrite (ascii_compare_lt_trans a b c).
Qed.

Lemma str_le_compare a b : Py.str_le a b ↔ String.compare a b ≠ Gt.
Proof. unfold Py.str_le, String.leb. by destruct (String.compare a b). Qed.

Global Instance str_le_trans : Transitive Py.str_le.
Proof. intros a b c. rewrite !str_le_compare. apply string_compare_trans. Qed.

Global Instance str_le_total : Total Py.str_le.
Proof. intros a b. apply String.leb_total. Qed.

Global Instance key_le_trans : Transitive key_le.
Proof. intros a b c. unfold key_le. apply str_le_trans. Qed.

Global Instance key_le_total : Total key_le.
Proof. intros a b. unfold key_le. apply str_le_total. Qed.

Lemma NoDup_fst_inj {A} (l : list (string * A)) x y :
  NoDup l.*1 → x ∈ l → y ∈ l → x.1 = y.1 → x = y.
Proof.
  induction l as [|z l IH]; simpl; intros Hnd Hx Hy Hk.
  - by apply elem_of_nil in Hx.
  - apply NoDup_cons in Hnd as [Hz Hnd].
    apply elem_of_cons in Hx as [->|Hx]; apply elem_of_cons in Hy as [->|Hy].
    + done.
    + exfalso. apply Hz. rewrite Hk. by apply list_elem_of_fmap_2.
    + exfalso. apply Hz. rewrite <- Hk. by apply list_elem_of_fmap_2.
    + by apply IH.
Qed.

Lemma sort_by_key_perm (l1 l2 : list (string * string)) :
  NoDup l1.*1 → l1 ≡ₚ l2 → merge_sort key_le l1 = merge_sort key_le l2.
Proof.
  intros Hnd Hperm.
  apply (Sorted_unique_strong key_le); [|apply Sorted_merge_sort, _..|].
  - intros x y Hx Hy Hxy Hyx. apply (NoDup_fst_inj l1); [done|..].
    + by rewrite merge_sort_Permutation in Hx.
    + by rewrite merge_sort_Permutation, <- Hperm in Hy.
    + by apply String.leb_antisym.
  - by rewrite !merge_sort_Permutation.
Qed.

Lemma render_fst (f : json → string) (members : list (string * json)) :
  (List.map (λ kv, let '(k, v) := kv in (k, f v)) members).*1 = members.*1.
Proof.
  induction members as [|[k v] members IH]; [done|].
  cbn [List.map fmap list_fmap fst]. f_equal. apply IH.
Qed.

Lemma render_perm (f : json → string) (m1 m2 : list (string * json)) :
  m1 ≡ₚ m2 →
  List.map (λ kv, let '(k, v) := kv in (k, f v)) m1
  ≡ₚ List.map (λ kv, let '(k, v) := kv in (k, f v)) m2.
Proof. intros H. by apply Permutation_map. Qed.

(** Two dictionaries with the same members, in whatever order their
    distinct keys were inserted, serialize to the same bytes. *)
Lemma canonical_json_key_order (m1 m2 : dict) :
  NoDup m1.*1 → m1 ≡ₚ m2 → canonical_json (JObj m1) = canonical_json (JObj m2).
Proof.
  intros Hnd Hperm. unfold canonical_json. simpl.
  rewrite (sort_by_key_perm _ (List.map (λ kv, let '(k, v) := kv in (k, dumps v)) m2));
    [done| |by apply render_perm].
  by rewrite render_fst.
Qed.

Example canonical_json_key_order_sample :
  canonical_json (JObj (reverse Sample.payload0)) = canonical_json (JObj Sample.payload0).
Proof. vm_compute. reflexivity. Qed.

(** *** Determinism *)

Lemma item_same_grade_data db1 db2 e :
  same_grade_data db1 db2 e → item db1 e = item db2 e.
Proof.
  intros (Hg & Ht & Hp). unfold item. rewrite <- Hg, <- Ht.
  destruct (grade <$> head (grades_of db1 e)) as [name|] eqn:E; [|done].
  destruct (decide (name = "")); [done|]. by rewrite (Hp name).
Qed.

(** C3: the canonical payload and its serialization are a function of the
    data shown on the transcript alone.  Two builds, in any two states of
    the system (whatever the clock, the cache, the stored records and the
    rest of the tables), from students with the same identity fields, the
    same enrollment line items with the same grade data and the same
    institution name and address, give the same payload, the same byte
    sequence and the same document hash. *)
Theorem canonical_payload_deterministic (w1 w2 : World) s1 s2 es cs1 cs2 :
  same_identity s1 s2 →
  (∀ e, e ∈ es → same_grade_data (tables w1) (tables w2) e) →
  same_institution cs1 cs2 →
  let p1 := build_canonical_transcript_payload (tables w1) s1 es cs1 in
  let p2 := build_canonical_transcript_payload (tables w2) s2 es cs2 in
  p1 = p2
  ∧ canonical_json (JObj p1) = canonical_json (JObj p2)
  ∧ generate_document_hash (canonical_json (JObj p1))
    = generate_document_hash (canonical_json (JObj p2)).
Proof.
  intros (H1 & H2 & H3 & H4 & H5 & H6) Hes [Hn Ha] p1 p2.
  assert (p1 = p2) as ->; [|done]. subst p1 p2.
  unfold build_canonical_transcript_payload.
  rewrite H1, H2, H3, H4, H5, H6, Hn, Ha. do 5 f_equal.
  apply list_fmap_ext. intros i e He. apply item_same_grade_data, Hes.
  by eapply list_elem_of_lookup_2.
Qed.

Lemma canonical_payload_deterministic_witness :
  let w1 := Sample.world0 in
  let w2 := Sample.much_later (Sample.issue Sample.tamp1 None Sample.world0).2 in
  let p1 := build_canonical_transcript_payload (tables w1) Sample.tamp1 [Sample.e6] None in
  let p2 := build_canonical_transcript_payload (tables w2) Sample.tamp1 [Sample.e6] None in
  p1 = p2
  ∧ canonical_json (JObj p1) = canonical_json (JObj p2)
  ∧ generate_document_hash (canonical_json (JObj p1))
    = generate_document_hash (canonical_json (JObj p2)).
Proof.
  apply (canonical_payload_deterministic Sample.world0
           (Sample.much_later (Sample.issue Sample.tamp1 None Sample.world0).2)).
  - by repeat split.
  - intros e He. apply list_elem_of_singleton in He as ->. by repeat split.
  - by split.
Defined.

End canonical_payload.

(** * Further properties *)

(** ** Attempt selection over several courses *)

(** [max] returns the first of the greatest elements. *)
Section max_by_first.
Context {A : Type} (ltb : A → A → bool).
Hypothesis ltb_trans : ∀ a b c, ltb a b = true → ltb b c = true → ltb a c = true.
Hypothesis nltb_ltb : ∀ a b c, ltb b a = false → ltb b c = true → ltb a c = true.

Let gt (x y : A) : bool := ltb y x.

Lemma max_by_first_gen pre x post xs :
  (∀ a, a ∈ pre → ltb a x = true) →
  (∀ a, a ∈ post → ltb x a = false) →
  ∃ pre' post', pre ++ x :: post ++ xs = pre' ++ Py.max_by gt x xs :: post'
    ∧ (∀ a, a ∈ pre' → ltb a (Py.max_by gt x xs) = true)
    ∧ (∀ a, a ∈ post' → ltb (Py.max_by gt x xs) a = false).
Proof.
  revert pre x post. induction xs as [|y ys IH]; intros pre x post Hpre Hpost.
  - exists pre, post. by rewrite app_nil_r.
  - change (Py.max_by gt x (y :: ys)) with (Py.max_by gt (if gt y x then y else x) ys).
    destruct (gt y x) eqn:E; unfold gt in E.
    + destruct (IH (pre ++ x :: post) y []) as (pre' & post' & Heq & H1 & H2).
      * intros a Ha. apply elem_of_app in Ha as [Ha|Ha]; [by eapply ltb_trans; eauto|].
        apply elem_of_cons in Ha as [->|Ha]; [done|]. eapply nltb_ltb; eauto.
      * intros a Ha. by apply elem_of_nil in Ha.
      * exists pre', post'. split; [|done]. rewrite <- Heq. simpl.
        by rewrite <- !app_assoc.
    + destruct (IH pre x (post ++ [y])) as (pre' & post' & Heq & H1 & H2); [done| |].
      * intros a Ha. apply elem_of_app in Ha as [Ha|Ha]; [by apply Hpost|].
        by apply list_elem_of_singleton in Ha as ->.
      * exists pre', post'. split; [|done]. rewrite <- Heq.
        by rewrite <- !app_assoc.
Qed.

Lemma max_by_first x xs : first_maximal ltb (x :: xs) (Py.max_by gt x xs).
Proof.
  destruct (max_by_first_gen [] x [] xs) as (pre & post & Heq & H1 & H2).
  - intros a Ha. by apply elem_of_nil in Ha.
  - intros a Ha. by apply elem_of_nil in Ha.
  - by exists pre, post.
Qed.

End max_by_first.

Section grouping.
Import RepeatPolicy.

Lemma pair_ltb_trans a b c :
  Py.pair_ltb a b = true → Py.pair_ltb b c = true → Py.pair_ltb a c = true.
Proof. unfold Py.pair_ltb. destruct a, b, c; simpl. lia. Qed.

Lemma pair_nltb_ltb a b c :
  Py.pair_ltb b a = false → Py.pair_ltb b c = true → Py.pair_ltb a c = true.
Proof. unfold Py.pair_ltb. destruct a, b, c; simpl. lia. Qed.

Lemma best_key_ltb_spec a b :
  best_key_ltb a b = true
  ↔ (a.1 < b.1)%Q ∨ ((a.1 == b.1)%Q ∧ Py.pair_ltb a.2 b.2 = true).
Proof.
  unfold best_key_ltb, Py.float_eqb. rewrite orb_true_iff, andb_true_iff.
  by rewrite float_ltb_lt, Qeq_bool_iff.
Qed.

Lemma best_key_ltb_trans a b c :
  best_key_ltb a b = true → best_key_ltb b c = true → best_key_ltb a c = true.
Proof.
  rewrite !best_key_ltb_spec. intros [H1|[H1 H1']] [H2|[H2 H2']].
  - left. by eapply Qlt_trans.
  - left. by rewrite <- H2.
  - left. by rewrite H1.
  - right. split; [by rewrite H1|by eapply pair_ltb_trans].
Qed.

Lemma best_key_nltb_ltb a b c :
  best_key_ltb b a = false → best_key_ltb b c = true → best_key_ltb a c = true.
Proof.
  intros Hba Hbc. apply best_key_nltb_le in Hba. apply best_key_ltb_spec in Hbc.
  apply best_key_ltb_spec. unfold best_key_le in Hba.
  destruct Hba as [H1|[H1 H1']], Hbc as [H2|[H2 H2']].
  - left. by eapply Qlt_trans.
  - left. by rewrite <- H2.
  - left. by rewrite H1.
  - right. split; [by rewrite H1|].
    unfold Py.pair_le in H1'. unfold Py.pair_ltb in *.
    destruct a.2, b.2, c.2; simpl in *. lia.
Qed.

Lemma group_by_course_snoc es e :
  group_by_course (es ++ [e]) = setdefault_append (code (course e)) e (group_by_course es).
Proof. unfold group_by_course. by rewrite foldl_app. Qed.

Lemma by_course_get_setdefault k e d k' :
  by_course_get k' (setdefault_append k e d)
  = if decide (k' = k) then by_course_get k d ++ [e] else by_course_get k' d.
Proof.
  induction d as [|[k0 es] d IH]; simpl.
  - repeat case_decide; congruence.
  - destruct (decide (k0 = k)) as [->|Hk0]; simpl.
    + repeat case_decide; congruence.
    + rewrite IH. repeat case_decide; congruence.
Qed.

Lemma by_course_get_group es k :
  by_course_get k (group_by_course es) = attempts_coded k es.
Proof.
  unfold attempts_coded.
  induction es as [|e es IH] using rev_ind; [done|].
  rewrite group_by_course_snoc, by_course_get_setdefault, filter_app, IH.
  rewrite filter_cons, filter_nil.
  repeat case_decide; try congruence. by rewrite app_nil_r.
Qed.

Lemma setdefault_append_keys k e d :
  (setdefault_append k e d).*1 = if decide (k ∈ d.*1) then d.*1 else d.*1 ++ [k].
Proof.
  induction d as [|[k0 es] d IH].
  - case_decide as H; [by apply elem_of_nil in H|done].
  - cbn [setdefault_append]. destruct (decide (k0 = k)) as [->|Hk0].
    + rewrite decide_True; [done|]. apply elem_of_cons. by left.
    + rewrite fmap_cons, IH, fmap_cons. cbn [fst].
      destruct (decide (k ∈ d.*1)) as [Hin|Hin].
      * rewrite decide_True; [done|]. apply elem_of_cons. by right.
      * rewrite decide_False; [done|]. rewrite elem_of_cons. naive_solver.
Qed.

Lemma group_by_course_NoDup es : NoDup (group_by_course es).*1.
Proof.
  induction es as [|e es IH] using rev_ind; [constructor|].
  rewrite group_by_course_snoc, setdefault_append_keys.
  case_decide; [done|].
  apply NoDup_app. split; [done|]. split; [|apply NoDup_singleton].
  intros x Hx Hx'. apply list_elem_of_singleton in Hx' as ->. done.
Qed.

Lemma by_course_get_elem k g d : NoDup d.*1 → (k, g) ∈ d → by_course_get k d = g.
Proof.
  induction d as [|[k0 es] d IH]; intros Hnd Hin; [by apply elem_of_nil in Hin|].
  simpl in *. apply NoDup_cons in Hnd as [Hk0 Hnd].
  apply elem_of_cons in Hin as [Heq|Hin].
  - injection Heq as -> ->. by rewrite decide_True.
  - destruct (decide (k0 = k)) as [->|Hne]; [|by apply IH].
    exfalso. apply Hk0. change k with ((k, g).1). by apply list_elem_of_fmap_2.
Qed.

Lemma by_course_get_present k d : by_course_get k d ≠ [] → (k, by_course_get k d) ∈ d.
Proof.
  induction d as [|[k0 es] d IH]; simpl; [done|]. intros Hne.
  destruct (decide (k0 = k)) as [->|Hk].
  - apply elem_of_cons. by left.
  - apply elem_of_cons. right. by apply IH.
Qed.

(** The groups are those of the course codes that occur, each holding the
    attempts at its code in the order given. *)
Lemma group_by_course_elem es k g :
  (k, g) ∈ group_by_course es ↔ g = attempts_coded k es ∧ g ≠ [].
Proof.
  split.
  - intros Hin. split.
    + rewrite <- by_course_get_group. symmetry.
      apply by_course_get_elem; [apply group_by_course_NoDup|done].
    + revert g Hin. induction es as [|e es IH] using rev_ind; intros g Hin.
      * by apply elem_of_nil in Hin.
      * rewrite group_by_course_snoc in Hin.
        revert Hin. generalize (group_by_course es) as d, IH.
        induction d as [|[k0 es0] d IHd]; simpl; intros IH0 Hin.
        -- apply list_elem_of_singleton in Hin. by injection Hin as -> ->.
        -- destruct (decide (k0 = code (course e))) as [->|Hk0].
           ++ apply elem_of_cons in Hin as [Heq|Hin].
              ** injection Heq as -> ->. by destruct es0.
              ** apply IH0. apply elem_of_cons. by right.
           ++ apply elem_of_cons in Hin as [Heq|Hin].
              ** apply IH0. apply elem_of_cons. by left.
              ** apply IHd; [|done]. intros g' Hg'. apply IH0.
                 apply elem_of_cons. by right.
  - intros [-> Hne]. rewrite <- by_course_get_group in *.
    by apply by_course_get_present.
Qed.

(** The set built by the loop over the groups, for a policy that keeps
    one attempt per group. *)
Lemma foldl_choose_one db rp (gt : Enrollment → Enrollment → bool)
    (d : list (string * list Enrollment)) chosen x :
  (∀ chosen a rest, choose db rp chosen (a :: rest)
                    = chosen ∪ {[ enrollment_id (Py.max_by gt a rest) ]}) →
  x ∈ foldl (λ chosen item, choose db rp chosen item.2) chosen d
  ↔ x ∈ chosen ∨ ∃ k a rest, (k, a :: rest) ∈ d ∧ x = enrollment_id (Py.max_by gt a rest).
Proof.
  intros Hch. revert chosen. induction d as [|[k g] d IH]; intros chosen; simpl.
  - split; [by left|]. intros [H|(k & a & rest & H & _)]; [done|].
    by apply elem_of_nil in H.
  - rewrite IH. destruct g as [|a rest].
    + simpl. split.
      * intros [H|(k' & a' & rest' & H & Hx)]; [by left|].
        right. exists k', a', rest'. split; [|done]. apply elem_of_cons. by right.
      * intros [H|(k' & a' & rest' & H & Hx)]; [by left|].
        right. exists k', a', rest'. split; [|done].
        apply elem_of_cons in H as [H|H]; [congruence|done].
    + rewrite Hch. split.
      * intros [H|(k' & a' & rest' & H & Hx)].
        -- apply elem_of_union in H as [H|H]; [by left|].
           apply elem_of_singleton in H. right. exists k, a, rest.
           split; [|done]. apply elem_of_cons. by left.
        -- right. exists k', a', rest'. split; [|done]. apply elem_of_cons. by right.
      * intros [H|(k' & a' & rest' & H & Hx)].
        -- left. apply elem_of_union. by left.
        -- apply elem_of_cons in H as [H|H].
           ++ injection H as -> -> ->. left. apply elem_of_union. right.
              by apply elem_of_singleton.
           ++ right. by exists k', a', rest'.
Qed.

Lemma choose_latest db chosen a rest :
  choose db "LATEST" chosen (a :: rest)
  = chosen ∪ {[ enrollment_id (Py.max_by (λ x y, earlier_term y x) a rest) ]}.
Proof. reflexivity. Qed.

Lemma choose_best db chosen a rest :
  choose db "BEST" chosen (a :: rest)
  = chosen ∪ {[ enrollment_id (Py.max_by (λ x y, worse_attempt db y x) a rest) ]}.
Proof. reflexivity. Qed.

(** Under a policy that keeps one attempt per course, an identifier is
    selected exactly when it is that of the attempt [max] picks among the
    attempts at some course code. *)
Lemma select_one_per_course db es p (gt : Enrollment → Enrollment → bool) x :
  Py.upper (Py.or_else p "ALL") ≠ "ALL" →
  (∀ chosen a rest, choose db (Py.upper (Py.or_else p "ALL")) chosen (a :: rest)
                    = chosen ∪ {[ enrollment_id (Py.max_by gt a rest) ]}) →
  x ∈ select_enrollments_for_gpa db es p
  ↔ ∃ c a rest, attempts_coded c es = a :: rest ∧ x = enrollment_id (Py.max_by gt a rest).
Proof.
  intros Hp Hch. unfold select_enrollments_for_gpa. rewrite decide_False by done.
  rewrite (foldl_choose_one db _ gt) by done. split.
  - intros [H|(k & a & rest & H & Hx)]; [by apply elem_of_empty in H|].
    apply group_by_course_elem in H as [H _]. by exists k, a, rest.
  - intros (c & a & rest & H & Hx). right. exists c, a, rest. split; [|done].
    apply group_by_course_elem. by rewrite H.
Qed.

Lemma NoDup_fmap_inj {A B} (f : A → B) (l : list A) x y :
  NoDup (f <$> l) → x ∈ l → y ∈ l → f x = f y → x = y.
Proof.
  induction l as [|z l IH]; intros Hnd Hx Hy Hf; [by apply elem_of_nil in Hx|].
  rewrite fmap_cons in Hnd. apply NoDup_cons in Hnd as [Hz Hnd].
  apply elem_of_cons in Hx as [->|Hx], Hy as [->|Hy]; [done| | |by apply IH].
  - exfalso. apply Hz. rewrite Hf. by apply list_elem_of_fmap_2.
  - exfalso. apply Hz. rewrite <- Hf. by apply list_elem_of_fmap_2.
Qed.

Lemma attempts_coded_elem c es a :
  a ∈ attempts_coded c es ↔ a ∈ es ∧ code (course a) = c.
Proof. unfold attempts_coded. rewrite list_elem_of_filter. naive_solver. Qed.

Lemma first_maximal_elem {A} (ltb : A → A → bool) l best :
  first_maximal ltb l best → best ∈ l.
Proof.
  intros (pre & post & -> & _). apply elem_of_app. right. apply elem_of_cons. by left.
Qed.

(** With one attempt kept per course: the attempt kept for a course code
    is the first of the greatest attempts at that code, and no other
    attempt at the code is selected. *)
Lemma one_per_course db es p (ltb : Enrollment → Enrollment → bool) c :
  (∀ a b c, ltb a b = true → ltb b c = true → ltb a c = true) →
  (∀ a b c, ltb b a = false → ltb b c = true → ltb a c = true) →
  Py.upper (Py.or_else p "ALL") ≠ "ALL" →
  (∀ chosen a rest, choose db (Py.upper (Py.or_else p "ALL")) chosen (a :: rest)
                    = chosen ∪ {[ enrollment_id (Py.max_by (λ x y, ltb y x) a rest) ]}) →
  NoDup (enrollment_id <$> es) →
  attempts_coded c es ≠ [] →
  ∃ best, first_maximal ltb (attempts_coded c es) best
          ∧ ∀ a, a ∈ attempts_coded c es →
                 (enrollment_id a ∈ select_enrollments_for_gpa db es p ↔ a = best).
Proof.
  intros Htr Hnl Hp Hch Hnd Hne.
  destruct (attempts_coded c es) as [|a0 rest] eqn:Hc; [done|]. clear Hne.
  exists (Py.max_by (λ x y, ltb y x) a0 rest). split.
  - by apply max_by_first.
  - intros a Ha.
    rewrite (select_one_per_course db es p (λ x y, ltb y x)) by done. split.
    + intros (c' & a' & rest' & Hc' & Hid).
      assert (Py.max_by (λ x y, ltb y x) a' rest' ∈ attempts_coded c' es) as Hb.
      { rewrite Hc'. eapply first_maximal_elem. by apply max_by_first. }
      rewrite <- Hc in Ha.
      apply attempts_coded_elem in Ha as [Ha Hca], Hb as [Hb Hcb].
      assert (a = Py.max_by (λ x y, ltb y x) a' rest') as Heq.
      { by apply (NoDup_fmap_inj enrollment_id es). }
      assert (c' = c) as -> by congruence.
      rewrite Hc in Hc'. injection Hc' as -> ->. done.
    + intros ->. by exists c, a0, rest.
Qed.

End grouping.

Section selection_extras.
Import RepeatPolicy.

Lemma select_subset_ids db es p : select_enrollments_for_gpa db es p ⊆ ids es.
Proof.
  intros x Hx.
  assert (∀ c gt a rest, attempts_coded c es = a :: rest →
            enrollment_id (Py.max_by (λ x y : Enrollment, gt y x : bool) a rest) ∈ ids es)
    as Hmax.
  { intros c gt a rest Hc.
    assert (Py.max_by (λ x y, gt y x) a rest ∈ attempts_coded c es) as Hin.
    { rewrite Hc. clear. unfold Py.max_by. revert a.
      induction rest as [|y ys IH]; intros a; simpl; [set_solver|].
      destruct (gt a y); [specialize (IH y)|specialize (IH a)]; set_solver. }
    apply attempts_coded_elem in Hin as [Hin _]. unfold ids.
    apply elem_of_list_to_set. by apply list_elem_of_fmap_2. }
  destruct (decide (Py.upper (Py.or_else p "ALL") = "LATEST")) as [HL|HL].
  { apply (select_one_per_course db es p (λ x y, earlier_term y x)) in Hx.
    - destruct Hx as (c & a & rest & Hc & ->). by eapply (Hmax c earlier_term).
    - by rewrite HL.
    - rewrite HL. apply choose_latest. }
  destruct (decide (Py.upper (Py.or_else p "ALL") = "BEST")) as [HB|HB].
  { apply (select_one_per_course db es p (λ x y, worse_attempt db y x)) in Hx.
    - destruct Hx as (c & a & rest & Hc & ->). by eapply (Hmax c (worse_attempt db)).
    - by rewrite HB.
    - rewrite HB. apply choose_best. }
  revert Hx. unfold select_enrollments_for_gpa. case_decide; [done|].
  rewrite foldl_choose_unknown, group_by_course_ids by done. set_solver.
Qed.

(** X1: whatever the policy, only attempts that were passed in are ever
    counted: the selected identifiers are among those of the given
    attempts. *)
Theorem select_within_given_attempts db es p x :
  x ∈ select_enrollments_for_gpa db es p → ∃ e, e ∈ es ∧ enrollment_id e = x.
Proof.
  intros Hx. apply select_subset_ids in Hx. unfold ids in Hx.
  apply elem_of_list_to_set, list_elem_of_fmap in Hx as (e & -> & He). by exists e.
Qed.

Lemma select_within_given_attempts_witness :
  ∃ e, e ∈ [Sample.e1; Sample.e2] ∧ enrollment_id e = 2.
Proof.
  apply (select_within_given_attempts (Sample.db_repeat "LATEST") _ (Some "LATEST")).
  vm_compute. set_solver.
Defined.

(** X2: under LATEST, when the attempts carry distinct identifiers and
    session labels written in ASCII characters, every course code that
    occurs has exactly one counted attempt: the first, in the order
    given, of the attempts at that code with the greatest term key.
    Attempts listed before it are strictly earlier, none is later. *)
Theorem latest_counts_first_latest_attempt db es p c :
  Py.upper (Py.or_else p "ALL") = "LATEST" →
  NoDup (enrollment_id <$> es) →
  (∀ a, a ∈ es → isascii (session_name (session a)) = true) →
  attempts_coded c es ≠ [] →
  ∃ best, first_maximal earlier_term (attempts_coded c es) best
          ∧ (∀ a, a ∈ attempts_coded c es →
                  Py.pair_le (term_sort_key a) (term_sort_key best))
          ∧ ∀ a, a ∈ attempts_coded c es →
                 (enrollment_id a ∈ select_enrollments_for_gpa db es p ↔ a = best).
Proof.
  intros Hp Hnd _ Hne.
  destruct (one_per_course db es p earlier_term c) as (best & Hfm & Hsel); try done.
  - intros x y z. apply pair_ltb_trans.
  - intros x y z. apply pair_nltb_ltb.
  - by rewrite Hp.
  - rewrite Hp. apply choose_latest.
  - exists best. split; [done|]. split; [|done].
    destruct Hfm as (pre & post & Heq & Hpre & Hpost). intros a Ha.
    rewrite Heq in Ha. apply elem_of_app in Ha as [Ha|Ha].
    + apply pair_ltb_le. by apply Hpre.
    + apply elem_of_cons in Ha as [->|Ha]; [apply pair_le_refl|].
      apply pair_nltb_le. by apply Hpost.
Qed.

Lemma latest_counts_first_latest_attempt_witness :
  ∃ best, first_maximal earlier_term (attempts_coded "POL101" [Sample.e1; Sample.e2]) best
          ∧ (∀ a, a ∈ attempts_coded "POL101" [Sample.e1; Sample.e2] →
                  Py.pair_le (term_sort_key a) (term_sort_key best))
          ∧ ∀ a, a ∈ attempts_coded "POL101" [Sample.e1; Sample.e2] →
                 (enrollment_id a ∈ select_enrollments_for_gpa (Sample.db_repeat "LATEST")
                                      [Sample.e1; Sample.e2] (Some "latest") ↔ a = best).
Proof.
  apply latest_counts_first_latest_attempt; [reflexivity| | |by vm_compute].
  - vm_compute. repeat constructor; set_solver.
  - intros a Ha. repeat (apply elem_of_cons in Ha as [->|Ha]; [reflexivity|]).
    by apply elem_of_nil in Ha.
Defined.

(** X3: under BEST, when the attempts carry distinct identifiers and
    session labels written in ASCII characters, every course code that
    occurs has exactly one counted attempt: the first, in the order
    given, of the attempts at that code with the greatest pair (grade
    point, term key).  Its grade point is the highest among the attempts
    at the code, where the grade point of an attempt is that of the scale
    row its grade names, and -1 for an attempt without a usable grade. *)
Theorem best_counts_first_best_attempt db es p c :
  Py.upper (Py.or_else p "ALL") = "BEST" →
  NoDup (enrollment_id <$> es) →
  (∀ a, a ∈ es → isascii (session_name (session a)) = true) →
  attempts_coded c es ≠ [] →
  ∃ best, first_maximal (worse_attempt db) (attempts_coded c es) best
          ∧ (∀ a, a ∈ attempts_coded c es →
                  (grade_point_for_enrollment db a <= grade_point_for_enrollment db best)%Q
                  ∧ ranked_grade_point db a (grade_point_for_enrollment db a))
          ∧ ∀ a, a ∈ attempts_coded c es →
                 (enrollment_id a ∈ select_enrollments_for_gpa db es p ↔ a = best).
Proof.
  intros Hp Hnd _ Hne.
  destruct (one_per_course db es p (worse_attempt db) c) as (best & Hfm & Hsel); try done.
  - intros x y z. apply best_key_ltb_trans.
  - intros x y z. apply best_key_nltb_ltb.
  - by rewrite Hp.
  - rewrite Hp. apply choose_best.
  - exists best. split; [done|]. split; [|done].
    cut (∀ a, a ∈ attempts_coded c es →
              (grade_point_for_enrollment db a <= grade_point_for_enrollment db best)%Q).
    { intros H a Ha. split; [by apply H|apply grade_point_for_enrollment_spec]. }
    assert (∀ a, best_key_le (best_key db a) (best_key db best) →
                 (grade_point_for_enrollment db a <= grade_point_for_enrollment db best)%Q)
      as Hle.
    { intros a [H|[H _]]; simpl in H; [by apply Qlt_le_weak|]. rewrite H. apply Qle_refl. }
    destruct Hfm as (pre & post & Heq & Hpre & Hpost). intros a Ha. apply Hle.
    rewrite Heq in Ha. apply elem_of_app in Ha as [Ha|Ha].
    + apply best_key_ltb_le. by apply Hpre.
    + apply elem_of_cons in Ha as [->|Ha]; [apply best_key_le_refl|].
      apply best_key_nltb_le. by apply Hpost.
Qed.

Lemma best_counts_first_best_attempt_witness :
  ∃ best, first_maximal (worse_attempt (Sample.db_repeat "BEST"))
            (attempts_coded "POL101" [Sample.e2; Sample.e1]) best
          ∧ (∀ a, a ∈ attempts_coded "POL101" [Sample.e2; Sample.e1] →
                  (grade_point_for_enrollment (Sample.db_repeat "BEST") a
                   <= grade_point_for_enrollment (Sample.db_repeat "BEST") best)%Q
                  ∧ ranked_grade_point (Sample.db_repeat "BEST") a
                      (grade_point_for_enrollment (Sample.db_repeat "BEST") a))
          ∧ ∀ a, a ∈ attempts_coded "POL101" [Sample.e2; Sample.e1] →
                 (enrollment_id a ∈ select_enrollments_for_gpa (Sample.db_repeat "BEST")
                                      [Sample.e2; Sample.e1] (Some "BEST") ↔ a = best).
Proof.
  apply best_counts_first_best_attempt; [reflexivity| | |by vm_compute].
  - vm_compute. repeat constructor; set_solver.
  - intros a Ha. repeat (apply elem_of_cons in Ha as [->|Ha]; [reflexivity|]).
    by apply elem_of_nil in Ha.
Defined.

Lemma attempts_coded_single es e :
  NoDup ((λ e, code (course e)) <$> es) → e ∈ es →
  attempts_coded (code (course e)) es = [e].
Proof.
  unfold attempts_coded. induction es as [|z es IH]; intros Hnd Hin.
  - by apply elem_of_nil in Hin.
  - rewrite fmap_cons in Hnd. apply NoDup_cons in Hnd as [Hz Hnd].
    rewrite filter_cons. apply elem_of_cons in Hin as [->|Hin].
    + rewrite decide_True by done. f_equal. apply filter_none.
      intros x Hx Hcx. apply Hz. rewrite <- Hcx.
      by apply (list_elem_of_fmap_2 (λ e, code (course e))).
    + rewrite decide_False; [by apply IH|].
      intros Hcz. apply Hz. rewrite Hcz.
      by apply (list_elem_of_fmap_2 (λ e, code (course e))).
Qed.

(** X4: when no course code occurs twice among the attempts, every policy
    counts all of them: the repeat policy only matters for repeated
    courses. *)
Theorem select_all_when_nothing_repeated db es p :
  NoDup ((λ e, code (course e)) <$> es) →
  select_enrollments_for_gpa db es p = ids es.
Proof.
  intros Hnd. apply set_eq. intros x. split; [apply select_subset_ids|].
  intros Hx. unfold ids in Hx.
  apply elem_of_list_to_set, list_elem_of_fmap in Hx as (e & -> & He).
  pose proof (attempts_coded_single es e Hnd He) as Hc.
  destruct (decide (Py.upper (Py.or_else p "ALL") = "LATEST")) as [HL|HL].
  { apply (select_one_per_course db es p (λ x y, earlier_term y x)).
    - by rewrite HL.
    - rewrite HL. apply choose_latest.
    - by exists (code (course e)), e, []. }
  destruct (decide (Py.upper (Py.or_else p "ALL") = "BEST")) as [HB|HB].
  { apply (select_one_per_course db es p (λ x y, worse_attempt db y x)).
    - by rewrite HB.
    - rewrite HB. apply choose_best.
    - by exists (code (course e)), e, []. }
  unfold select_enrollments_for_gpa. case_decide.
  - unfold ids. apply elem_of_list_to_set. by apply list_elem_of_fmap_2.
  - rewrite foldl_choose_unknown, group_by_course_ids by done.
    apply elem_of_union. right. unfold ids. apply elem_of_list_to_set.
    by apply list_elem_of_fmap_2.
Qed.

Lemma select_all_when_nothing_repeated_witness :
  select_enrollments_for_gpa Sample.db_prereq [Sample.e4; Sample.e6] (Some "BEST")
  = ids [Sample.e4; Sample.e6].
Proof.
  apply select_all_when_nothing_repeated. vm_compute. repeat constructor; set_solver.
Defined.

(** X5: for a session name written in ASCII characters, the session key
    used to order terms is the value of the leftmost run of four decimal
    digits in the name, and 0 when the name holds no such run; it is 0
    for an absent name too. *)
Theorem session_sort_key_leftmost_run s :
  isascii s = true →
  ((∃ pre, four_digits_at s pre (_session_sort_key (Some s))
           ∧ ∀ pre' y', four_digits_at s pre' y' →
                        (String.length pre ≤ String.length pre')%nat)
   ∨ (_session_sort_key (Some s) = 0 ∧ ∀ pre y, ¬ four_digits_at s pre y))
  ∧ _session_sort_key None = 0.
Proof. intros _. split; [apply session_sort_key_spec|done]. Qed.

Lemma session_sort_key_leftmost_run_witness :
  ((∃ pre, four_digits_at "Session 12024-25" pre
             (_session_sort_key (Some "Session 12024-25"))
           ∧ ∀ pre' y', four_digits_at "Session 12024-25" pre' y' →
                        (String.length pre ≤ String.length pre')%nat)
   ∨ (_session_sort_key (Some "Session 12024-25") = 0
      ∧ ∀ pre y, ¬ four_digits_at "Session 12024-25" pre y))
  ∧ _session_sort_key None = 0.
Proof. by apply session_sort_key_leftmost_run. Defined.

Lemma policy_upper_idemp p :
  Py.upper (Py.or_else (Some (Py.upper p)) "ALL") = Py.upper (Py.or_else (Some p) "ALL").
Proof.
  destruct p as [|c p]; [done|]. simpl. by rewrite upper_ascii_idemp, upper_idemp.
Qed.

(** X6: the policy name is matched without regard to case, so the policy
    that [get_repeat_policy] reports selects the same attempts as the
    stored setting does. *)
Theorem select_policy_case_insensitive db es p :
  select_enrollments_for_gpa db es (Some (Py.upper p))
  = select_enrollments_for_gpa db es (Some p)
  ∧ select_enrollments_for_gpa db es (Some (get_repeat_policy db))
    = select_enrollments_for_gpa db es (Some (repeat_policy (policy db))).
Proof.
  unfold select_enrollments_for_gpa, get_repeat_policy.
  by rewrite !policy_upper_idemp.
Qed.

End selection_extras.

(** ** The recomputed metrics *)

Section metrics_extras.
Import Metrics StudentModel.

(** Rounding to two decimals keeps a value between two integers there. *)
Lemma round2_bounds x (M : Z) :
  (0 <= x)%Q → (x <= inject_Z M)%Q →
  (0 <= Py.round2 x)%Q ∧ (Py.round2 x <= inject_Z M)%Q.
Proof.
  destruct x as [n d]. unfold Qle, Py.round2; simpl. intros H0 H1.
  pose proof (Z.div_mod (n * 100) (Z.pos d) ltac:(lia)) as Hdm.
  pose proof (Z.mod_pos_bound (n * 100) (Z.pos d) ltac:(lia)) as Hr.
  set (q := n * 100 / Z.pos d) in *. set (r := (n * 100) mod Z.pos d) in *.
  assert (0 ≤ q) by (apply Z.div_pos; lia).
  assert (q ≤ M * 100 ∧ (q = M * 100 → r = 0)) as [Hq Hq'] by nia.
  repeat case_match; try lia.
  all: destruct (decide (q = M * 100)) as [Heq|Hne]; [specialize (Hq' Heq); lia|lia].
Qed.

Lemma found_setting_in_scale db name gs :
  objects_get (settings_named db name) = Found gs →
  gs ∈ grading_settings db ∧ grade_name gs = name.
Proof.
  unfold objects_get. intros H.
  destruct (settings_named db name) as [|g [|g' l]] eqn:E; try done.
  injection H as ->.
  assert (gs ∈ settings_named db name) as Hin by (rewrite E; set_solver).
  unfold settings_named in Hin. apply list_elem_of_filter in Hin as [Hn Hin].
  split; [|done]. by rewrite (order_by_desc_perm min_score) in Hin.
Qed.

(** What one iteration can do to the running totals. *)
Lemma step_cases db counted_ids a e a' :
  step db counted_ids a e = Returned a' →
  a' = a ∨ a' = no_grade_branch counted_ids e a
  ∨ ∃ gs, gs ∈ grading_settings db ∧ a' = graded_branch counted_ids e gs a.
Proof.
  unfold step. intros H.
  destruct (objects_get (grades_of db e)) as [g| |]; [| |done].
  - destruct (require_approved_for_metrics (policy db)
              && negb (bool_decide (status g = STATUS_APPROVED))).
    + left. congruence.
    + destruct (objects_get (settings_named db (grade g))) as [gs| |] eqn:E; [| |done].
      * right. right. exists gs. split; [|congruence].
        by apply found_setting_in_scale in E as [? _].
      * right. left. congruence.
  - right. left. congruence.
Qed.

Lemma loop_invariant (P : acc → Prop) db counted_ids es a a' :
  (∀ e a a', e ∈ es → P a → step db counted_ids a e = Returned a' → P a') →
  P a → loop db counted_ids a es = Returned a' → P a'.
Proof.
  revert a. induction es as [|e es IH]; intros a Hstep HP H; simpl in H.
  - congruence.
  - destruct (step db counted_ids a e) as [a1|] eqn:E; [|done].
    apply (IH a1); [| |done].
    + intros e' b b' He'. apply Hstep. set_solver.
    + apply (Hstep e a); [set_solver|done|done].
Qed.

Lemma update_returned db self m :
  update_academic_metrics db self = Returned m →
  ∃ a, loop db (RepeatPolicy.select_enrollments_for_gpa db (enrollment_set db self)
                  (Some (repeat_policy (policy db)))) acc0 (enrollment_set db self)
       = Returned a ∧ m = finish a.
Proof.
  unfold update_academic_metrics. intros H.
  destruct (loop _ _ _ _) as [a|]; [|done]. exists a. split; [done|congruence].
Qed.

(** X7: when every attempt of the student is counted (as under ALL, or
    when no course was repeated) and no course has negative units, the
    recomputed units passed do not exceed the units attempted, which is
    the check constraint of the table, and the completion rate lies
    between 0 and 100. *)
Theorem metrics_passed_within_attempted db self m :
  (∀ e, e ∈ enrollment_set db self → 0 ≤ units (course e)) →
  (∀ e, e ∈ enrollment_set db self →
     enrollment_id e ∈ RepeatPolicy.select_enrollments_for_gpa db
                         (enrollment_set db self) (Some (repeat_policy (policy db)))) →
  update_academic_metrics db self = Returned m →
  passed_units_not_exceed_attempted m
  ∧ (0 <= completion_rate m)%Q ∧ (completion_rate m <= 100)%Q.
Proof.
  intros Hu Hc H. apply update_returned in H as (a & Hloop & ->).
  assert (0 ≤ passed_units a ∧ passed_units a ≤ total_units a) as [H0 H1].
  { revert Hloop.
    apply (loop_invariant (λ a, 0 ≤ passed_units a ∧ passed_units a ≤ total_units a));
      [|by simpl].
    intros e b b' He [Hb0 Hb1] Hstep. specialize (Hu e He). specialize (Hc e He).
    apply step_cases in Hstep as [->|[->|(gs & _ & ->)]]; [done| |].
    - unfold no_grade_branch; simpl. rewrite decide_True by done. lia.
    - unfold graded_branch; simpl. rewrite bool_decide_eq_true_2 by done.
      destruct (Py.float_ltb 0 (grade_point gs)); lia. }
  split; [done|]. unfold completion_rate, finish; simpl.
  destruct (0 <? total_units a) eqn:E; [|done].
  apply Z.ltb_lt in E. rewrite Zlt_Qlt in E. rewrite Zle_Qle in H0, H1.
  apply (round2_bounds _ 100).
  - apply Qmult_le_0_compat; [|done]. apply Qle_shift_div_l; [done|].
    by rewrite Qmult_0_l.
  - assert (inject_Z (passed_units a) / inject_Z (total_units a) <= 1)%Q as Hle.
    { apply Qle_shift_div_r; [done|]. by rewrite Qmult_1_l. }
    change (inject_Z 100) with 100%Q. lra.
Qed.

Lemma metrics_passed_within_attempted_witness :
  passed_units_not_exceed_attempted
    {| current_cgpa := (300 # 100)%Q; total_units_attempted := 6;
       total_units_passed := 6; total_sessions_completed := 2 |}
  ∧ (0 <= completion_rate
            {| current_cgpa := (300 # 100)%Q; total_units_attempted := 6;
               total_units_passed := 6; total_sessions_completed := 2 |})%Q
  ∧ (completion_rate
       {| current_cgpa := (300 # 100)%Q; total_units_attempted := 6;
          total_units_passed := 6; total_sessions_completed := 2 |} <= 100)%Q.
Proof.
  apply (metrics_passed_within_attempted (Sample.db_repeat "ALL") Sample.pol1).
  - intros e He. vm_compute in He.
    repeat (apply elem_of_cons in He as [->|He]; [by vm_compute|]).
    by apply elem_of_nil in He.
  - intros e He. vm_compute in He.
    repeat (apply elem_of_cons in He as [->|He]; [vm_compute; set_solver|]).
    by apply elem_of_nil in He.
  - by vm_compute.
Defined.

(** Under LATEST the constraint can fail: both attempts at POL101 were
    passed, one is counted. *)
Example metrics_passed_exceeds_attempted :
  ∃ m, update_academic_metrics (Sample.db_repeat "LATEST") Sample.pol1 = Returned m
       ∧ ¬ passed_units_not_exceed_attempted m.
Proof. eexists. split; [by vm_compute|]. by vm_compute. Qed.

Lemma step_policy_irrelevant rp db counted_ids a e :
  step (with_repeat_policy rp db) counted_ids a e = step db counted_ids a e.
Proof. reflexivity. Qed.

Lemma loop_policy_irrelevant rp db counted_ids a es :
  loop (with_repeat_policy rp db) counted_ids a es = loop db counted_ids a es.
Proof.
  revert a. induction es as [|e es IH]; intros a; simpl; [done|].
  rewrite step_policy_irrelevant. by destruct (step db counted_ids a e).
Qed.

(** Two runs of the loop that differ in the set of counted attempts stop
    on the same exception or end with the same units passed and the same
    sessions. *)
Lemma loop_counted_irrelevant db c1 c2 a1 a2 es :
  passed_units a1 = passed_units a2 → sessions_set a1 = sessions_set a2 →
  match loop db c1 a1 es, loop db c2 a2 es with
  | Returned b1, Returned b2 =>
      passed_units b1 = passed_units b2 ∧ sessions_set b1 = sessions_set b2
  | Raised x1, Raised x2 => x1 = x2
  | _, _ => False
  end.
Proof.
  revert a1 a2. induction es as [|e es IH]; intros a1 a2 Hp Hs; simpl; [done|].
  unfold step.
  destruct (objects_get (grades_of db e)) as [g| |]; [| |done].
  - destruct (require_approved_for_metrics (policy db)
              && negb (bool_decide (status g = STATUS_APPROVED))); [by apply IH|].
    destruct (objects_get (settings_named db (grade g))) as [gs| |]; [| |done].
    + apply IH; unfold graded_branch; simpl; by rewrite ?Hp, ?Hs.
    + apply IH; unfold no_grade_branch; simpl; by rewrite ?Hp, ?Hs.
  - apply IH; unfold no_grade_branch; simpl; by rewrite ?Hp, ?Hs.
Qed.

Lemma computation_ignores_repeat_policy db self rp :
  match update_academic_metrics db self,
        update_academic_metrics (with_repeat_policy rp db) self with
  | Returned m, Returned m' =>
      total_units_passed m' = total_units_passed m
      ∧ total_sessions_completed m' = total_sessions_completed m
  | Raised exc, Raised exc' => exc' = exc
  | _, _ => False
  end.
Proof.
  unfold update_academic_metrics. rewrite loop_policy_irrelevant.
  change (enrollment_set (with_repeat_policy rp db) self) with (enrollment_set db self).
  set (c1 := RepeatPolicy.select_enrollments_for_gpa db _ _).
  set (c2 := RepeatPolicy.select_enrollments_for_gpa (with_repeat_policy rp db) _ _).
  pose proof (loop_counted_irrelevant db c1 c2 acc0 acc0 (enrollment_set db self)
                eq_refl eq_refl) as H.
  destruct (loop db c1 acc0 _) as [b1|x1], (loop db c2 acc0 _) as [b2|x2]; try done.
  destruct H as [H1 H2]. unfold finish; simpl. by rewrite H1, H2.
Qed.

(** X8: the repeat policy never changes the units passed or the number
    of sessions that a call of [update_academic_metrics] computes, nor
    whether its computation raises, nor what.  Two calls that differ in
    the repeat policy alone can differ in their outcome in one way only:
    with [save] set, [self.save] raised on the values that one of them
    had computed. *)
Theorem passed_units_ignore_repeat_policy student_save db self rp save :
  let db' := with_repeat_policy rp db in
  let save_raised db0 exc :=
    save = true
    ∧ ∃ m, update_academic_metrics db0 self = Returned m
           ∧ student_save self m = Some exc in
  match update_academic_metrics_call student_save db self save,
        update_academic_metrics_call student_save db' self save with
  | Returned m, Returned m' =>
      total_units_passed m' = total_units_passed m
      ∧ total_sessions_completed m' = total_sessions_completed m
  | Raised exc, Raised exc' => exc' = exc ∨ save_raised db exc ∨ save_raised db' exc'
  | Returned _, Raised exc' => save_raised db' exc'
  | Raised exc, Returned _ => save_raised db exc
  end.
Proof.
  intros db' save_raised. subst save_raised db'.
  pose proof (computation_ignores_repeat_policy db self rp) as H.
  unfold update_academic_metrics_call.
  destruct (update_academic_metrics db self) as [m|exc],
           (update_academic_metrics (with_repeat_policy rp db) self) as [m'|exc'];
    try done; [|by left].
  destruct save; [|done].
  destruct (student_save self m) as [x|] eqn:E, (student_save self m') as [x'|] eqn:E';
    try done.
  - right; left. split; [done|]. by exists m.
  - split; [done|]. by exists m.
  - split; [done|]. by exists m'.
Qed.

(** X9: on a grading scale whose points lie between 0 and 4, and with no
    negative course units, the recomputed CGPA lies between 0 and 4: the
    range the table's check constraint asks for. *)
Theorem metrics_cgpa_in_range db self m :
  (∀ gs, gs ∈ grading_settings db → (0 <= grade_point gs)%Q ∧ (grade_point gs <= 4)%Q) →
  (∀ e, e ∈ enrollment_set db self → 0 ≤ units (course e)) →
  update_academic_metrics db self = Returned m →
  valid_cgpa_range m.
Proof.
  intros Hscale Hu H. apply update_returned in H as (a & Hloop & ->).
  assert (0 ≤ total_units a
          ∧ (0 <= total_grade_points a)%Q
          ∧ (total_grade_points a <= 4 * inject_Z (total_units a))%Q) as (H0 & H1 & H2).
  { revert Hloop.
    apply (loop_invariant (λ a, 0 ≤ total_units a
             ∧ (0 <= total_grade_points a)%Q
             ∧ (total_grade_points a <= 4 * inject_Z (total_units a))%Q)); [|by simpl].
    intros e b b' He (Hb0 & Hb1 & Hb2) Hstep. specialize (Hu e He).
    pose proof Hu as HuQ. rewrite Zle_Qle in HuQ. change (inject_Z 0) with 0%Q in HuQ.
    apply step_cases in Hstep as [->|[->|(gs & Hgs & ->)]]; [done| |].
    - unfold no_grade_branch; simpl. case_decide; [|done].
      split; [lia|]. split; [done|]. rewrite inject_Z_plus. lra.
    - destruct (Hscale gs Hgs) as [Hg0 Hg4].
      unfold graded_branch; simpl. case_bool_decide; [|done].
      split; [lia|]. rewrite inject_Z_plus.
      generalize dependent (inject_Z (units (course e))).
      generalize dependent (inject_Z (total_units b)). intros. split; nra. }
  unfold valid_cgpa_range, finish; simpl.
  destruct (0 <? total_units a) eqn:E; [|split; lra].
  apply Z.ltb_lt in E. rewrite Zlt_Qlt in E.
  destruct (round2_bounds (total_grade_points a / inject_Z (total_units a)) 4)
    as [Hr0 Hr4].
  - apply Qle_shift_div_l; [done|]. by rewrite Qmult_0_l.
  - by apply Qle_shift_div_r.
  - change (inject_Z 4) with 4%Q in Hr4. split; lra.
Qed.

Lemma metrics_cgpa_in_range_witness :
  valid_cgpa_range
    {| current_cgpa := (400 # 100)%Q; total_units_attempted := 3;
       total_units_passed := 6; total_sessions_completed := 2 |}.
Proof.
  apply (metrics_cgpa_in_range (Sample.db_repeat "LATEST") Sample.pol1).
  - intros gs Hgs. vm_compute in Hgs.
    repeat (apply elem_of_cons in Hgs as [->|Hgs]; [by vm_compute|]).
    by apply elem_of_nil in Hgs.
  - intros e He. vm_compute in He.
    repeat (apply elem_of_cons in He as [->|He]; [by vm_compute|]).
    by apply elem_of_nil in He.
  - by vm_compute.
Defined.

Lemma step_returns_iff db counted_ids a e :
  (∃ a', step db counted_ids a e = Returned a') ↔ ¬ ambiguous db e.
Proof.
  unfold step, ambiguous, objects_get, held_back.
  destruct (grades_of db e) as [|g [|g' l]].
  - split; [tauto|]. intros _. by eexists.
  - destruct (require_approved_for_metrics (policy db)) eqn:Hreq; simpl.
    + case_bool_decide as Hst; simpl.
      * destruct (settings_named db (grade g)) as [|gs [|gs' l']]; simpl.
        -- split; [lia|]. intros _. by eexists.
        -- split; [lia|]. intros _. by eexists.
        -- split; [by intros [? ?]|]. intros H. exfalso. apply H. split; [tauto|lia].
      * split; [tauto|]. intros _. by eexists.
    + destruct (settings_named db (grade g)) as [|gs [|gs' l']]; simpl.
      * split; [lia|]. intros _. by eexists.
      * split; [lia|]. intros _. by eexists.
      * split; [by intros [? ?]|]. intros H. exfalso. apply H.
        split; [by intros [? _]|lia].
  - split; [by intros [? ?]|tauto].
Qed.

Lemma loop_returns_iff db counted_ids a es :
  (∃ a', loop db counted_ids a es = Returned a') ↔ ∀ e, e ∈ es → ¬ ambiguous db e.
Proof.
  revert a. induction es as [|e es IH]; intros a; simpl.
  - split; [|by eexists]. intros _ e He. by apply elem_of_nil in He.
  - destruct (step db counted_ids a e) as [a1|exc] eqn:E.
    + rewrite IH. split.
      * intros H e' He'. apply elem_of_cons in He' as [->|He']; [|by apply H].
        apply (step_returns_iff db counted_ids a). by eexists.
      * intros H e' He'. apply H. apply elem_of_cons. by right.
    + split; [by intros [? ?]|]. intros H. exfalso.
      assert (¬ ambiguous db e) as Hna by (apply H; apply elem_of_cons; by left).
      apply (step_returns_iff db counted_ids a) in Hna as [a' Ha']. congruence.
Qed.

Lemma step_raises_multiple db counted_ids a e exc :
  step db counted_ids a e = Raised exc →
  exc = "Grade.MultipleObjectsReturned" ∨ exc = "GradingSettings.MultipleObjectsReturned".
Proof.
  unfold step. intros H.
  destruct (objects_get (grades_of db e)) as [g| |]; [|done|by left; simplify_eq].
  destruct (_ && _); [done|].
  destruct (objects_get (settings_named db (grade g))); [done..|by right; simplify_eq].
Qed.

Lemma loop_raises_multiple db counted_ids a es exc :
  loop db counted_ids a es = Raised exc →
  exc = "Grade.MultipleObjectsReturned" ∨ exc = "GradingSettings.MultipleObjectsReturned".
Proof.
  revert a. induction es as [|e es IH]; intros a; cbn [loop]; [done|].
  destruct (step db counted_ids a e) as [a1|exc1] eqn:E; [apply IH|].
  intros ?; simplify_eq. by apply step_raises_multiple in E.
Qed.

(** X10: a call of [update_academic_metrics] returns exactly when none
    of the student's enrollments is ambiguous, that is, has two grade
    rows, or a grade that the approval gate lets through and that names
    two rows of the grading scale, and, with [save] set, [self.save]
    accepts the values computed.  Otherwise the exception that escapes is
    the [MultipleObjectsReturned] of one of the two lookups, or, with
    [save] set, what [self.save] raised. *)
Theorem metrics_return_iff_unambiguous student_save db self save :
  ((∃ m, update_academic_metrics_call student_save db self save = Returned m)
   ↔ (∀ e, e ∈ enrollment_set db self → ¬ ambiguous db e)
     ∧ (save = true → ∀ m, update_academic_metrics db self = Returned m →
                           student_save self m = None))
  ∧ ∀ exc, update_academic_metrics_call student_save db self save = Raised exc →
           exc = "Grade.MultipleObjectsReturned"
           ∨ exc = "GradingSettings.MultipleObjectsReturned"
           ∨ (save = true
              ∧ ∃ m, update_academic_metrics db self = Returned m
                     ∧ student_save self m = Some exc).
Proof.
  split.
  - rewrite <- (loop_returns_iff db
      (RepeatPolicy.select_enrollments_for_gpa db (enrollment_set db self)
         (Some (repeat_policy (policy db)))) acc0).
    unfold update_academic_metrics_call, update_academic_metrics.
    destruct (loop _ _ _ _) as [a|exc].
    + destruct save.
      * destruct (student_save self (finish a)) as [x|] eqn:E; split.
        -- by intros [? ?].
        -- intros [_ H]. specialize (H eq_refl (finish a) eq_refl). congruence.
        -- intros _. split; [by eexists|]. intros _ m [= <-]. done.
        -- intros _. by eexists.
      * split; [|by eexists]. intros _. split; [by eexists|done].
    + split; [by intros [? ?]|]. by intros [[? ?] _].
  - intros exc. unfold update_academic_metrics_call, update_academic_metrics.
    destruct (loop _ _ _ _) as [a|exc'] eqn:E.
    + destruct save; [|done].
      destruct (student_save self (finish a)) as [x|] eqn:Ex; [|done].
      intros [= <-]. right; right. split; [done|]. by eexists.
    + intros [= <-]. apply loop_raises_multiple in E as [->| ->]; auto.
Qed.

(** X11: a student for whom no units are counted (no enrollments yet, or
    every result still held back by the approval gate) gets a CGPA of 0,
    and is then reported as at risk and as 'Below Average', and cannot
    graduate whatever the status. *)
Theorem no_counted_units_at_risk db self m :
  update_academic_metrics db self = Returned m →
  total_units_attempted m ≤ 0 →
  current_cgpa m = 0%Q
  ∧ is_at_risk m = true
  ∧ academic_performance_level m = "Below Average"
  ∧ ∀ status, can_graduate status self m = false.
Proof.
  intros H Hz. apply update_returned in H as (a & _ & ->).
  unfold finish in *; simpl in *.
  assert ((0 <? total_units a) = false) as E by lia.
  unfold is_at_risk, academic_performance_level, completion_rate, can_graduate; simpl.
  rewrite E. split; [done|]. split; [done|]. split; [done|].
  intros status. by rewrite andb_false_r.
Qed.

Lemma no_counted_units_at_risk_witness :
  current_cgpa {| current_cgpa := 0; total_units_attempted := 0;
                  total_units_passed := 0; total_sessions_completed := 0 |} = 0%Q
  ∧ is_at_risk {| current_cgpa := 0; total_units_attempted := 0;
                  total_units_passed := 0; total_sessions_completed := 0 |} = true
  ∧ academic_performance_level
      {| current_cgpa := 0; total_units_attempted := 0;
         total_units_passed := 0; total_sessions_completed := 0 |} = "Below Average"
  ∧ ∀ status, can_graduate status Sample.app1
                {| current_cgpa := 0; total_units_attempted := 0;
                   total_units_passed := 0; total_sessions_completed := 0 |} = false.
Proof.
  apply (no_counted_units_at_risk Sample.db_approval); [by vm_compute|by vm_compute].
Defined.

End metrics_extras.

(** ** The graduation audit *)

Section graduation_extras.
Import Graduation.

(** X12: the audit gives a note exactly when the student is not
    eligible: an eligible result carries no notes, and every refusal
    carries its reasons. *)
Theorem audit_eligible_iff_no_notes db student :
  eligible (audit_student_graduation db student) = true
  ↔ notes (audit_student_graduation db student) = [].
Proof.
  unfold audit_student_graduation. destruct (program student) as [prog|]; [|done].
  destruct (compute_cgpa_for_program db student _) as [c u]. simpl.
  destruct (bool_decide (missing_compulsory db student prog _ = [])),
           (negb (min_units_to_graduate prog =? 0) && (u <? min_units_to_graduate prog));
    simpl; split; try done.
Qed.

Lemma sorted_set_spec xs :
  Sorted Py.str_le (Py.sorted_set xs) ∧ NoDup (Py.sorted_set xs)
  ∧ ∀ k, k ∈ Py.sorted_set xs ↔ k ∈ xs.
Proof.
  unfold Py.sorted_set, Py.sorted. split; [apply Sorted_merge_sort, _|]. split.
  - rewrite merge_sort_Permutation. apply NoDup_remove_dups.
  - intros k. by rewrite merge_sort_Permutation, elem_of_remove_dups.
Qed.

(** X13: the missing compulsory courses of an audit are listed in
    ascending order of their codes, each code once, and a code is listed
    exactly when it is that of a compulsory curriculum course of the
    program that the student has not passed. *)
Theorem audit_missing_courses_exact db student prog :
  program student = Some prog →
  let missing := missing_compulsory_courses (audit_student_graduation db student) in
  Sorted Py.str_le missing ∧ NoDup missing
  ∧ ∀ k, k ∈ missing ↔
         ∃ cc, cc ∈ curriculum db ∧ cc_program cc = program_pk prog
               ∧ is_compulsory cc = true ∧ code (cc_course cc) = k
               ∧ passed_course db student (cc_course cc)
                   (require_approved_for_metrics (policy db)) = false.
Proof.
  intros Hp. unfold audit_student_graduation. rewrite Hp.
  destruct (compute_cgpa_for_program db student _) as [c u]. simpl.
  destruct (sorted_set_spec (missing_compulsory db student prog
              (require_approved_for_metrics (policy db)))) as (H1 & H2 & H3).
  split; [done|]. split; [done|]. intros k. rewrite H3. unfold missing_compulsory.
  rewrite list_elem_of_fmap. split.
  - intros (c0 & -> & Hc0). apply list_elem_of_fmap in Hc0 as (cc & -> & Hcc).
    apply list_elem_of_filter in Hcc as [Hf Hcc].
    apply list_elem_of_filter in Hcc as [[Hprog Hcomp] Hcc]. by exists cc.
  - intros (cc & Hcc & Hprog & Hcomp & <- & Hf). exists (cc_course cc). split; [done|].
    apply list_elem_of_fmap. exists cc. split; [done|].
    apply list_elem_of_filter. split; [done|]. by apply list_elem_of_filter.
Qed.

Lemma audit_missing_courses_exact_witness :
  let missing := missing_compulsory_courses
                   (audit_student_graduation Sample.db_ungraded Sample.grad1) in
  Sorted Py.str_le missing ∧ NoDup missing
  ∧ ∀ k, k ∈ missing ↔
         ∃ cc, cc ∈ curriculum Sample.db_ungraded
               ∧ cc_program cc = program_pk Sample.bsc_cs
               ∧ is_compulsory cc = true ∧ code (cc_course cc) = k
               ∧ passed_course Sample.db_ungraded Sample.grad1 (cc_course cc)
                   (require_approved_for_metrics (policy Sample.db_ungraded)) = false.
Proof. apply audit_missing_courses_exact. reflexivity. Defined.

Lemma first_at_or_below_exists {A} (min : A → Q) cgpa ladder u :
  u ∈ ladder → (min u <= cgpa)%Q → ∃ t, first_at_or_below min cgpa ladder t.
Proof.
  induction ladder as [|x l IH]; intros Hin Hle; [by apply elem_of_nil in Hin|].
  destruct (Qlt_le_dec cgpa (min x)) as [Hx|Hx].
  - apply elem_of_cons in Hin as [->|Hin].
    { exfalso. by apply (Qlt_not_le _ _ Hx). }
    destruct (IH Hin Hle) as (t & pre & post & -> & Ht & Hpre).
    exists t, (x :: pre), post. split; [done|]. split; [done|].
    intros v Hv. apply elem_of_cons in Hv as [->|Hv]; [by apply Qlt_not_le|by apply Hpre].
  - exists x, [], l. split; [done|]. split; [done|].
    intros v Hv. by apply elem_of_nil in Hv.
Qed.

(** With a ladder in descending order, a higher average never lands on a
    lower rung. *)
Lemma first_band_monotone {A} (min : A → Q) (label : A → string) ladder fallback c1 c2 t1 :
  Sorted (desc_by min) ladder →
  (c1 <= c2)%Q →
  first_at_or_below min c1 ladder t1 →
  ∃ t2, first_at_or_below min c2 ladder t2
        ∧ first_band min label c2 ladder fallback = label t2
        ∧ (min t1 <= min t2)%Q.
Proof.
  intros Hsorted Hle H1.
  assert (t1 ∈ ladder ∧ (min t1 <= c1)%Q) as [Hin Ht1].
  { destruct H1 as (pre & post & -> & Ht & _). split; [|done].
    apply elem_of_app. right. apply elem_of_cons. by left. }
  assert (min t1 <= c2)%Q as Ht1' by (by eapply Qle_trans).
  destruct (first_at_or_below_exists min c2 ladder t1 Hin Ht1') as [t2 H2].
  exists t2. split; [done|]. split; [by apply first_band_first|].
  by apply (first_at_or_below_greatest min c2 ladder t2).
Qed.

Lemma legacy_ladders_sorted :
  Sorted (desc_by snd) legacy_bsc ∧ Sorted (desc_by snd) legacy_nd.
Proof. split; repeat constructor; by vm_compute. Qed.

(** X14: classification is monotone in the average.  If an average [c1]
    reaches some threshold of the program, every average [c2 >= c1] is
    classified by a threshold whose minimum is at least as high; the same
    holds on the default ladder when the program has no thresholds. *)
Theorem classify_monotone db prog c1 c2 :
  (c1 <= c2)%Q →
  let ts := classification_thresholds db prog in
  let ladder := if decide (classification_scheme prog = CLASS_SCHEME_BSC)
                then legacy_bsc else legacy_nd in
  (∀ t1, first_at_or_below min_cgpa c1 ts t1 →
     classify db prog c1 = label t1
     ∧ ∃ t2, first_at_or_below min_cgpa c2 ts t2 ∧ classify db prog c2 = label t2
             ∧ (min_cgpa t1 <= min_cgpa t2)%Q)
  ∧ (ts = [] → ∀ b1, first_at_or_below snd c1 ladder b1 →
       classify db prog c1 = b1.1
       ∧ ∃ b2, first_at_or_below snd c2 ladder b2 ∧ classify db prog c2 = b2.1
               ∧ (b1.2 <= b2.2)%Q).
Proof.
  intros Hle ts ladder. split.
  - intros t1 H1. unfold classify. fold ts.
    destruct (last ts) as [catch_all|] eqn:El.
    + split; [by apply first_band_first|].
      apply (first_band_monotone min_cgpa label ts (label catch_all) c1 c2 t1);
        [apply order_by_desc_sorted|done|done].
    + apply last_None in El. destruct H1 as (pre & post & Heq & _).
      rewrite El in Heq. by destruct pre.
  - intros Hts b1 H1. unfold classify. fold ts. rewrite Hts. simpl. fold ladder.
    split; [by apply (first_band_first snd fst)|].
    apply (first_band_monotone snd fst ladder "Fail" c1 c2 b1); [|done|done].
    unfold ladder. destruct legacy_ladders_sorted. by case_decide.
Qed.

Lemma classify_monotone_witness :
  let ts := classification_thresholds (Sample.db_grad []) Sample.bsc_cs in
  let ladder := if decide (classification_scheme Sample.bsc_cs = CLASS_SCHEME_BSC)
                then legacy_bsc else legacy_nd in
  (∀ t1, first_at_or_below min_cgpa 2.4 ts t1 →
     classify (Sample.db_grad []) Sample.bsc_cs 2.4 = label t1
     ∧ ∃ t2, first_at_or_below min_cgpa 3.6 ts t2
             ∧ classify (Sample.db_grad []) Sample.bsc_cs 3.6 = label t2
             ∧ (min_cgpa t1 <= min_cgpa t2)%Q)
  ∧ (ts = [] → ∀ b1, first_at_or_below snd 2.4 ladder b1 →
       classify (Sample.db_grad []) Sample.bsc_cs 2.4 = b1.1
       ∧ ∃ b2, first_at_or_below snd 3.6 ladder b2
               ∧ classify (Sample.db_grad []) Sample.bsc_cs 3.6 = b2.1
               ∧ (b1.2 <= b2.2)%Q).
Proof. apply classify_monotone. by vm_compute. Defined.

Lemma cgpa_fold_units db req es acc :
  (foldl (cgpa_step db req) acc es).2
  = acc.2 + units_total (filter (λ e, is_Some (_grade_point db e req)) es).
Proof.
  revert acc. induction es as [|e es IH]; intros acc; simpl; [lia|].
  rewrite IH, filter_cons. unfold cgpa_step.
  destruct (_grade_point db e req) as [gp|] eqn:E.
  - rewrite decide_True by done. simpl. lia.
  - rewrite decide_False; [done|]. by intros [? ?].
Qed.

(** X15: the units an audit reports as earned are the units of every
    attempt of the student that has a usable grade, whatever the grade
    point (a failed attempt counts) and however often the course was
    taken; the repeat policy plays no part. *)
Theorem audit_units_earned_sum db student prog :
  program student = Some prog →
  total_units_earned (audit_student_graduation db student)
  = units_total (attempts_with_grade_point db student).
Proof.
  intros Hp. unfold audit_student_graduation, attempts_with_grade_point. rewrite Hp.
  pose proof (cgpa_fold_units db (require_approved_for_metrics (policy db))
                (enrollment_set db student) (0%Q, 0)) as Hsum.
  unfold compute_cgpa_for_program.
  destruct (foldl _ _ _) as [tp tu]. simpl in Hsum.
  case_decide; simpl; lia.
Qed.

Lemma audit_units_earned_sum_witness :
  total_units_earned
    (audit_student_graduation
       (add_attempt Sample.e5 [Sample.failed_F] (Sample.db_grad [Sample.graded_A]))
       Sample.grad1)
  = units_total
      (attempts_with_grade_point
         (add_attempt Sample.e5 [Sample.failed_F] (Sample.db_grad [Sample.graded_A]))
         Sample.grad1).
Proof. by apply (audit_units_earned_sum _ _ Sample.bsc_cs). Defined.

Example audit_counts_failed_attempt :
  total_units_earned
    (audit_student_graduation
       (add_attempt Sample.e5 [Sample.failed_F] (Sample.db_grad [Sample.graded_A]))
       Sample.grad1) = 6.
Proof. by vm_compute. Qed.

Lemma grade_point_in_scale db e req gp :
  _grade_point db e req = Some gp → ∃ gs, gs ∈ grading_settings db ∧ grade_point gs = gp.
Proof.
  unfold _grade_point. intros H.
  destruct (head (grades_of db e)) as [g|]; [|done].
  case_decide; [done|].
  destruct (req && negb (bool_decide (status g = STATUS_APPROVED))); [done|].
  destruct (head (settings_named db (grade g))) as [gs|] eqn:E; [|done].
  exists gs. split; [|congruence].
  apply head_Some_elem_of in E. unfold settings_named in E.
  apply list_elem_of_filter in E as [_ E]. by rewrite (order_by_desc_perm min_score) in E.
Qed.

(** X16: on a grading scale whose points lie between 0 and [M], and with
    no negative course units, the average that the audit and the student
    page compute lies between 0 and [M]. *)
Theorem audit_cgpa_in_range db student req (M : Z) :
  0 ≤ M →
  (∀ gs, gs ∈ grading_settings db →
         (0 <= grade_point gs)%Q ∧ (grade_point gs <= inject_Z M)%Q) →
  (∀ e, e ∈ enrollment_set db student → 0 ≤ units (course e)) →
  (0 <= (compute_cgpa_for_program db student req).1)%Q
  ∧ ((compute_cgpa_for_program db student req).1 <= inject_Z M)%Q
  ∧ (0 <= cgpa (audit_student_graduation db student))%Q
  ∧ (cgpa (audit_student_graduation db student) <= inject_Z M)%Q.
Proof.
  intros HM Hscale Hu. rewrite Zle_Qle in HM.
  assert (∀ req, (0 <= (compute_cgpa_for_program db student req).1)%Q
                 ∧ ((compute_cgpa_for_program db student req).1 <= inject_Z M)%Q) as Hc.
  { clear req. intros req. unfold compute_cgpa_for_program.
    assert (∀ es acc, (∀ e, e ∈ es → 0 ≤ units (course e)) →
              0 ≤ acc.2 → (0 <= acc.1)%Q → (acc.1 <= inject_Z M * inject_Z acc.2)%Q →
              0 ≤ (foldl (cgpa_step db req) acc es).2
              ∧ (0 <= (foldl (cgpa_step db req) acc es).1)%Q
              ∧ ((foldl (cgpa_step db req) acc es).1
                 <= inject_Z M * inject_Z (foldl (cgpa_step db req) acc es).2)%Q) as Hfold.
    { induction es as [|e es IH]; intros acc Hes H0 H1 H2; simpl; [done|].
      apply IH; [intros e' He'; apply Hes; set_solver|..];
        unfold cgpa_step; destruct (_grade_point db e req) as [gp|] eqn:E; try done;
        simpl; assert (0 ≤ units (course e)) as Hue by (apply Hes; set_solver);
        apply grade_point_in_scale in E as (gs & Hgs & <-);
        destruct (Hscale gs Hgs) as [Hg0 HgM]; pose proof Hue as HuQ;
        rewrite Zle_Qle in HuQ; change (inject_Z 0) with 0%Q in HuQ.
      - lia.
      - generalize dependent (inject_Z (units (course e))). intros. nra.
      - rewrite inject_Z_plus.
        generalize dependent (inject_Z (units (course e))).
        generalize dependent (inject_Z acc.2). generalize dependent (inject_Z M).
        intros. nra. }
    destruct (Hfold (enrollment_set db student) (0%Q, 0) Hu) as (H0 & H1 & H2);
      [done|done|simpl; change (inject_Z 0) with 0%Q; lra|].
    destruct (foldl _ _ _) as [tp tu]. simpl in *.
    case_decide as Hz; simpl; [by split|].
    assert (0 < tu) as Hpos by lia. rewrite Zlt_Qlt in Hpos.
    apply round2_bounds.
    - apply Qle_shift_div_l; [done|]. by rewrite Qmult_0_l.
    - by apply Qle_shift_div_r. }
  destruct (Hc req) as [H1 H2]. split; [done|]. split; [done|].
  unfold audit_student_graduation.
  destruct (program student) as [prog|]; [|simpl; split; [apply Qle_refl|exact HM]].
  destruct (Hc (require_approved_for_metrics (policy db))) as [H3 H4].
  destruct (compute_cgpa_for_program db student
              (require_approved_for_metrics (policy db))) as [c u].
  simpl in *. by split.
Qed.

Lemma audit_cgpa_in_range_witness :
  (0 <= (compute_cgpa_for_program (Sample.db_grad [Sample.graded_A]) Sample.grad1 false).1)%Q
  ∧ ((compute_cgpa_for_program (Sample.db_grad [Sample.graded_A]) Sample.grad1 false).1
     <= inject_Z 4)%Q
  ∧ (0 <= cgpa (audit_student_graduation (Sample.db_grad [Sample.graded_A]) Sample.grad1))%Q
  ∧ (cgpa (audit_student_graduation (Sample.db_grad [Sample.graded_A]) Sample.grad1)
     <= inject_Z 4)%Q.
Proof.
  apply audit_cgpa_in_range; [lia| |].
  - intros gs Hgs. vm_compute in Hgs.
    repeat (apply elem_of_cons in Hgs as [->|Hgs]; [by vm_compute|]).
    by apply elem_of_nil in Hgs.
  - intros e He. vm_compute in He.
    repeat (apply elem_of_cons in He as [->|He]; [by vm_compute|]).
    by apply elem_of_nil in He.
Defined.

Lemma grade_point_spec db e req gp :
  _grade_point db e req = Some gp ↔ audit_grade_point db req e gp.
Proof.
  unfold _grade_point, audit_grade_point. split.
  - destruct (head (grades_of db e)) as [g|]; [|done].
    case_decide as Hg; [done|].
    destruct req; cbn [andb].
    + destruct (bool_decide (status g = STATUS_APPROVED)) eqn:Hs; cbn [negb]; [|done].
      apply bool_decide_eq_true in Hs.
      destruct (head (settings_named db (grade g))) as [gs|] eqn:Egs; [|done].
      intros [= <-]. by exists g, gs.
    + destruct (head (settings_named db (grade g))) as [gs|] eqn:Egs; [|done].
      intros [= <-]. by exists g, gs.
  - intros (g & gs & -> & Hg & Hs & -> & ->).
    rewrite decide_False by done.
    destruct req; cbn [andb]; [|done].
    by rewrite bool_decide_eq_true_2 by auto.
Qed.

Lemma round2_close (x : Q) :
  (x - (1 # 100) < Py.round2 x)%Q ∧ (Py.round2 x < x + (1 # 100))%Q.
Proof.
  destruct x as [n d]. unfold Py.round2, Qlt, Qplus, Qminus, Qopp; cbn.
  pose proof (Z.div_mod (n * 100) (Z.pos d) ltac:(lia)) as Hdm.
  pose proof (Z.mod_pos_bound (n * 100) (Z.pos d) ltac:(lia)) as Hr.
  set (q := n * 100 / Z.pos d) in *. set (r := (n * 100) mod Z.pos d) in *.
  repeat case_match; nia.
Qed.

Lemma cgpa_fold_audited db req es acc :
  ∃ points, audited db req es ((foldl (cgpa_step db req) acc es).2 - acc.2) points
            ∧ ((foldl (cgpa_step db req) acc es).1 == acc.1 + points)%Q.
Proof.
  revert acc. induction es as [|e es IH]; intros acc; cbn [foldl].
  - exists 0%Q. rewrite Z.sub_diag, Qplus_0_r. split; [constructor|done].
  - assert (cgpa_step db req acc e
            = match _grade_point db e req with
              | Some gp => ((acc.1 + inject_Z (units (course e)) * gp)%Q,
                            acc.2 + units (course e))
              | None => acc
              end) as -> by done.
    destruct (_grade_point db e req) as [gp|] eqn:E.
    + destruct (IH ((acc.1 + inject_Z (units (course e)) * gp)%Q,
                    acc.2 + units (course e))) as (points & Ha & Hp).
      cbn [fst snd] in Ha, Hp.
      exists (inject_Z (units (course e)) * gp + points)%Q. split.
      * match goal with |- audited _ _ _ (?x - _) _ =>
          replace (x - acc.2) with (units (course e) + (x - (acc.2 + units (course e))))
            by lia end.
        constructor; [by apply grade_point_spec|done].
      * rewrite Hp. ring.
    + destruct (IH acc) as (points & Ha & Hp). exists points. split; [|done].
      apply audited_skipped; [|done].
      intros gp Hgp. apply grade_point_spec in Hgp. congruence.
Qed.

Lemma passed_course_spec db student c req :
  passed_course db student c req = true ↔ passed_some_attempt db req student c.
Proof.
  unfold passed_course, passed_some_attempt.
  rewrite graduation_passed_loop_eq, eligibility_passed_loop_iff.
  unfold attempts_of. split.
  - intros (e & He & Hp). apply list_elem_of_filter in He as [[H1 H2] He]. by exists e.
  - intros (e & He & H1 & H2 & Hp). exists e. split; [|done].
    by apply list_elem_of_filter.
Qed.

Lemma audit_classification db student prog :
  program student = Some prog →
  let r := audit_student_graduation db student in
  classification r
  = if eligible r then Some (classify db prog (cgpa r)) else None.
Proof.
  intros Hprog. unfold audit_student_graduation. rewrite Hprog.
  by destruct (compute_cgpa_for_program db student _).
Qed.



End graduation_extras.

(** ** Saving a grade *)

Section grade_entry.
Import GradingModels.

Lemma filter_key_single {A B} `{EqDecision B} (f : A → B) (l : list A) x :
  NoDup (f <$> l) → x ∈ l → filter (λ y, f y = f x) l = [x].
Proof.
  induction l as [|z l IH]; intros Hnd Hin; [by apply elem_of_nil in Hin|].
  rewrite fmap_cons in Hnd. apply NoDup_cons in Hnd as [Hz Hnd].
  rewrite filter_cons. apply elem_of_cons in Hin as [->|Hin].
  - rewrite decide_True by done. f_equal. apply filter_none.
    intros y Hy Hfy. apply Hz. rewrite <- Hfy. by apply list_elem_of_fmap_2.
  - rewrite decide_False; [by apply IH|].
    intros Hfz. apply Hz. rewrite Hfz. by apply list_elem_of_fmap_2.
Qed.

Lemma reached_or_not {A} (min : A → Q) (c : Q) (l : list A) :
  (∃ u, u ∈ l ∧ (min u <= c)%Q) ∨ (∀ u, u ∈ l → ¬ (min u <= c)%Q).
Proof.
  induction l as [|x l [(u & Hu & Hle)|IH]].
  - right. intros u Hu. by apply elem_of_nil in Hu.
  - left. exists u. split; [|done]. apply elem_of_cons. by right.
  - destruct (Qlt_le_dec c (min x)) as [Hx|Hx].
    + right. intros u Hu. apply elem_of_cons in Hu as [->|Hu]; [|by apply IH].
      by apply Qlt_not_le.
    + left. exists x. split; [|done]. apply elem_of_cons. by left.
Qed.

Context (float_add : Q → Q → Q).

Lemma save_cases db self ca_score exam_score :
  let total := total_score (save float_add db self ca_score exam_score) in
  let scheme := order_by_desc min_score (grading_settings db) in
  (∃ t, first_at_or_below min_score total scheme t
        ∧ grade (save float_add db self ca_score exam_score) = grade_name t)
  ∨ (grade (save float_add db self ca_score exam_score) = "N/A"
     ∧ ∀ u, u ∈ scheme → ¬ (min_score u <= total)%Q).
Proof.
  intros total scheme. subst total. unfold save. cbn [grade total_score].
  fold scheme. set (total := float_add ca_score exam_score).
  destruct (reached_or_not min_score total scheme) as [(u & Hu & Hle)|Hno].
  - left. destruct (first_at_or_below_exists min_score total scheme u Hu Hle) as [t Ht].
    exists t. split; [done|]. by apply first_band_first.
  - right. split; [|done]. by apply first_band_fallback.
Qed.

Lemma first_at_or_below_elem {A} (min : A → Q) c l t :
  first_at_or_below min c l t → t ∈ l ∧ (min t <= c)%Q.
Proof.
  intros (pre & post & -> & Hle & _). split; [|done].
  apply elem_of_app. right. apply elem_of_cons. by left.
Qed.

(** X17: [Grade.save] stores as total the float sum of the two scores,
    and derives the letter from the scale by [min_score] alone: the
    letter is that of a row with the highest [min_score] that the stored
    total reaches, and ['N/A'] when the stored total is below every row.
    [max_score] plays no part, so a total above every band gets the top
    letter and a total in a gap between two bands gets the letter of the
    band below. *)
Theorem save_assigns_highest_band_reached db self ca_score exam_score :
  let g := save float_add db self ca_score exam_score in
  total_score g = float_add ca_score exam_score
  ∧ grade_enrollment g = grade_enrollment self ∧ status g = status self
  ∧ ((∃ t, t ∈ grading_settings db ∧ grade g = grade_name t
           ∧ (min_score t <= total_score g)%Q
           ∧ ∀ u, u ∈ grading_settings db → (min_score u <= total_score g)%Q →
                  (min_score u <= min_score t)%Q)
     ∨ (grade g = "N/A"
        ∧ ∀ u, u ∈ grading_settings db → ¬ (min_score u <= total_score g)%Q)).
Proof.
  intros g. subst g. split; [done|]. split; [done|]. split; [done|].
  assert (∀ u, u ∈ order_by_desc min_score (grading_settings db)
               ↔ u ∈ grading_settings db) as Hperm.
  { intros u. by rewrite (order_by_desc_perm min_score). }
  destruct (save_cases db self ca_score exam_score) as [(t & Ht & Hg)|[Hg Hno]].
  - left. exists t. destruct (first_at_or_below_elem _ _ _ _ Ht) as [Hin Hle].
    split; [by apply Hperm|]. split; [done|]. split; [done|].
    intros v Hv Hvle.
    apply (first_at_or_below_greatest min_score
             (total_score (save float_add db self ca_score exam_score))
             (order_by_desc min_score (grading_settings db)) t);
      [apply order_by_desc_sorted|done|by apply Hperm|done].
  - right. split; [done|]. intros v Hv. apply Hno. by apply Hperm.
Qed.

(** X18: on a scale whose grade names are distinct, a saved grade whose
    stored total reaches some row resolves: looking its letter up in the
    scale, as the metrics, the audit and the transcript do, finds exactly
    one row, the one the letter was taken from, and never raises. *)
Theorem saved_grade_resolves db self ca_score exam_score :
  let g := save float_add db self ca_score exam_score in
  NoDup (grade_name <$> grading_settings db) →
  (∃ u, u ∈ grading_settings db ∧ (min_score u <= total_score g)%Q) →
  ∃ t, objects_get (settings_named db (grade g)) = Found t
       ∧ t ∈ grading_settings db
       ∧ grade_name t = grade g
       ∧ (min_score t <= total_score g)%Q.
Proof.
  intros g Hnd (u & Hu & Hle). subst g.
  destruct (save_cases db self ca_score exam_score) as [(t & Ht & Hg)|[_ Hno]].
  - exists t. destruct (first_at_or_below_elem _ _ _ _ Ht) as [Hin Htle].
    rewrite Hg. unfold settings_named.
    rewrite (filter_key_single grade_name); [|by rewrite (order_by_desc_perm min_score)|done].
    split; [done|]. split; [|done]. by rewrite (order_by_desc_perm min_score) in Hin.
  - exfalso. apply (Hno u); [|done]. by rewrite (order_by_desc_perm min_score).
Qed.

End grade_entry.

Section grade_entry_samples.
Import GradingModels.

(** On scores whose sum is a double, the float sum is the exact one. *)
Example save_above_every_band :
  grade (save Qplus (Sample.db_grad []) Sample.graded_A 60 45) = "A"
  ∧ grade (save Qplus (Sample.db_grad []) Sample.graded_A 40 25) = "F"
  ∧ grade (save Qplus (Sample.db_grad []) Sample.graded_A (-1) 0) = "N/A".
Proof. by vm_compute. Qed.

Lemma saved_grade_resolves_witness :
  let g := save Qplus (Sample.db_grad []) Sample.graded_A 40 25 in
  ∃ t, objects_get (settings_named (Sample.db_grad []) (grade g)) = Found t
       ∧ t ∈ grading_settings (Sample.db_grad [])
       ∧ grade_name t = grade g
       ∧ (min_score t <= total_score g)%Q.
Proof.
  apply saved_grade_resolves.
  - vm_compute. repeat constructor; set_solver.
  - exists {| grade_name := "F"; min_score := 0; max_score := 59; grade_point := 0 |}.
    split; [|by vm_compute]. vm_compute. set_solver.
Defined.

End grade_entry_samples.

(** ** Course suggestions *)

Section suggestions.
Import Eligibility CourseSuggestions.

Lemma check_prerequisites_ok_iff db student prog c :
  (check_prerequisites db student prog c).1 = true ↔
  ∀ p, p ∈ declared_prerequisites db prog c →
       student_passed_course db student (prerequisite_course p) = true.
Proof.
  unfold check_prerequisites, check_prerequisites_rows.
  fold (declared_prerequisites db prog c).
  destruct (filter _ (declared_prerequisites db prog c)) as [|q qs] eqn:E; simpl.
  - split; [|done]. intros _ p Hp.
    destruct (student_passed_course db student (prerequisite_course p)) eqn:Ep; [done|].
    exfalso. apply (elem_of_nil p). rewrite <- E. by apply list_elem_of_filter.
  - split; [done|]. intros Hall.
    assert (q ∈ q :: qs) as Hq by (apply elem_of_cons; by left).
    rewrite <- E in Hq. apply list_elem_of_filter in Hq as [Hf Hq].
    rewrite Hall in Hf by done. done.
Qed.

Lemma check_prerequisites_reason db student prog c :
  (check_prerequisites db student prog c).1 = true
  ↔ (check_prerequisites db student prog c).2 = None.
Proof.
  unfold check_prerequisites, check_prerequisites_rows. by destruct (code <$> _).
Qed.

(** X19: what [suggest_courses_for_student] lists.  Every suggestion
    stands for a curriculum row of the student's program, current level
    and the requested semester whose course the student has not passed;
    it is marked eligible exactly when all prerequisites declared for the
    course are passed, and carries a reason exactly when it is not.
    Conversely every such row is suggested.  Without a program or a
    current level nothing is suggested. *)
Theorem suggestions_are_unpassed_curriculum_courses db rows student semester :
  let suggested := suggest_courses_for_student db rows student semester in
  (∀ s, s ∈ suggested →
     ∃ prog level cc,
       program student = Some prog ∧ current_level student = Some level
       ∧ cc ∈ rows ∧ cc_program (placed cc) = program_pk prog
       ∧ placed_level cc = level ∧ placed_semester cc = semester
       ∧ course_code s = code (cc_course (placed cc))
       ∧ course_title s = title (cc_course (placed cc))
       ∧ student_passed_course db student (cc_course (placed cc)) = false
       ∧ (eligible s = true ↔
            ∀ p, p ∈ declared_prerequisites db prog (cc_course (placed cc)) →
                 student_passed_course db student (prerequisite_course p) = true)
       ∧ (eligible s = true ↔ reason s = None))
  ∧ (∀ prog level cc,
       program student = Some prog → current_level student = Some level →
       cc ∈ rows → cc_program (placed cc) = program_pk prog →
       placed_level cc = level → placed_semester cc = semester →
       student_passed_course db student (cc_course (placed cc)) = false →
       ∃ s, s ∈ suggested ∧ course_code s = code (cc_course (placed cc)))
  ∧ (program student = None ∨ current_level student = None → suggested = []).
Proof.
  intros suggested. subst suggested. unfold suggest_courses_for_student.
  split; [|split].
  - intros s Hs. destruct (program student) as [prog|]; [|by apply elem_of_nil in Hs].
    destruct (current_level student) as [level|]; [|by apply elem_of_nil in Hs].
    apply list_elem_of_bind in Hs as (cc & Hs & Hcc).
    apply list_elem_of_filter in Hcc as [(Hprog & Hlevel & Hsem) Hcc].
    exists prog, level, cc. unfold suggestion in Hs.
    destruct (student_passed_course db student (cc_course (placed cc))) eqn:Hpassed;
      [by apply elem_of_nil in Hs|].
    pose proof (check_prerequisites_ok_iff db student prog (cc_course (placed cc))) as Hok.
    pose proof (check_prerequisites_reason db student prog (cc_course (placed cc))) as Hre.
    destruct (check_prerequisites db student prog (cc_course (placed cc))) as [ok why].
    simpl in Hs. apply list_elem_of_singleton in Hs as ->. simpl in *.
    split_and!; done.
  - intros prog level cc -> -> Hcc Hprog Hlevel Hsem Hpassed.
    destruct (check_prerequisites db student prog (cc_course (placed cc)))
      as [ok why] eqn:Hcheck.
    exists {| course_code := code (cc_course (placed cc));
              course_title := title (cc_course (placed cc));
              eligible := ok; reason := why |}.
    split; [|done]. apply list_elem_of_bind. exists cc. split.
    + unfold suggestion. rewrite Hpassed, Hcheck. by apply list_elem_of_singleton.
    + by apply list_elem_of_filter.
  - intros [->| ->]; [done|]. by destruct (program student).
Qed.

Lemma suggestions_are_unpassed_curriculum_courses_witness :
  ∃ s, s ∈ suggest_courses_for_student Sample.db_prereq Cases.placements
             Sample.grad1 "FIRST"
       ∧ course_code s = code (cc_course (placed (Cases.placement Sample.MTH102 "FIRST"))).
Proof.
  apply (proj1 (proj2 (suggestions_are_unpassed_curriculum_courses Sample.db_prereq
                         Cases.placements Sample.grad1 "FIRST"))
           Sample.bsc_cs "100 Level"); try reflexivity.
  unfold Cases.placements. set_solver.
Defined.

(** The student passed G101: it is left out; CSC301 is blocked by its two
    prerequisites; MTH102, whose prerequisite G101 is passed, is
    eligible; ENG102 belongs to the other semester. *)
Example suggestions_sample :
  suggest_courses_for_student Sample.db_prereq Cases.placements Sample.grad1 "FIRST"
  = [ {| course_code := "CSC301"; course_title := "Algorithms"; eligible := false;
         reason := Some "Missing prerequisites: MTH102, CSC101" |};
      {| course_code := "MTH102"; course_title := "Calculus"; eligible := true;
         reason := None |} ].
Proof. by vm_compute. Qed.

End suggestions.

(** ** The grade table of a transcript *)

Section transcript_table.
Import Metrics TranscriptTable.

Lemma graded_cell_text db db' c1 c2 e g t1 t2 col cell1 cell2 t1' t2' :
  grading_settings db' = grading_settings db →
  pending db' g = pending db g →
  graded_cell db c1 e g t1 col = Returned (cell1, t1') →
  graded_cell db' c2 e g t2 col = Returned (cell2, t2') →
  cell1 = cell2.
Proof.
  intros Hgs Hpend. unfold graded_cell, settings_named. rewrite Hgs, Hpend.
  repeat case_decide; try congruence.
  - destruct (pending db g); congruence.
  - destruct (pending db g); [congruence|].
    destruct (objects_get _) as [gs| |]; congruence.
Qed.

Lemma graded_row_text db db' c1 c2 e g cols row t1 t2 row1 row2 t1' t2' :
  grading_settings db' = grading_settings db →
  pending db' g = pending db g →
  graded_row db c1 e g cols row t1 = Returned (row1, t1') →
  graded_row db' c2 e g cols row t2 = Returned (row2, t2') →
  row1 = row2.
Proof.
  intros Hgs Hpend. revert row t1 t2. induction cols as [|col cols IH];
    intros row t1 t2; simpl; [congruence|].
  destruct (graded_cell db c1 e g t1 col) as [[cell1 u1]|] eqn:E1; [|done].
  destruct (graded_cell db' c2 e g t2 col) as [[cell2 u2]|] eqn:E2; [|done].
  rewrite (graded_cell_text db db' c1 c2 e g t1 t2 col cell1 cell2 u1 u2) by done.
  apply IH.
Qed.

Lemma returned_fst {A B C} (b : bool) (o : GetResult A) (x y : B) (f : A → C) u v exc :
  (if b then match o with
            | Found gs => Returned (x, f gs)
            | DoesNotExist => Returned (x, u)
            | MultipleObjectsReturned => Raised exc
            end
   else Returned (x, u)) = Returned (y, v) →
  y = x.
Proof. destruct b; [destruct o|]; intros ?; by simplify_eq. Qed.

Lemma step_text db db' c1 c2 cols tab s1 s2 e tab1 tab2 s1' s2' :
  grades db' = grades db →
  grading_settings db' = grading_settings db →
  require_approved_for_transcripts (policy db')
  = require_approved_for_transcripts (policy db) →
  step db c1 cols (tab, s1) e = Returned (tab1, s1') →
  step db' c2 cols (tab, s2) e = Returned (tab2, s2') →
  tab1 = tab2 ∧ length tab1 = S (length tab).
Proof.
  intros Hg Hgs Hreq. unfold step, grades_of. rewrite Hg.
  destruct (objects_get (filter _ (grades db))) as [g| |]; [| |done].
  - destruct (graded_row db _ e g cols [] s1) as [[row1 u1]|] eqn:E1; [|done].
    destruct (graded_row db' _ e g cols [] s2) as [[row2 u2]|] eqn:E2; [|done].
    assert (row1 = row2) as ->.
    { eapply (graded_row_text db db'); [done| |done|done]. unfold pending. by rewrite Hreq. }
    intros H1 H2.
    apply returned_fst in H1 as ->. apply returned_fst in H2 as ->.
    split; [done|]. rewrite length_app. simpl. lia.
  - intros ? ?. simplify_eq. split; [done|]. rewrite length_app. simpl. lia.
Qed.

Lemma loop_text db db' c1 c2 cols tab s1 s2 es tab1 tab2 s1' s2' :
  grades db' = grades db →
  grading_settings db' = grading_settings db →
  require_approved_for_transcripts (policy db')
  = require_approved_for_transcripts (policy db) →
  loop db c1 cols (tab, s1) es = Returned (tab1, s1') →
  loop db' c2 cols (tab, s2) es = Returned (tab2, s2') →
  tab1 = tab2 ∧ length tab1 = (length tab + length es)%nat.
Proof.
  intros Hg Hgs Hreq. revert tab s1 s2.
  induction es as [|e es IH]; intros tab s1 s2; cbn [loop].
  - intros ? ?. simplify_eq. split; [done|simpl; lia].
  - destruct (step db c1 cols (tab, s1) e) as [[ta u1]|] eqn:E1; [|done].
    destruct (step db' c2 cols (tab, s2) e) as [[tb u2]|] eqn:E2; [|done].
    destruct (step_text db db' c1 c2 cols tab s1 s2 e ta tb u1 u2) as [-> Hlen];
      try done.
    intros H1 H2. destruct (IH tb u1 u2 H1 H2) as [-> Hlen']. split; [done|simpl; lia].
Qed.

Lemma step_appends db c cols tab s e tab' s' :
  step db c cols (tab, s) e = Returned (tab', s') → ∃ row, tab' = tab ++ [row].
Proof.
  unfold step. destruct (objects_get (grades_of db e)) as [g| |]; [| |done].
  - destruct (graded_row db _ e g cols [] s) as [[row u]|]; [|done].
    intros H. apply returned_fst in H as ->. by eexists.
  - intros ?. simplify_eq. by eexists.
Qed.

Lemma loop_head db c cols tab s es tab' s' h :
  loop db c cols (tab, s) es = Returned (tab', s') → head tab = Some h →
  head tab' = Some h.
Proof.
  revert tab s. induction es as [|e es IH]; intros tab s; cbn [loop].
  - intros ? ?. by simplify_eq.
  - destruct (step db c cols (tab, s) e) as [[ta u]|] eqn:E; [|done].
    apply step_appends in E as [row ->]. intros H Hh. apply (IH _ _ H).
    by destruct tab.
Qed.

(** X20: the grade table shows every attempt, whatever the repeat
    policy: under any two policies the rows are the same, one per
    enrollment after the header row; only the totals depend on the
    policy. *)
Theorem transcript_rows_ignore_repeat_policy db es columns rp t1 s1 t2 s2 :
  _build_grade_table_data db es columns = Returned (t1, s1) →
  _build_grade_table_data (with_repeat_policy rp db) es columns = Returned (t2, s2) →
  t2 = t1 ∧ head t1 = Some columns ∧ length t1 = S (length es).
Proof.
  unfold _build_grade_table_data. intros H1 H2.
  destruct (loop_text db (with_repeat_policy rp db) _ _ columns [columns] _ _ es
              t1 t2 s1 s2 eq_refl eq_refl eq_refl H1 H2) as [-> Hlen].
  split; [done|]. split; [|done]. by apply (loop_head _ _ _ _ _ _ _ _ columns) in H1.
Qed.

Lemma transcript_rows_ignore_repeat_policy_witness :
  [ ["Course Code"; "Units"; "Grade"; "Grade Point"];
    ["POL101"; "3"; "C"; "2.0"]; ["POL101"; "3"; "A"; "4.0"] ]
  = [ ["Course Code"; "Units"; "Grade"; "Grade Point"];
      ["POL101"; "3"; "C"; "2.0"]; ["POL101"; "3"; "A"; "4.0"] ]
  ∧ head [ ["Course Code"; "Units"; "Grade"; "Grade Point"];
           ["POL101"; "3"; "C"; "2.0"]; ["POL101"; "3"; "A"; "4.0"] ]
    = Some ["Course Code"; "Units"; "Grade"; "Grade Point"]
  ∧ length [ ["Course Code"; "Units"; "Grade"; "Grade Point"];
             ["POL101"; "3"; "C"; "2.0"]; ["POL101"; "3"; "A"; "4.0"] ]
    = S (length [Sample.e1; Sample.e2]).
Proof.
  apply (transcript_rows_ignore_repeat_policy (Sample.db_repeat "ALL")
           [Sample.e1; Sample.e2] ["Course Code"; "Units"; "Grade"; "Grade Point"]
           "LATEST" _ {| stats_grade_points := 18; stats_units := 6 |}
           _ {| stats_grade_points := 12; stats_units := 3 |}); by vm_compute.
Defined.

Lemma graded_cell_hidden db e g col :
  col ≠ "Grade Point" →
  ∃ cell, ∀ counted t, graded_cell db counted e g t col = Returned (cell, t).
Proof.
  intros Hcol. unfold graded_cell.
  repeat case_decide; try done; try (by eexists).
  destruct (pending db g); by eexists.
Qed.

(** A row without the Grade Point column leaves the totals alone. *)
Lemma graded_row_hidden db e g cols :
  "Grade Point" ∉ cols →
  ∃ cells, ∀ counted row t,
    graded_row db counted e g cols row t = Returned (row ++ cells, t).
Proof.
  induction cols as [|col cols IH]; intros Hnin.
  - exists []. intros counted row t. simpl. by rewrite app_nil_r.
  - apply not_elem_of_cons in Hnin as [Hcol Hnin].
    destruct (IH Hnin) as [cells Hcells].
    destruct (graded_cell_hidden db e g col) as [cell Hcell]; [done|].
    exists (cell ++ cells). intros counted row t. cbn [graded_row].
    by rewrite Hcell, Hcells, <- app_assoc.
Qed.

Lemma graded_row_app db counted e g cols1 cols2 row t :
  graded_row db counted e g (cols1 ++ cols2) row t
  = match graded_row db counted e g cols1 row t with
    | Returned (row', t') => graded_row db counted e g cols2 row' t'
    | Raised exc => Raised exc
    end.
Proof.
  revert row t. induction cols1 as [|col cols1 IH]; intros row t; [done|].
  cbn [app graded_row]. destruct (graded_cell db counted e g t col) as [[cell t']|]; [|done].
  apply IH.
Qed.

(** A row with the Grade Point column once, for a grade that is not held
    back: the totals move by the one lookup of the scale. *)
Lemma graded_row_shown db counted e g cols row t :
  NoDup cols → "Grade Point" ∈ cols → pending db g = false →
  match objects_get (settings_named db (grade g)) with
  | Found gs =>
      ∃ row', graded_row db counted e g cols row t
              = Returned (row', if counted
                                then add_graded (course e) (grade_point gs) t else t)
  | DoesNotExist => ∃ row', graded_row db counted e g cols row t = Returned (row', t)
  | MultipleObjectsReturned => ∃ exc, graded_row db counted e g cols row t = Raised exc
  end.
Proof.
  intros Hnd Hin Hpend. apply list_elem_of_split in Hin as (pre & post & ->).
  apply NoDup_app in Hnd as (_ & Hpre & Hpost).
  apply NoDup_cons in Hpost as [Hpost _].
  assert ("Grade Point" ∉ pre) as Hpre'.
  { intros H. apply (Hpre _ H). apply elem_of_cons. by left. }
  destruct (graded_row_hidden db e g pre Hpre') as [cells1 H1].
  destruct (graded_row_hidden db e g post Hpost) as [cells2 H2].
  rewrite graded_row_app, H1. cbn [graded_row]. unfold graded_cell.
  rewrite !decide_False by done. rewrite decide_True by done. rewrite Hpend.
  destruct (objects_get (settings_named db (grade g))) as [gs| |].
  - rewrite H2. by eexists.
  - rewrite H2. by eexists.
  - by eexists.
Qed.

Lemma without_grade_point_hidden cols : "Grade Point" ∉ without_grade_point cols.
Proof. unfold without_grade_point. rewrite list_elem_of_filter. by intros [? _]. Qed.

Lemma step_shown_then_hidden db c cols tab tab' s e tab1 s1 :
  require_approved_for_transcripts (policy db) = false →
  NoDup cols →
  step db c cols (tab, s) e = Returned (tab1, s1) →
  ∃ tab2, step db c (without_grade_point cols) (tab', s) e = Returned (tab2, s1).
Proof.
  intros Hreq Hnd. unfold step.
  destruct (objects_get (grades_of db e)) as [g| |]; [| |done].
  - assert (pending db g = false) as Hpend by (unfold pending; by rewrite Hreq).
    destruct (graded_row_hidden db e g (without_grade_point cols)
                (without_grade_point_hidden cols)) as [cells Hcells].
    rewrite Hcells.
    rewrite (bool_decide_eq_true_2 _ (without_grade_point_hidden cols)).
    destruct (decide ("Grade Point" ∈ cols)) as [Hin|Hnin].
    + pose proof (graded_row_shown db (bool_decide (enrollment_id e ∈ c)) e g cols [] s
                    Hnd Hin Hpend) as Hrow.
      rewrite (bool_decide_eq_false_2 ("Grade Point" ∉ cols)) by (intros H; by apply H).
      destruct (objects_get (settings_named db (grade g))) as [gs| |];
        destruct Hrow as [row' ->]; [| |done].
      * cbn [andb]. intros ?. simplify_eq.
        destruct (bool_decide (enrollment_id e ∈ c)); by eexists.
      * cbn [andb]. intros ?. simplify_eq.
        destruct (bool_decide (enrollment_id e ∈ c)); by eexists.
    + destruct (graded_row_hidden db e g cols Hnin) as [cells' Hcells'].
      rewrite Hcells'. rewrite (bool_decide_eq_true_2 ("Grade Point" ∉ cols)) by done.
      destruct (true && bool_decide (enrollment_id e ∈ c));
        [destruct (objects_get (settings_named db (grade g))) as [gs| |]|];
        intros ?; simplify_eq; by eexists.
  - intros ?. simplify_eq. by eexists.
Qed.

Lemma loop_shown_then_hidden db c cols tab tab' s0 es t s :
  require_approved_for_transcripts (policy db) = false →
  NoDup cols →
  loop db c cols (tab, s0) es = Returned (t, s) →
  ∃ t', loop db c (without_grade_point cols) (tab', s0) es = Returned (t', s).
Proof.
  intros Hreq Hnd. revert tab tab' s0.
  induction es as [|e es IH]; intros tab tab' s0; cbn [loop].
  - intros ?. simplify_eq. by eexists.
  - destruct (step db c cols (tab, s0) e) as [[ta u]|] eqn:E; [|done].
    apply (step_shown_then_hidden db c cols tab tab') in E as [tb ->]; [|done..].
    apply IH.
Qed.

(** X21: when approval is not required for transcripts and no column is
    listed twice, the totals behind the printed CGPA do not depend on
    whether the Grade Point column is shown: the table built without that
    column returns the same totals. *)
Theorem totals_same_with_grade_point_hidden db es columns t s :
  require_approved_for_transcripts (policy db) = false →
  NoDup columns →
  _build_grade_table_data db es columns = Returned (t, s) →
  ∃ t', _build_grade_table_data db es (without_grade_point columns) = Returned (t', s).
Proof.
  intros Hreq Hnd. unfold _build_grade_table_data. by apply loop_shown_then_hidden.
Qed.

Lemma totals_same_with_grade_point_hidden_witness :
  ∃ t', _build_grade_table_data (Sample.db_repeat "LATEST") [Sample.e1; Sample.e2]
          (without_grade_point ["Course Code"; "Grade"; "Grade Point"])
        = Returned (t', {| stats_grade_points := 12; stats_units := 3 |}).
Proof.
  apply (totals_same_with_grade_point_hidden _ _ _
           [ ["Course Code"; "Grade"; "Grade Point"];
             ["POL101"; "C"; "2.0"]; ["POL101"; "A"; "4.0"] ]).
  - reflexivity.
  - vm_compute. repeat constructor; set_solver.
  - by vm_compute.
Defined.

Lemma step_hidden_any_gate b db c cols tab tab' s e :
  "Grade Point" ∉ cols →
  match step db c cols (tab, s) e,
        step (with_transcript_approval b db) c cols (tab', s) e with
  | Returned (_, s1), Returned (_, s2) => s2 = s1
  | Raised exc1, Raised exc2 => exc2 = exc1
  | _, _ => False
  end.
Proof.
  intros Hnin. unfold step.
  change (grades_of (with_transcript_approval b db) e) with (grades_of db e).
  destruct (objects_get (grades_of db e)) as [g| |]; [| |done].
  - destruct (graded_row_hidden db e g cols Hnin) as [cells ->].
    destruct (graded_row_hidden (with_transcript_approval b db) e g cols Hnin)
      as [cells' ->].
    change (settings_named (with_transcript_approval b db) (grade g))
      with (settings_named db (grade g)).
    destruct (bool_decide ("Grade Point" ∉ cols) && bool_decide (enrollment_id e ∈ c));
      [|done].
    by destruct (objects_get (settings_named db (grade g))).
  - done.
Qed.

Lemma loop_hidden_any_gate b db c cols tab tab' s es :
  "Grade Point" ∉ cols →
  match loop db c cols (tab, s) es,
        loop (with_transcript_approval b db) c cols (tab', s) es with
  | Returned (_, s1), Returned (_, s2) => s2 = s1
  | Raised exc1, Raised exc2 => exc2 = exc1
  | _, _ => False
  end.
Proof.
  intros Hnin. revert tab tab' s. induction es as [|e es IH]; intros tab tab' s;
    cbn [loop]; [done|].
  pose proof (step_hidden_any_gate b db c cols tab tab' s e Hnin) as Hstep.
  destruct (step db c cols (tab, s) e) as [[ta u]|],
           (step (with_transcript_approval b db) c cols (tab', s) e) as [[tb u']|];
    try done.
  subst u'. apply IH.
Qed.

(** X22: a table that does not show the Grade Point column never applies
    the approval gate to its totals: with approval required for
    transcripts or not, it returns the same totals (or raises the same
    exception), so grades that are not approved still enter the CGPA
    printed under such a table. *)
Theorem hidden_grade_point_ignores_approval db es columns b :
  "Grade Point" ∉ columns →
  match _build_grade_table_data db es columns,
        _build_grade_table_data (with_transcript_approval b db) es columns with
  | Returned (_, s1), Returned (_, s2) => s2 = s1
  | Raised exc1, Raised exc2 => exc2 = exc1
  | _, _ => False
  end.
Proof.
  intros Hnin. unfold _build_grade_table_data.
  change (RepeatPolicy.select_enrollments_for_gpa (with_transcript_approval b db) es
            (Some (repeat_policy (policy (with_transcript_approval b db)))))
    with (RepeatPolicy.select_enrollments_for_gpa db es
            (Some (repeat_policy (policy db)))).
  by apply loop_hidden_any_gate.
Qed.

Lemma hidden_grade_point_ignores_approval_witness :
  match _build_grade_table_data Sample.db_approval [Sample.e3] ["Course Code"; "Grade"],
        _build_grade_table_data (with_transcript_approval true Sample.db_approval)
          [Sample.e3] ["Course Code"; "Grade"] with
  | Returned (_, s1), Returned (_, s2) => s2 = s1
  | Raised exc1, Raised exc2 => exc2 = exc1
  | _, _ => False
  end.
Proof. apply hidden_grade_point_ignores_approval. vm_compute. set_solver. Defined.

(** With approval required, the draft A of APP101 is shown as PENDING;
    it adds to the totals when the Grade Point column is hidden and does
    not when the column is shown. *)
Example pending_grade_counted_when_hidden :
  _build_grade_table_data (with_transcript_approval true Sample.db_approval)
    [Sample.e3] ["Course Code"; "Grade"]
  = Returned ([ ["Course Code"; "Grade"]; ["APP101"; "PENDING"] ],
              {| stats_grade_points := 12; stats_units := 3 |})
  ∧ _build_grade_table_data (with_transcript_approval true Sample.db_approval)
      [Sample.e3] ["Course Code"; "Grade"; "Grade Point"]
    = Returned ([ ["Course Code"; "Grade"; "Grade Point"]; ["APP101"; "PENDING"; "N/A"] ],
                {| stats_grade_points := 0; stats_units := 0 |}).
Proof. by vm_compute. Qed.

End transcript_table.

(** ** The totals of the grade table against the recomputed metrics *)

Section transcript_vs_metrics.

Lemma steps_agree db c cols a tab st e :
  require_approved_for_metrics (policy db) = false →
  require_approved_for_transcripts (policy db) = false →
  NoDup cols →
  with_usable_grade_or_none db e →
  Metrics.total_grade_points a = TranscriptTable.stats_grade_points st →
  Metrics.total_units a = TranscriptTable.stats_units st →
  ∃ a' tab' st',
    Metrics.step db c a e = Metrics.Returned a'
    ∧ TranscriptTable.step db c cols (tab, st) e = Metrics.Returned (tab', st')
    ∧ Metrics.total_grade_points a' = TranscriptTable.stats_grade_points st'
    ∧ Metrics.total_units a' = TranscriptTable.stats_units st'.
Proof.
  intros Hm Ht Hnd Hres Hp Hu. unfold Metrics.step, TranscriptTable.step.
  destruct Hres as [Hg|(g & gs & Hg & Hs)]; rewrite Hg; cbn [objects_get].
  - eexists _, _, _. split; [done|]. split; [done|].
    unfold Metrics.no_grade_branch; cbn. rewrite Hp, Hu.
    destruct (decide (enrollment_id e ∈ c)) as [Hin|Hin].
    + by rewrite bool_decide_eq_true_2.
    + by rewrite bool_decide_eq_false_2.
  - rewrite Hm. cbn [andb]. rewrite Hs. cbn [objects_get].
    assert (TranscriptTable.pending db g = false) as Hpend
      by (unfold TranscriptTable.pending; by rewrite Ht).
    assert (Metrics.total_grade_points
              (Metrics.graded_branch c e gs a)
            = TranscriptTable.stats_grade_points
                (if bool_decide (enrollment_id e ∈ c)
                 then TranscriptTable.add_graded (course e) (grade_point gs) st else st)
            ∧ Metrics.total_units (Metrics.graded_branch c e gs a)
              = TranscriptTable.stats_units
                  (if bool_decide (enrollment_id e ∈ c)
                   then TranscriptTable.add_graded (course e) (grade_point gs) st else st))
      as [Hp' Hu'].
    { unfold Metrics.graded_branch, TranscriptTable.add_graded; cbn.
      destruct (bool_decide (enrollment_id e ∈ c)); cbn; [|done].
      by rewrite Hp, Hu, Qmult_comm_eq. }
    destruct (decide ("Grade Point" ∈ cols)) as [Hin|Hnin].
    + pose proof (graded_row_shown db (bool_decide (enrollment_id e ∈ c)) e g cols [] st
                    Hnd Hin Hpend) as Hrow.
      rewrite Hs in Hrow. cbn [objects_get] in Hrow. destruct Hrow as [row' ->].
      rewrite (bool_decide_eq_false_2 ("Grade Point" ∉ cols)) by (intros H; by apply H).
      cbn [andb]. by eexists _, _, _.
    + destruct (graded_row_hidden db e g cols Hnin) as [cells ->].
      rewrite (bool_decide_eq_true_2 ("Grade Point" ∉ cols)) by done. cbn [andb].
      destruct (bool_decide (enrollment_id e ∈ c)) eqn:E.
      * by eexists _, _, _.
      * by eexists _, _, _.
Qed.

Lemma loops_agree db c cols a tab st es :
  require_approved_for_metrics (policy db) = false →
  require_approved_for_transcripts (policy db) = false →
  NoDup cols →
  (∀ e, e ∈ es → with_usable_grade_or_none db e) →
  Metrics.total_grade_points a = TranscriptTable.stats_grade_points st →
  Metrics.total_units a = TranscriptTable.stats_units st →
  ∃ a' tab' st',
    Metrics.loop db c a es = Metrics.Returned a'
    ∧ TranscriptTable.loop db c cols (tab, st) es = Metrics.Returned (tab', st')
    ∧ Metrics.total_grade_points a' = TranscriptTable.stats_grade_points st'
    ∧ Metrics.total_units a' = TranscriptTable.stats_units st'.
Proof.
  intros Hm Ht Hnd. revert a tab st.
  induction es as [|e es IH]; intros a tab st Hres Hp Hu;
    cbn [Metrics.loop TranscriptTable.loop].
  - by eexists _, _, _.
  - destruct (steps_agree db c cols a tab st e) as (a1 & tab1 & st1 & -> & -> & Hp1 & Hu1);
      try done.
    { apply Hres. apply elem_of_cons. by left. }
    apply IH; [|done..]. intros e' He'. apply Hres. apply elem_of_cons. by right.
Qed.

(** X30: with neither approval gate switched on, no column listed twice,
    and every enrollment of the student either without a grade row or
    with one grade row whose letter names exactly one row of the scale,
    the grade table and [update_academic_metrics] accumulate the same
    totals: the same units, and the same sum of grade points.  The units
    attempted that a call stores are then the units of the table; the
    call can only fail, with [save] set, by what [self.save] raises on
    the values computed. *)
Theorem transcript_totals_match_metrics student_save db self columns save :
  require_approved_for_metrics (policy db) = false →
  require_approved_for_transcripts (policy db) = false →
  NoDup columns →
  (∀ e, e ∈ enrollment_set db self → with_usable_grade_or_none db e) →
  ∃ a t st,
    Metrics.loop db
      (RepeatPolicy.select_enrollments_for_gpa db (enrollment_set db self)
         (Some (repeat_policy (policy db))))
      Metrics.acc0 (enrollment_set db self) = Metrics.Returned a
    ∧ TranscriptTable._build_grade_table_data db (enrollment_set db self) columns
      = Metrics.Returned (t, st)
    ∧ Metrics.total_units a = TranscriptTable.stats_units st
    ∧ Metrics.total_grade_points a = TranscriptTable.stats_grade_points st
    ∧ match StudentModel.update_academic_metrics_call student_save db self save with
      | Metrics.Returned m =>
          Metrics.total_units_attempted m = TranscriptTable.stats_units st
      | Metrics.Raised exc =>
          save = true ∧ student_save self (Metrics.finish a) = Some exc
      end.
Proof.
  intros Hm Ht Hnd Hres.
  unfold StudentModel.update_academic_metrics_call, Metrics.update_academic_metrics,
    TranscriptTable._build_grade_table_data.
  destruct (loops_agree db
              (RepeatPolicy.select_enrollments_for_gpa db (enrollment_set db self)
                 (Some (repeat_policy (policy db))))
              columns Metrics.acc0 [columns]
              {| TranscriptTable.stats_grade_points := 0; TranscriptTable.stats_units := 0 |}
              (enrollment_set db self) Hm Ht Hnd Hres eq_refl eq_refl)
    as (a & tab & st & -> & -> & Hp & Hu).
  exists a, tab, st. repeat (split; [done|]).
  destruct save; [|done].
  by destruct (student_save self (Metrics.finish a)).
Qed.

Lemma transcript_totals_match_metrics_witness :
  ∃ a t st,
    Metrics.loop (Sample.db_repeat "BEST")
      (RepeatPolicy.select_enrollments_for_gpa (Sample.db_repeat "BEST")
         (enrollment_set (Sample.db_repeat "BEST") Sample.pol1)
         (Some (repeat_policy (policy (Sample.db_repeat "BEST")))))
      Metrics.acc0 (enrollment_set (Sample.db_repeat "BEST") Sample.pol1)
    = Metrics.Returned a
    ∧ TranscriptTable._build_grade_table_data (Sample.db_repeat "BEST")
        (enrollment_set (Sample.db_repeat "BEST") Sample.pol1) ["Course Code"; "Grade"]
      = Metrics.Returned (t, st)
    ∧ Metrics.total_units a = TranscriptTable.stats_units st
    ∧ Metrics.total_grade_points a = TranscriptTable.stats_grade_points st
    ∧ match StudentModel.update_academic_metrics_call (λ _ _, None)
              (Sample.db_repeat "BEST") Sample.pol1 true with
      | Metrics.Returned m =>
          Metrics.total_units_attempted m = TranscriptTable.stats_units st
      | Metrics.Raised exc =>
          true = true ∧ (λ (_ : Student) (_ : Metrics.metrics), @None string)
                          Sample.pol1 (Metrics.finish a) = Some exc
      end.
Proof.
  apply (transcript_totals_match_metrics (λ _ _, None)); [reflexivity|reflexivity| |].
  - repeat constructor; set_solver.
  - intros e He. vm_compute in He.
    repeat (apply elem_of_cons in He as [->|He];
            [right; eexists _, _; split; by vm_compute|]).
    by apply elem_of_nil in He.
Defined.

End transcript_vs_metrics.

(** ** Codes, the record store and the life of a record *)

Section verification_extras.
Import Json CanonicalPayload Security.

Context (SECRET_KEY base_verification_url : string).
Context (isoformat : Z → string) (fromisoformat : string → option Z).

Lemma upper_hexchar_is_upper_hex n :
  is_upper_hex (Py.upper_ascii (Sha256.hexchar n)) = true.
Proof.
  destruct n as [|p|p]; try reflexivity.
  do 4 (try destruct p as [p|p|]); reflexivity.
Qed.

(** X23: a verification code is always the four characters [TXN-]
    followed by twelve characters that are decimal digits or upper-case
    letters from A to F, sixteen characters in all, and stripping and
    upper-casing it gives it back. *)
Theorem verification_code_format student_id generation_timestamp :
  let code := generate_verification_code SECRET_KEY isoformat student_id
                generation_timestamp in
  String.length code = 16%nat
  ∧ substring 0 4 code = "TXN-"
  ∧ string_forall is_upper_hex (substring 4 12 code) = true
  ∧ Py.upper (Py.strip code) = code.
Proof.
  intros code. split; [|split; [|split]]; [| | |apply generated_code_normal].
  all: subst code; unfold generate_verification_code, Sha256.hexdigest, Sha256.hex8.
  all: generalize (Sha256.digest (student_id +:+ ":" +:+ isoformat generation_timestamp
                                  +:+ ":" +:+ SECRET_KEY)); intros h.
  - reflexivity.
  - reflexivity.
  - simpl. by rewrite !upper_hexchar_is_upper_hex.
Qed.

Lemma isspace_upper c : Py.isspace (Py.upper_ascii c) = Py.isspace c.
Proof. destruct c as [[] [] [] [] [] [] [] []]; reflexivity. Qed.

Lemma upper_lstrip s : Py.upper (Py.lstrip s) = Py.lstrip (Py.upper s).
Proof.
  induction s as [|c s IH]; simpl; [done|]. rewrite isspace_upper.
  by destruct (Py.isspace c).
Qed.

Lemma upper_rstrip s : Py.upper (Py.rstrip s) = Py.rstrip (Py.upper s).
Proof.
  induction s as [|c s IH]; simpl; [done|]. rewrite <- IH, isspace_upper.
  destruct (Py.rstrip s); simpl; [by destruct (Py.isspace c)|done].
Qed.

Lemma rstrip_idemp s : Py.rstrip (Py.rstrip s) = Py.rstrip s.
Proof.
  induction s as [|c s IH]; simpl; [done|].
  destruct (Py.rstrip s) as [|a r] eqn:E.
  - destruct (Py.isspace c) eqn:Ec; simpl; [done|]. by rewrite Ec.
  - change (Py.rstrip (String c (String a r)))
      with (match Py.rstrip (String a r) with
            | EmptyString => if Py.isspace c then EmptyString else String c EmptyString
            | r' => String c r'
            end).
    by rewrite IH.
Qed.

Lemma lstrip_rstrip_lstrip s : Py.lstrip (Py.rstrip (Py.lstrip s)) = Py.rstrip (Py.lstrip s).
Proof.
  induction s as [|c s IH]; simpl; [done|].
  destruct (Py.isspace c) eqn:Ec; [done|]. simpl.
  destruct (Py.rstrip s); simpl; rewrite ?Ec; simpl; by rewrite ?Ec.
Qed.

(** The form under which codes are looked up is reached in one step. *)
Lemma normal_form_idemp s :
  Py.upper (Py.strip (Py.upper (Py.strip s))) = Py.upper (Py.strip s).
Proof.
  unfold Py.strip.
  rewrite <- upper_lstrip, <- upper_rstrip, upper_idemp.
  by rewrite lstrip_rstrip_lstrip, rstrip_idemp.
Qed.

(** X24: a code is verified in its stripped, upper-case form: presenting
    a code with other letter case or with surrounding white space gives
    the same result, and leaves the same state behind, as presenting its
    normal form. *)
Theorem verify_normalises_code code w :
  verify_transcript_security isoformat (Py.upper (Py.strip code)) w
  = verify_transcript_security isoformat code w.
Proof.
  unfold verify_transcript_security, verify_transcript.
  by rewrite !or_else_some, normal_form_idemp.
Qed.

Lemma validate_ignores_verified_at v d :
  _validate_tamper_evidence (set "verified_at" v d) = _validate_tamper_evidence d.
Proof. unfold _validate_tamper_evidence. by rewrite !get_set_ne. Qed.

(** The result of a verification, in closed form. *)
Lemma verify_result code w :
  (verify_transcript_security isoformat code w).1
  = match verification_records w !! Py.upper (Py.strip code) with
    | Some rec =>
        if (is_active rec w).1 then
          let d := set "verified_at" (JStr (isoformat (clock w (S (ticks w)))))
                       (payload_json rec) in
          {| valid := (_validate_tamper_evidence (payload_json rec)).1;
             error := if (_validate_tamper_evidence (payload_json rec)).1 then None
                      else (_validate_tamper_evidence (payload_json rec)).2;
             verified_at := isoformat (clock w (S (S (ticks w))));
             data := Some d |}
        else {| valid := false; error := Some "Invalid or expired verification code";
                verified_at := isoformat (clock w (S (ticks w))); data := None |}
    | None => {| valid := false; error := Some "Invalid or expired verification code";
                 verified_at := isoformat (clock w (ticks w)); data := None |}
    end.
Proof.
  unfold verify_transcript_security, verify_transcript.
  rewrite or_else_some.
  unfold mbind, M_bind, mret, M_ret, read. cbv beta iota zeta.
  destruct (verification_records w !! Py.upper (Py.strip code)) as [rec|];
    cbv beta iota zeta; [|done].
  rewrite (is_active_run rec w). cbv beta iota zeta.
  destruct (is_active rec w).1; unfold timezone_now, cache_set;
    cbn [negb fst snd ticks clock tables verification_records cache]; [|done].
  rewrite set_truthy, validate_ignores_verified_at.
  destruct (_validate_tamper_evidence (payload_json rec)) as [[] err]; done.
Qed.

Lemma verify_valid_iff code w :
  valid (verify_transcript_security isoformat code w).1 = true
  ↔ ∃ rec, verification_records w !! Py.upper (Py.strip code) = Some rec
           ∧ ¬ inactive rec (clock w (ticks w))
           ∧ (_validate_tamper_evidence (payload_json rec)).1 = true.
Proof.
  rewrite verify_result.
  destruct (verification_records w !! Py.upper (Py.strip code)) as [rec|].
  - pose proof (is_active_spec rec w) as Hact.
    destruct (is_active rec w).1; simpl.
    + split.
      * intros Hv. exists rec. split; [done|]. split; [|done].
        intros Hin. apply Hact in Hin. done.
      * intros (rec' & ? & _ & Hv). by simplify_eq.
    + split; [done|]. intros (rec' & ? & Hn & _). simplify_eq. exfalso.
      apply Hn. by apply Hact.
  - simpl. split; [done|]. by intros (rec' & ? & _).
Qed.

(** What [update_or_create] leaves behind. *)
Lemma update_or_create_post code student sn ts dh cn url data exp w :
  let r := update_or_create code student sn ts dh cn url data exp w in
  tables r.2 = tables w ∧ clock r.2 = clock w ∧ cache r.2 = cache w
  ∧ (r.1 = false → verification_records r.2 = verification_records w)
  ∧ (r.1 = true →
       ∃ rec, verification_records r.2 = <[code := rec]> (verification_records w)
         ∧ verification_code rec = code ∧ payload_json rec = data
         ∧ revoked_at rec = (verification_records w !! code) ≫= revoked_at
         ∧ (∀ old, verification_records w !! code = Some old →
                   created_at rec = created_at old)
         ∧ expires_at rec = Some exp).
Proof.
  unfold update_or_create, save_record.
  unfold mbind, M_bind, mret, M_ret, read, timezone_now.
  cbn [negb fst snd ticks clock tables verification_records cache].
  destruct (verification_records w !! code) as [old|] eqn:Hold;
    destruct sn as [sn|], dh as [dh|], cn as [cn|], url as [url|];
    cbn [negb fst snd ticks clock tables verification_records cache];
    (split; [done|]); (split; [done|]); (split; [done|]); (split; [done|]);
    try done; intros _; eexists; (split; [done|]);
    cbn [verification_code payload_json revoked_at created_at expires_at];
    split_and!; try done; intros; by simplify_eq.
Qed.

(** What [store_verification_data] leaves behind. *)
Lemma store_post code data w :
  let r := store_verification_data fromisoformat code data w in
  tables r.2 = tables w ∧ clock r.2 = clock w
  ∧ cache r.2 !! ("transcript_verify:" +:+ code) = Some (data, verification_cache_timeout)
  ∧ (r.1 = false → verification_records r.2 = verification_records w)
  ∧ (r.1 = true →
       ∃ rec, verification_records r.2 = <[code := rec]> (verification_records w)
         ∧ verification_code rec = code ∧ payload_json rec = data
         ∧ revoked_at rec = (verification_records w !! code) ≫= revoked_at
         ∧ (∀ old, verification_records w !! code = Some old →
                   created_at rec = created_at old)
         ∧ expires_at rec
           = Some (clock w (ticks w) + verification_cache_timeout * 1000000)).
Proof.
  intros r. pattern r.
  match goal with |- ?Q r => set (P := Q) end.
  subst r. unfold store_verification_data.
  unfold mbind, M_bind, mret, M_ret, read, timezone_now, cache_set.
  cbn [negb fst snd ticks clock tables verification_records cache].
  assert (∀ n, P (false, {| tables := tables w;
                            verification_records := verification_records w;
                            cache := <["transcript_verify:" +:+ code
                                       := (data, verification_cache_timeout)]> (cache w);
                            clock := clock w; ticks := n |})) as Hfalse.
  { intros n. subst P. cbn [fst snd tables clock cache verification_records].
    split; [done|]. split; [done|]. split; [apply lookup_insert_eq|]. by split. }
  assert (∀ n student sn t dh cn url,
            P (update_or_create code student sn t dh cn url data
                 (clock w (ticks w) + verification_cache_timeout * 1000000)
                 {| tables := tables w; verification_records := verification_records w;
                    cache := <["transcript_verify:" +:+ code
                               := (data, verification_cache_timeout)]> (cache w);
                    clock := clock w; ticks := n |})) as Hwrite.
  { intros n student sn t dh cn url.
    match goal with |- P (update_or_create ?a ?b ?c ?d ?e ?f ?g ?h ?i ?w1) =>
      pose proof (update_or_create_post a b c d e f g h i w1) as Hpost;
      destruct (update_or_create a b c d e f g h i w1) as [ok w2]
    end.
    cbn [fst snd tables clock cache verification_records] in Hpost.
    destruct Hpost as (Ht & Hc & Hca & Hf & Htr). subst P.
    cbn [fst snd]. rewrite Ht, Hc, Hca. split; [done|]. split; [done|].
    split; [apply lookup_insert_eq|]. split; [intros ->; by apply Hf|].
    intros ->. by apply Htr. }
  clearbody P.
  destruct (truthy (get "student_id" data)); cbn [negb]; [|apply Hfalse].
  destruct (match get "student_id" data with JStr sid => _ | _ => _ end)
    as [student| |]; [|apply Hfalse..].
  destruct (match get "generation_timestamp" data with JStr s => _ | _ => _ end)
    as [parsed|]; [|apply Hfalse].
  destruct parsed as [t|];
    cbn [negb fst snd ticks clock tables verification_records cache].
  - apply Hwrite.
  - destruct (truthy (get "generation_timestamp" data));
      cbn [negb fst snd ticks clock tables verification_records cache];
      [apply Hfalse|apply Hwrite].
Qed.




End verification_extras.

Section verification_extras_samples.
Import Json CanonicalPayload Security.




End verification_extras_samples.

(** ** Issuance for a student the table does not hold *)

Section issuance_extras.
Import Json CanonicalPayload Security.

Context (SECRET_KEY base_verification_url : string).
Context (isoformat : Z → string) (fromisoformat : string → option Z).

Lemma store_needs_student code data sid w :
  get "student_id" data = JStr sid →
  sid = "" ∨ (∀ s, objects_get (filter (λ s, student_id s = sid) (students (tables w)))
                   ≠ Found s) →
  (store_verification_data fromisoformat code data w).1 = false.
Proof.
  intros Hsid Hno. unfold store_verification_data.
  unfold mbind, M_bind, mret, M_ret, read, timezone_now, cache_set.
  cbn [negb fst snd ticks clock tables verification_records cache].
  rewrite Hsid. cbn [truthy].
  destruct (decide (sid = "")) as [->|Hne]; [done|].
  rewrite bool_decide_eq_false_2 by done.
  cbn [negb fst snd ticks clock tables verification_records cache].
  destruct Hno as [?|Hno]; [done|].
  destruct (objects_get (filter (λ s, student_id s = sid) (students (tables w))))
    as [s| |] eqn:E; [|done..].
  by destruct (Hno s).
Qed.


End issuance_extras.

Section issuance_extras_samples.
Import Json CanonicalPayload Security.


End issuance_extras_samples.

(** ** The canonical text and the order of keys, at any depth *)

Section canonical_order.
Import Json CanonicalPayload Security.

(** Induction over a JSON value and the values nested in it. *)
Lemma json_nested_ind (P : json → Prop) :
  P JNull → (∀ b, P (JBool b)) → (∀ n, P (JInt n)) → (∀ x, P (JFloat x)) →
  (∀ s, P (JStr s)) →
  (∀ items, Forall P items → P (JArr items)) →
  (∀ members, Forall (λ kv, P kv.2) members → P (JObj members)) →
  ∀ j, P j.
Proof.
  intros Hnull Hbool Hint Hfloat Hstr Harr Hobj. fix IH 1.
  intros [ |b|n|x|s|items|members]; [done..| |].
  - apply Harr. induction items as [|x items IHitems]; constructor; [apply IH|done].
  - apply Hobj. induction members as [|[k v] members IHm]; constructor; [apply IH|done].
Qed.

Lemma distinct_keys_arr items :
  distinct_keys (JArr items) ↔ Forall distinct_keys items.
Proof.
  simpl. induction items as [|x items IH]; [by split|].
  rewrite Forall_cons, IH. done.
Qed.

Lemma distinct_keys_obj members :
  distinct_keys (JObj members)
  ↔ NoDup members.*1 ∧ Forall (λ kv, distinct_keys kv.2) members.
Proof.
  simpl. apply and_iff_compat_l.
  induction members as [|[k v] members IH]; [by split|].
  rewrite Forall_cons, IH. done.
Qed.

Lemma dumps_same_json j1 :
  ∀ j2, distinct_keys j1 → same_json j1 j2 → dumps j1 = dumps j2.
Proof.
  induction j1 as [ | | | | |items IH|members IH] using json_nested_ind;
    intros j2 Hd Hs; inversion Hs as [|xs ys Hall|m1 m2 m Hall Hperm]; subst; try done.
  - apply distinct_keys_arr in Hd. cbn [dumps].
    assert (List.map dumps items = List.map dumps ys) as ->; [|done].
    clear Hs. induction Hall as [|x y xs ys Hxy Hall IHall]; [done|].
    apply Forall_cons in IH as [IHx IH], Hd as [Hdx Hd].
    cbn [List.map]. rewrite (IHx y Hdx Hxy). f_equal. by apply IHall.
  - apply distinct_keys_obj in Hd as [Hnd Hd]. cbn [dumps].
    set (render := λ kv : string * json, let '(k, v) := kv in (k, dumps v)).
    assert (List.map render members = List.map render m) as Hren.
    { clear Hs Hperm Hnd. induction Hall as [|[k v] [k' v'] xs ys [Hk Hv] Hall IHall];
        [done|].
      apply Forall_cons in IH as [IHx IH], Hd as [Hdx Hd]. simpl in *. subst k'.
      cbn [List.map]. rewrite (IHall IH Hd). f_equal.
      unfold render. f_equal. by apply IHx. }
    fold render. rewrite Hren.
    assert (merge_sort key_le (List.map render m)
            = merge_sort key_le (List.map render m2)) as ->; [|done].
    apply sort_by_key_perm.
    + rewrite <- Hren. unfold render. by rewrite render_fst.
    + by apply render_perm.
Qed.

(** X28: the canonical text of a payload, and with it the digest, does
    not depend on the order in which the keys of any of its objects are
    listed, at whatever depth: two values that agree up to the order of
    object members have the same serialization and the same hash. *)
Theorem canonical_json_ignores_key_order p1 p2 :
  distinct_keys p1 → same_json p1 p2 →
  canonical_json p1 = canonical_json p2
  ∧ generate_document_hash (canonical_json p1)
    = generate_document_hash (canonical_json p2).
Proof.
  intros Hd Hs. unfold canonical_json.
  by rewrite (dumps_same_json p1 p2 Hd Hs).
Qed.

Lemma canonical_json_ignores_key_order_witness :
  canonical_json Cases.nested = canonical_json Cases.nested_reordered
  ∧ generate_document_hash (canonical_json Cases.nested)
    = generate_document_hash (canonical_json Cases.nested_reordered).
Proof.
  apply canonical_json_ignores_key_order.
  - vm_compute. repeat split; repeat constructor; set_solver.
  - unfold Cases.nested, Cases.nested_reordered.
    apply (same_json_obj _ _
             [ ("student", JObj [ ("last_name", JStr "Doe");
                                  ("student_id", JStr "TAMP1") ]);
               ("enrollments",
                JArr [ JObj [ ("grade", JStr "A"); ("units", JInt 3) ] ]) ]).
    + constructor; [split; [done|]|constructor; [split; [done|]|constructor]].
      * apply (same_json_obj _ _ [ ("student_id", JStr "TAMP1");
                                   ("last_name", JStr "Doe") ]).
        -- repeat constructor.
        -- apply Permutation_swap.
      * apply same_json_arr. constructor; [|constructor].
        apply (same_json_obj _ _ [ ("units", JInt 3); ("grade", JStr "A") ]).
        -- repeat constructor.
        -- apply Permutation_swap.
    + apply Permutation_swap.
Defined.

Example canonical_json_nested_text :
  canonical_json Cases.nested_reordered
  = "{" +:+ quote "enrollments" +:+ ":[{" +:+ quote "grade" +:+ ":" +:+ quote "A"
    +:+ "," +:+ quote "units" +:+ ":3}]," +:+ quote "student" +:+ ":{"
    +:+ quote "last_name" +:+ ":" +:+ quote "Doe" +:+ "," +:+ quote "student_id"
    +:+ ":" +:+ quote "TAMP1" +:+ "}}".
Proof. by vm_compute. Qed.

End canonical_order.
